(** * SST25V serial flash driver (src/pic/SST25V.h)

    A shallow embedding of the bit-banged SPI driver and the properties of
    its bus traffic.  The driver talks to the outside world only through
    the compiler's pin and delay built-ins; here every such call is an
    event appended to a history, and the level read on an input pin is a
    function of the history so far. *)

From Stdlib Require Import ZArith List Bool Lia.
Import ListNotations.
Local Open Scope Z_scope.

(** ** Pins, events and histories *)

Inductive pin : Type := FLASH_SELECT | FLASH_CLOCK | FLASH_DI | FLASH_DO.

Inductive port : Type := PORT_B | PORT_C.

Inductive event : Type :=
| Tris (p : port) (mask : Z)          (* Set_Tris_B / Set_Tris_C *)
| Drive (p : pin) (level : bool)      (* output_high / output_low / output_bit *)
| Sample (p : pin) (level : bool)     (* input(p) returned level *)
| DelayUs (n : Z)                     (* delay_us(n) *)
| DelayCycles (n : Z).                (* delay_cycles(n) *)

Definition trace : Type := list event.

Definition pin_eqb (p q : pin) : bool :=
  match p, q with
  | FLASH_SELECT, FLASH_SELECT | FLASH_CLOCK, FLASH_CLOCK
  | FLASH_DI, FLASH_DI | FLASH_DO, FLASH_DO => true
  | _, _ => false
  end.

(** What the program cannot decide for itself: the level found on a pin when
    it is read, the content of an uninitialised [int8] local (both may
    depend on everything that happened before), and the direction masks
    that the main program defines. *)
Record platform : Type := {
  wire : pin -> trace -> bool;
  stale : trace -> Z;
  TRISB_Master : Z;
  TRISC_Master : Z;
  TRISB_Disable : Z;
  TRISC_Disable : Z
}.

(** ** Outcomes

    A call either returns a value with the extended history, is still
    inside one of the two polling loops when the fuel is used up, or
    touches memory outside the caller's buffer. *)

Inductive outcome (A : Type) : Type :=
| Done (a : A) (h : trace)
| Spin
| Fault.

Arguments Done {A} a h.
Arguments Spin {A}.
Arguments Fault {A}.

Definition M (A : Type) : Type := trace -> outcome A.

Definition ret {A} (a : A) : M A := fun h => Done a h.

Definition bind {A B} (m : M A) (k : A -> M B) : M B :=
  fun h => match m h with
           | Done a h' => k a h'
           | Spin => Spin
           | Fault => Fault
           end.

Definition fault {A} : M A := fun _ => Fault.

Definition emit (e : event) : M unit := fun h => Done tt (h ++ [e]).

Notation "x <- c1 ;; c2" := (bind c1 (fun x => c2))
  (at level 61, c1 at next level, right associativity).
Notation "c1 ;; c2" := (bind c1 (fun _ => c2))
  (at level 61, right associativity).

(** ** Machine integers

    The compiler's [int8], [int16] and [int32] are unsigned; a value of
    such a type is an integer in the range of the type, and arithmetic
    wraps around. *)

Definition wrap8 (x : Z) : Z := Z.land x 255.
Definition wrap16 (x : Z) : Z := x mod 65536.
Definition wrap32 (x : Z) : Z := x mod 4294967296.

(** [Make8(var, offset)]: byte [offset] of [var]. *)
Definition Make8 (var offset : Z) : Z :=
  Z.land (Z.shiftr var (8 * offset)) 255.

(** [shift_left(&x, 1, b)] on a one-byte object: returns the bit that falls
    out at the top and the byte with [b] shifted in at the bottom. *)
Definition shift_left (x : Z) (b : bool) : bool * Z :=
  (Z.testbit x 7, wrap8 (Z.lor (Z.shiftl x 1) (Z.b2z b))).

(** ** Caller's buffers *)

Definition buf_get (buffer : list Z) (i : Z) : M Z :=
  if i <? 0 then fault
  else match nth_error buffer (Z.to_nat i) with
       | Some v => ret v
       | None => fault
       end.

Fixpoint set_nth (l : list Z) (n : nat) (v : Z) : list Z :=
  match l, n with
  | [], _ => []
  | _ :: t, O => v :: t
  | x :: t, S n' => x :: set_nth t n' v
  end.

Definition buf_set (buffer : list Z) (i : Z) (v : Z) : M (list Z) :=
  if i <? 0 then fault
  else match nth_error buffer (Z.to_nat i) with
       | Some _ => ret (set_nth buffer (Z.to_nat i) v)
       | None => fault
       end.

(** ** The driver *)

Definition SCLKDELAY : Z := 2.
Definition SELSDELAY : Z := 1.

Section Driver.

Variable E : platform.

Definition output_high (p : pin) : M unit := emit (Drive p true).
Definition output_low (p : pin) : M unit := emit (Drive p false).
Definition output_bit (p : pin) (b : bool) : M unit := emit (Drive p b).
Definition delay_us (n : Z) : M unit := emit (DelayUs n).
Definition delay_cycles (n : Z) : M unit := emit (DelayCycles n).
Definition Set_Tris_B (v : Z) : M unit := emit (Tris PORT_B v).
Definition Set_Tris_C (v : Z) : M unit := emit (Tris PORT_C v).

Definition input (p : pin) : M bool :=
  fun h => Done (wire E p h) (h ++ [Sample p (wire E p h)]).

(** An [int8] local declared without initialiser. *)
Definition uninit : M Z := fun h => Done (stale E h) h.

Definition Init_STFlash : M unit :=
  Set_Tris_B (TRISB_Master E) ;;
  Set_Tris_C (TRISC_Master E) ;;
  output_high FLASH_SELECT ;;
  output_low FLASH_CLOCK.

Definition Disable_STFlash : M unit :=
  Set_Tris_C (TRISC_Disable E) ;;
  Set_Tris_B (TRISB_Disable E).

Definition chip_select : M unit :=
  output_low FLASH_CLOCK ;;
  output_low FLASH_SELECT ;;
  delay_us SELSDELAY.

Definition chip_deselect : M unit :=
  output_high FLASH_SELECT ;;
  output_low FLASH_CLOCK ;;
  delay_us SELSDELAY.

(** [for(i=0; i<8; i++)]: [n] is the number of iterations still to run. *)
Fixpoint SendByte_loop (n : nat) (data : Z) : M unit :=
  match n with
  | O => ret tt
  | S n' =>
      let (b, data') := shift_left data false in
      output_bit FLASH_DI b ;;
      output_high FLASH_CLOCK ;;
      delay_cycles SCLKDELAY ;;
      output_low FLASH_CLOCK ;;
      delay_cycles SCLKDELAY ;;
      SendByte_loop n' data'
  end.

Definition STFlash_SendByte (data : Z) : M unit := SendByte_loop 8 data.

Fixpoint GetByte_loop (n : nat) (flashData : Z) : M Z :=
  match n with
  | O => ret flashData
  | S n' =>
      output_high FLASH_CLOCK ;;
      delay_cycles SCLKDELAY ;;
      b <- input FLASH_DO ;;
      let flashData' := snd (shift_left flashData b) in
      output_low FLASH_CLOCK ;;
      delay_cycles SCLKDELAY ;;
      GetByte_loop n' flashData'
  end.

Definition STFlash_GetByte : M Z :=
  flashData <- uninit ;;
  GetByte_loop 8 flashData.

(** Inner loop of [STFlash_getBytes]: eight shifts into [data[i]]. *)
Fixpoint getBytes_bits (n : nat) (data : list Z) (i : Z) : M (list Z) :=
  match n with
  | O => ret data
  | S n' =>
      output_high FLASH_CLOCK ;;
      delay_cycles SCLKDELAY ;;
      b <- input FLASH_DO ;;
      x <- buf_get data i ;;
      data' <- buf_set data i (snd (shift_left x b)) ;;
      output_low FLASH_CLOCK ;;
      delay_cycles SCLKDELAY ;;
      getBytes_bits n' data' i
  end.

(** [for(i=0; i<size; i++)] with [int16 i]: [n] iterations remain. *)
Fixpoint getBytes_loop (n : nat) (data : list Z) (i : Z) : M (list Z) :=
  match n with
  | O => ret data
  | S n' =>
      data' <- getBytes_bits 8 data i ;;
      getBytes_loop n' data' (wrap16 (i + 1))
  end.

Definition STFlash_getBytes (data : list Z) (size : Z) : M (list Z) :=
  getBytes_loop (Z.to_nat size) data 0.

Definition STFlash_readStatus : M Z :=
  chip_select ;;
  STFlash_SendByte 5 ;;
  status <- STFlash_GetByte ;;
  chip_deselect ;;
  ret status.

(** [while(input(FLASH_DO));] *)
Fixpoint wait_DO_low (fuel : nat) : M unit :=
  match fuel with
  | O => fun _ => Spin
  | S fuel' =>
      b <- input FLASH_DO ;;
      if b then wait_DO_low fuel' else ret tt
  end.

Definition STFlash_waitUntilReady (fuel : nat) : M unit :=
  chip_select ;;
  STFlash_SendByte 5 ;;
  wait_DO_low fuel ;;
  STFlash_GetByte ;;
  chip_deselect.

Definition STFlash_WriteEnable : M unit :=
  chip_select ;;
  STFlash_SendByte 6 ;;
  chip_deselect.

Definition STFlash_WriteDisable : M unit :=
  chip_select ;;
  STFlash_SendByte 4 ;;
  chip_deselect.

Definition STFlash_writeStatus (value : Z) : M unit :=
  STFlash_WriteEnable ;;
  chip_select ;;
  STFlash_SendByte 1 ;;
  STFlash_SendByte value ;;
  chip_deselect ;;
  STFlash_WriteDisable.

Definition STFlash_ReadBlock (Address : Z) (buffer : list Z) (size : Z)
  : M (list Z) :=
  chip_select ;;
  STFlash_SendByte 3 ;;
  STFlash_SendByte (Make8 Address 2) ;;
  STFlash_SendByte (Make8 Address 1) ;;
  STFlash_SendByte (Make8 Address 0) ;;
  buffer' <- STFlash_getBytes buffer size ;;
  chip_deselect ;;
  ret buffer'.

Definition STFlash_Write1Byte (Address : Z) (data : Z) : M unit :=
  STFlash_WriteEnable ;;
  chip_select ;;
  STFlash_SendByte 2 ;;
  STFlash_SendByte (Make8 Address 2) ;;
  STFlash_SendByte (Make8 Address 1) ;;
  STFlash_SendByte (Make8 Address 0) ;;
  STFlash_SendByte data ;;
  chip_deselect.

(** [while(STFlash_readStatus() & 0x01);] *)
Fixpoint poll_status (fuel : nat) : M unit :=
  match fuel with
  | O => fun _ => Spin
  | S fuel' =>
      status <- STFlash_readStatus ;;
      if Z.land status 1 =? 0 then ret tt else poll_status fuel'
  end.

(** The [for] loop of [STFlash_WriteBlock]; [n] iterations remain and [i]
    is the loop counter. *)
Fixpoint WriteBlock_loop (fuel : nat) (n : nat)
    (Address : Z) (buffer : list Z) (i : Z) : M unit :=
  match n with
  | O => ret tt
  | S n' =>
      x <- buf_get buffer i ;;
      STFlash_Write1Byte (wrap32 (Address + i)) x ;;
      delay_us 10 ;;
      poll_status fuel ;;
      WriteBlock_loop fuel n' Address buffer (wrap16 (i + 1))
  end.

Definition STFlash_WriteBlock (fuel : nat)
    (Address : Z) (buffer : list Z) (size : Z) : M unit :=
  WriteBlock_loop fuel (Z.to_nat size) Address buffer 0 ;;
  STFlash_WriteDisable.

Definition STFlash_EraseBlock (Address : Z) : M unit :=
  STFlash_WriteEnable ;;
  chip_select ;;
  STFlash_SendByte 216 ;;
  STFlash_SendByte (Make8 Address 2) ;;
  STFlash_SendByte (Make8 Address 1) ;;
  STFlash_SendByte (Make8 Address 0) ;;
  output_high FLASH_SELECT ;;
  chip_deselect ;;
  STFlash_WriteDisable.

End Driver.

(** ** Reference traces

    The wire activity of each primitive, written as data: what an
    oscilloscope on the four lines would show. *)

Definition select_tr : trace :=
  [Drive FLASH_CLOCK false; Drive FLASH_SELECT false; DelayUs 1].

Definition deselect_tr : trace :=
  [Drive FLASH_SELECT true; Drive FLASH_CLOCK false; DelayUs 1].

(** One bit sent: data line, clock up, hold, clock down, hold. *)
Definition bit_tr (b : bool) : trace :=
  [Drive FLASH_DI b; Drive FLASH_CLOCK true; DelayCycles 2;
   Drive FLASH_CLOCK false; DelayCycles 2].

(** One bit received: clock up, hold, sample, clock down, hold. *)
Definition clock_in_tr (b : bool) : trace :=
  [Drive FLASH_CLOCK true; DelayCycles 2; Sample FLASH_DO b;
   Drive FLASH_CLOCK false; DelayCycles 2].

(** The eight bits of a byte, most significant first. *)
Definition bits8 (v : Z) : list bool :=
  [Z.testbit v 7; Z.testbit v 6; Z.testbit v 5; Z.testbit v 4;
   Z.testbit v 3; Z.testbit v 2; Z.testbit v 1; Z.testbit v 0].

Definition send_tr (v : Z) : trace := flat_map bit_tr (bits8 v).

Definition recv_tr (bs : list bool) : trace := flat_map clock_in_tr bs.

(** Value of a bit string read most significant bit first. *)
Definition bits_value (acc : Z) (bs : list bool) : Z :=
  fold_left (fun a b => 2 * a + Z.b2z b) bs acc.

Definition byte_of_bits (bs : list bool) : Z := bits_value 0 bs.

(** Bytes on the wire, as bits. *)
Definition frame (bytes : list Z) : list bool := flat_map bits8 bytes.

(** The levels sampled on a pin, in order. *)
Fixpoint sampled (p : pin) (t : trace) : list bool :=
  match t with
  | [] => []
  | Sample q b :: t' => if pin_eqb p q then b :: sampled p t' else sampled p t'
  | _ :: t' => sampled p t'
  end.

(** The next [n] levels that the receive loop will find on FLASH_DO when it
    starts after history [h]. *)
Fixpoint samples (E : platform) (n : nat) (h : trace) : list bool :=
  match n with
  | O => []
  | S n' =>
      let b := wire E FLASH_DO (h ++ [Drive FLASH_CLOCK true; DelayCycles 2]) in
      b :: samples E n' (h ++ clock_in_tr b)
  end.

(** Groups of eight bits as bytes. *)
Fixpoint bytes_of_bits (n : nat) (bs : list bool) : list Z :=
  match n with
  | O => []
  | S n' => byte_of_bits (firstn 8 bs) :: bytes_of_bits n' (skipn 8 bs)
  end.

(** One transaction: select, bytes out, bits in, deselect. *)
Definition xfer_tr (out : list Z) (inb : list bool) : trace :=
  select_tr ++ flat_map send_tr out ++ recv_tr inb ++ deselect_tr.

(** The three address bytes in the order the driver sends them. *)
Definition addr_bytes (Address : Z) : list Z :=
  [Make8 Address 2; Make8 Address 1; Make8 Address 0].

(** The wire activity of [STFlash_Write1Byte]: a write-enable transaction
    and the program transaction. *)
Definition Write1Byte_tr (Address data : Z) : trace :=
  xfer_tr [6] [] ++ xfer_tr (2 :: addr_bytes Address ++ [data]) [].

(** The wire activity of [STFlash_EraseBlock]; the select line is driven
    high once more before [chip_deselect]. *)
Definition EraseBlock_tr (Address : Z) : trace :=
  xfer_tr [6] [] ++
  (select_tr ++ flat_map send_tr (216 :: addr_bytes Address) ++
   Drive FLASH_SELECT true :: deselect_tr) ++
  xfer_tr [4] [].

(** The eight levels that a status read started after [h] will sample, the
    status byte it will return and the history it leaves. *)
Definition status_bits (E : platform) (h : trace) : list bool :=
  samples E 8 (h ++ select_tr ++ send_tr 5).

Definition status_at (E : platform) (h : trace) : Z :=
  byte_of_bits (status_bits E h).

Definition busy_at (E : platform) (h : trace) : bool :=
  negb (Z.land (status_at E h) 1 =? 0).

Definition after_status (E : platform) (h : trace) : trace :=
  h ++ xfer_tr [5] (status_bits E h).

(** History after [k] consecutive status reads. *)
Fixpoint poll_hist (E : platform) (k : nat) (h : trace) : trace :=
  match k with
  | O => h
  | S k' => poll_hist E k' (after_status E h)
  end.

(** [k] samples of the data-out line that all found it high. *)
Definition highs (k : nat) : trace := repeat (Sample FLASH_DO true) k.

(** The shape of the history left by the loop of [STFlash_WriteBlock]:
    for each byte a [STFlash_Write1Byte], the 10 us delay, [k] status reads
    that report busy and one that reports ready. *)
Inductive programmed (E : platform) (Address : Z) (buffer : list Z)
  : nat -> Z -> trace -> trace -> Prop :=
| programmed_done : forall i h, programmed E Address buffer O i h h
| programmed_byte : forall n i x k h h',
    0 <= i ->
    nth_error buffer (Z.to_nat i) = Some x ->
    let h1 := h ++ Write1Byte_tr (wrap32 (Address + i)) x ++ [DelayUs 10] in
    (forall j, (j < k)%nat -> busy_at E (poll_hist E j h1) = true) ->
    busy_at E (poll_hist E k h1) = false ->
    programmed E Address buffer n (wrap16 (i + 1))
               (poll_hist E (S k) h1) h' ->
    programmed E Address buffer (S n) i h h'.

(** The same shape with the status reads counted: in
    [polled E Address buffer ks i h h'] the list [ks] has one entry per
    byte, the number of status reads after that byte's program that found
    bit 0 set, before the one that found it clear. *)
Inductive polled (E : platform) (Address : Z) (buffer : list Z)
  : list nat -> Z -> trace -> trace -> Prop :=
| polled_done : forall i h, polled E Address buffer [] i h h
| polled_byte : forall ks i x k h h',
    0 <= i ->
    nth_error buffer (Z.to_nat i) = Some x ->
    let h1 := h ++ Write1Byte_tr (wrap32 (Address + i)) x ++ [DelayUs 10] in
    (forall j, (j < k)%nat -> busy_at E (poll_hist E j h1) = true) ->
    busy_at E (poll_hist E k h1) = false ->
    polled E Address buffer ks (wrap16 (i + 1))
           (poll_hist E (S k) h1) h' ->
    polled E Address buffer (k :: ks) i h h'.

(** The levels driven on a pin, in order. *)
Fixpoint driven (p : pin) (t : trace) : list bool :=
  match t with
  | [] => []
  | Drive q b :: t' => if pin_eqb p q then b :: driven p t' else driven p t'
  | _ :: t' => driven p t'
  end.

(** A platform whose input pins always read [level] and whose
    uninitialised locals always hold [junk]. *)
Definition const_platform (level : bool) (junk : Z) : platform :=
  {| wire := fun _ _ => level; stale := fun _ => junk;
     TRISB_Master := 0; TRISC_Master := 0;
     TRISB_Disable := 255; TRISC_Disable := 255 |}.

(** ** Bus monitor

    An observer on the select, clock and data-in lines.  A transaction
    opens on the falling edge of select and closes on its rising edge; in
    between, every rising clock edge shifts the level of the data-in line
    into the transaction. *)

Record bus : Type := {
  b_cs : bool;                  (* level of the select line; high = inactive *)
  b_clk : bool;
  b_di : bool;
  b_cur : list bool;            (* bits clocked in the open transaction *)
  b_closed : list (list bool);  (* completed transactions, oldest first *)
  b_falls : nat;                (* falling edges seen on select *)
  b_rises : nat                 (* rising edges seen on select *)
}.

Definition idle_bus : bus :=
  {| b_cs := true; b_clk := false; b_di := false; b_cur := [];
     b_closed := []; b_falls := 0; b_rises := 0 |}.

Definition observe (s : bus) (e : event) : bus :=
  match e with
  | Drive FLASH_SELECT false =>
      if b_cs s
      then {| b_cs := false; b_clk := b_clk s; b_di := b_di s; b_cur := [];
              b_closed := b_closed s;
              b_falls := S (b_falls s); b_rises := b_rises s |}
      else s
  | Drive FLASH_SELECT true =>
      if b_cs s then s
      else {| b_cs := true; b_clk := b_clk s; b_di := b_di s; b_cur := [];
              b_closed := b_closed s ++ [b_cur s];
              b_falls := b_falls s; b_rises := S (b_rises s) |}
  | Drive FLASH_CLOCK true =>
      if b_clk s then s
      else {| b_cs := b_cs s; b_clk := true; b_di := b_di s;
              b_cur := if b_cs s then b_cur s else b_cur s ++ [b_di s];
              b_closed := b_closed s;
              b_falls := b_falls s; b_rises := b_rises s |}
  | Drive FLASH_CLOCK false =>
      {| b_cs := b_cs s; b_clk := false; b_di := b_di s; b_cur := b_cur s;
         b_closed := b_closed s;
         b_falls := b_falls s; b_rises := b_rises s |}
  | Drive FLASH_DI b =>
      {| b_cs := b_cs s; b_clk := b_clk s; b_di := b; b_cur := b_cur s;
         b_closed := b_closed s;
         b_falls := b_falls s; b_rises := b_rises s |}
  | _ => s
  end.

Definition monitor (s : bus) (t : trace) : bus := fold_left observe t s.

(** What is seen during a call that starts with the bus idle. *)
Definition transactions (t : trace) : list (list bool) :=
  b_closed (monitor idle_bus t).
Definition selects (t : trace) : nat := b_falls (monitor idle_bus t).
Definition deselects (t : trace) : nat := b_rises (monitor idle_bus t).
Definition select_level (t : trace) : bool := b_cs (monitor idle_bus t).

(** Level left on the data-in line after sending [out]. *)
Definition di_after (out : list Z) (d : bool) : bool :=
  fold_left (fun _ v => Z.testbit v 0) out d.

(** The monitor after one whole transaction that sent the bytes [out] and
    then clocked [nin] more bits to receive. *)
Definition bus_xfer (s : bus) (out : list Z) (nin : nat) : bus :=
  {| b_cs := true; b_clk := false; b_di := di_after out (b_di s);
     b_cur := [];
     b_closed := b_closed s ++ [frame out ++ repeat (di_after out (b_di s)) nin];
     b_falls := S (b_falls s); b_rises := S (b_rises s) |}.

(** The monitor after [k] status reads. *)
Fixpoint bus_polls (k : nat) (s : bus) : bus :=
  match k with
  | O => s
  | S k' => bus_polls k' (bus_xfer s [5] 8)
  end.

(** The monitor after the loop of [STFlash_WriteBlock], when the byte
    number [j] needed [nth j ks] busy status reads and a last one. *)
Fixpoint bus_block (s : bus) (Address : Z) (buffer : list Z) (i : Z)
    (ks : list nat) : bus :=
  match ks with
  | [] => s
  | k :: ks' =>
      let x := nth (Z.to_nat i) buffer 0 in
      let s1 := bus_xfer s [6] 0 in
      let s2 := bus_xfer s1 (2 :: addr_bytes (wrap32 (Address + i)) ++ [x]) 0 in
      bus_block (bus_polls (S k) s2) Address buffer (wrap16 (i + 1)) ks'
  end.

(** A status read as the monitor sees it: the opcode and eight clock
    pulses with the data-in line left high by the last bit of 0x05. *)
Definition status_frame : list bool := frame [5] ++ repeat true 8.

(** The transactions of the loop of [STFlash_WriteBlock]. *)
Fixpoint block_frames (Address : Z) (buffer : list Z) (i : Z)
    (ks : list nat) : list (list bool) :=
  match ks with
  | [] => []
  | k :: ks' =>
      let x := nth (Z.to_nat i) buffer 0 in
      [frame [6]; frame (2 :: addr_bytes (wrap32 (Address + i)) ++ [x])]
      ++ repeat status_frame (S k)
      ++ block_frames Address buffer (wrap16 (i + 1)) ks'
  end.

(** Between the histories [h] and [h'] the select line fell [k] times and
    rose [k] times, and it is inactive at the end. *)
Definition balanced (k : nat) (h h' : trace) : Prop :=
  select_level h' = true
  /\ selects h' = (selects h + k)%nat
  /\ deselects h' = (deselects h + k)%nat.

(** ** The flash device

    The flash chip that answers on the bus is hardware and has no code in
    the source.  The definitions of this part are modelled from the spec:
    its table of operations, its glossary and its testable properties.
    Latency is counted in status reads, as on a simulated device with
    injectable latency. *)

(** Modelled from the spec: the state of the flash chip (missing from the
    source): its memory by 24-bit address, the write-enable latch, the
    number of status reads that will still report busy, and the number of
    status reads that report busy after an accepted program or erase. *)
Record flash : Type := {
  f_mem : Z -> Z;
  f_wel : bool;
  f_busy : nat;
  f_latency : nat
}.

(** Modelled from the spec: the fields of a transaction received by the
    chip: the opcode is its first byte, the address the next three bytes,
    most significant first, the data the byte after them. *)
Definition opcode_of (tx : list bool) : Z := byte_of_bits (firstn 8 tx).

Definition address_of (tx : list bool) : Z :=
  bits_value 0 (firstn 24 (skipn 8 tx)).

Definition data_of (tx : list bool) : Z := byte_of_bits (firstn 8 (skipn 32 tx)).

(** Modelled from the spec: programming a byte of the chip's memory. *)
Definition store (mem : Z -> Z) (a v : Z) : Z -> Z :=
  fun a' => if a' =? a then v else mem a'.

(** Modelled from the spec: an erase sets the 256-byte block that
    contains the address to 0xFF. *)
Definition erase256 (mem : Z -> Z) (a : Z) : Z -> Z :=
  fun a' => if a' / 256 =? a / 256 then 255 else mem a'.

(** Modelled from the spec: the chip's status register, the busy flag in
    bit 0 and the write-enable latch in bit 1. *)
Definition status_of (d : flash) : Z :=
  Z.b2z (0 <? f_busy d)%nat + 2 * Z.b2z (f_wel d).

(** Modelled from the spec: what a completed transaction does to the chip.
    Opcode 0x06 sets the latch and 0x04 clears it, without condition, as
    the table of operations says; a status read (0x05) uses up one unit of
    latency; a program (0x02, three address bytes, one data byte) or an
    erase (0xD8, three address bytes) is accepted only when the latch is
    set and the chip is not busy (glossary: a busy device cannot accept
    new commands, the latch must be set before a program or erase is
    accepted), and makes the chip busy; the latch stays set after it
    (testable properties: the latch remains set across consecutive
    byte writes).  Any other transaction leaves the chip as it is. *)
Definition flash_exec (d : flash) (tx : list bool) : flash :=
  let n := length tx in
  let op := opcode_of tx in
  if (n =? 8)%nat && (op =? 6) then
    {| f_mem := f_mem d; f_wel := true;
       f_busy := f_busy d; f_latency := f_latency d |}
  else if (n =? 8)%nat && (op =? 4) then
    {| f_mem := f_mem d; f_wel := false;
       f_busy := f_busy d; f_latency := f_latency d |}
  else if (8 <=? n)%nat && (op =? 5) then
    {| f_mem := f_mem d; f_wel := f_wel d;
       f_busy := Nat.pred (f_busy d); f_latency := f_latency d |}
  else if (n =? 40)%nat && (op =? 2) && f_wel d && (f_busy d =? 0)%nat then
    {| f_mem := store (f_mem d) (address_of tx) (data_of tx);
       f_wel := f_wel d;
       f_busy := f_latency d; f_latency := f_latency d |}
  else if (n =? 32)%nat && (op =? 216) && f_wel d && (f_busy d =? 0)%nat then
    {| f_mem := erase256 (f_mem d) (address_of tx);
       f_wel := f_wel d;
       f_busy := f_latency d; f_latency := f_latency d |}
  else d.

Definition flash_run (d : flash) (txs : list (list bool)) : flash :=
  fold_left flash_exec txs d.

(** Modelled from the spec: the level the chip puts on the data-out line
    when the open transaction has clocked in [cur] and seen [nf] falling
    clock edges.  After the opcode 0x05 it repeats the status byte; after
    0x03 and three address bytes, when not busy, it streams the memory
    from the address on (modulo 2^24); bytes go most significant bit
    first.  The output changes on the falling clock edge, so the level
    sampled after a rising edge is the one put out after the falling edge
    before it. *)
Definition flash_bit (d : flash) (cur : list bool) (nf : nat) : bool :=
  if (nf <? 8)%nat then false
  else if opcode_of cur =? 5 then
    Z.testbit (status_of d) (7 - Z.of_nat ((nf - 8) mod 8))
  else if (opcode_of cur =? 3) && (32 <=? nf)%nat && (f_busy d =? 0)%nat then
    Z.testbit
      (f_mem d ((address_of cur + Z.of_nat ((nf - 32) / 8)) mod 16777216))
      (7 - Z.of_nat ((nf - 32) mod 8))
  else false.

(** Modelled from the spec: the chip drives its output only while
    selected. *)
Definition flash_out (d : flash) (s : bus) : bool :=
  if b_cs s then false
  else flash_bit d (b_cur s)
         (length (b_cur s) - (if b_clk s then 1 else 0)).

(** Modelled from the spec: the chip that was in state [d0] when the
    history was empty, after the history [h]; the level it shows on the
    data-out line; and the platform that has this chip on the bus. *)
Definition flash_at (d0 : flash) (h : trace) : flash :=
  flash_run d0 (transactions h).

Definition flash_wire (d0 : flash) (h : trace) : bool :=
  flash_out (flash_at d0 h) (monitor idle_bus h).

Definition flash_platform (d0 : flash) (junk : trace -> Z) : platform :=
  {| wire := fun p h => match p with
                        | FLASH_DO => flash_wire d0 h
                        | _ => false
                        end;
     stale := junk;
     TRISB_Master := 0; TRISC_Master := 0;
     TRISB_Disable := 255; TRISC_Disable := 255 |}.

(** Memory after programming the bytes [xs] at [Address + i],
    [Address + i + 1], ... *)
Fixpoint write_mem (mem : Z -> Z) (Address i : Z) (xs : list Z) : Z -> Z :=
  match xs with
  | [] => mem
  | x :: xs' =>
      write_mem (store mem ((Address + i) mod 16777216) x) Address (i + 1) xs'
  end.

(** Consecutive calls of [STFlash_Write1Byte], one per (address, data)
    pair. *)
Fixpoint Write1Byte_seq (calls : list (Z * Z)) : M unit :=
  match calls with
  | [] => ret tt
  | (Address, data) :: rest =>
      STFlash_Write1Byte Address data ;; Write1Byte_seq rest
  end.

(** The monitor at the moment of the [j]-th sample of a receive phase
    that started in state [s]: [j] whole clock pulses and one rising
    edge. *)
Definition clocked (s : bus) (j : nat) : bus :=
  {| b_cs := false; b_clk := true; b_di := b_di s;
     b_cur := b_cur s ++ repeat (b_di s) (S j);
     b_closed := b_closed s;
     b_falls := b_falls s; b_rises := b_rises s |}.

(** A device state for examples: erased, ready, the latch clear, and two
    busy status reads after each program or erase. *)
Definition ready_flash : flash :=
  {| f_mem := fun _ => 255; f_wel := false; f_busy := 0; f_latency := 2 |}.

(** ** Observers of the line discipline *)

Definition is_sample (e : event) : bool :=
  match e with Sample FLASH_DO _ => true | _ => false end.

Definition is_data_drive (e : event) : bool :=
  match e with Drive FLASH_DI _ => true | _ => false end.

Definition is_clock_up (e : event) : bool :=
  match e with Drive FLASH_CLOCK true => true | _ => false end.

(** The value of [get] on the monitor, taken just before each event of the
    trace that [sel] selects: for instance the clock level at each sample,
    or the select level each time the clock is raised. *)
Fixpoint levels_at (sel : event -> bool) (get : bus -> bool)
    (s : bus) (t : trace) : list bool :=
  match t with
  | [] => []
  | e :: t' =>
      (if sel e then [get s] else []) ++ levels_at sel get (observe s e) t'
  end.

(** Every time the clock was raised in the history, the device was
    selected (the select line was low). *)
Definition clocked_only_selected (h : trace) : Prop :=
  Forall (fun level => level = false)
         (levels_at is_clock_up b_cs idle_bus h).

(** [n] calls of [STFlash_GetByte] in a row, collecting the bytes. *)
Fixpoint GetByte_seq (E : platform) (n : nat) : M (list Z) :=
  match n with
  | O => ret []
  | S n' =>
      b <- STFlash_GetByte E ;;
      bs <- GetByte_seq E n' ;;
      ret (b :: bs)
  end.

(** ** Callers

    A call of one of the nine commands with its arguments, and a caller
    that makes such calls one after the other, dropping what they
    return. *)

Inductive call : Type :=
| Call_readStatus
| Call_waitUntilReady
| Call_WriteEnable
| Call_WriteDisable
| Call_writeStatus (value : Z)
| Call_ReadBlock (Address : Z) (buffer : list Z) (size : Z)
| Call_Write1Byte (Address data : Z)
| Call_WriteBlock (Address : Z) (buffer : list Z) (size : Z)
| Call_EraseBlock (Address : Z).

Definition run_call (E : platform) (fuel : nat) (c : call) : M unit :=
  match c with
  | Call_readStatus => STFlash_readStatus E ;; ret tt
  | Call_waitUntilReady => STFlash_waitUntilReady E fuel
  | Call_WriteEnable => STFlash_WriteEnable
  | Call_WriteDisable => STFlash_WriteDisable
  | Call_writeStatus value => STFlash_writeStatus value
  | Call_ReadBlock Address buffer size =>
      STFlash_ReadBlock E Address buffer size ;; ret tt
  | Call_Write1Byte Address data => STFlash_Write1Byte Address data
  | Call_WriteBlock Address buffer size =>
      STFlash_WriteBlock E fuel Address buffer size
  | Call_EraseBlock Address => STFlash_EraseBlock Address
  end.

Fixpoint run_calls (E : platform) (fuel : nat) (cs : list call) : M unit :=
  match cs with
  | [] => ret tt
  | c :: cs' => run_call E fuel c ;; run_calls E fuel cs'
  end.

(** ** Assertions on histories *)

(** Whenever [m] starts from a history that satisfies [P] and returns, the
    history it leaves satisfies [Q]. *)
Definition triple {A} (P : trace -> Prop) (m : M A) (Q : trace -> Prop)
  : Prop :=
  forall h a h', P h -> m h = Done a h' -> Q h'.

(** The bus between two commands: the select line inactive, the clock
    low, and no clock pulse so far outside a transaction. *)
Definition at_rest (h : trace) : Prop :=
  select_level h = true
  /\ b_clk (monitor idle_bus h) = false
  /\ clocked_only_selected h.

(** The bus inside a transaction. *)
Definition in_transaction (h : trace) : Prop :=
  select_level h = false /\ clocked_only_selected h.

(** The select line just driven inactive, the clock not yet. *)
Definition released (h : trace) : Prop :=
  select_level h = true /\ clocked_only_selected h.

Definition port_eqb (p q : port) : bool :=
  match p, q with
  | PORT_B, PORT_B | PORT_C, PORT_C => true
  | _, _ => false
  end.

(** The direction mask a port holds after a history: the last one
    written to it, if any. *)
Definition direction (p : port) (t : trace) : option Z :=
  fold_left (fun d e => match e with
                        | Tris q mask => if port_eqb p q then Some mask else d
                        | _ => d
                        end) t None.

(** ** Program transactions *)

(** A transaction of forty bits whose first eight are the opcode 0x02. *)
Definition is_program (tx : list bool) : bool :=
  (length tx =? 40)%nat && (byte_of_bits (firstn 8 tx) =? 2).

(** The program transaction for the 24-bit address [a] and the byte [x]:
    the opcode, the three digits of [a] in base 256 from the top, and the
    data. *)
Definition program_frame (a x : Z) : list bool :=
  frame [2; a / 65536; a / 256 mod 256; a mod 256; x].

(** * Properties *)

(** ** The embedding on small inputs *)

Example shift_left_176 : shift_left 176 false = (true, 96).
Proof. reflexivity. Qed.

Example addr_bytes_012345 : addr_bytes 74565 = [1; 35; 69].
Proof. reflexivity. Qed.

Example chip_select_trace :
  chip_select [] = Done tt [Drive FLASH_CLOCK false; Drive FLASH_SELECT false;
                            DelayUs 1].
Proof. reflexivity. Qed.

Example readStatus_all_high :
  exists h, STFlash_readStatus (const_platform true 0) [] = Done 255 h
            /\ length h = 86%nat /\ transactions h = [status_frame].
Proof. eexists. split; [reflexivity|]. split; reflexivity. Qed.

Example waitUntilReady_line_low :
  exists h, STFlash_waitUntilReady (const_platform false 0) 1 [] = Done tt h
            /\ sampled FLASH_DO h = repeat false 9.
Proof. eexists. split; reflexivity. Qed.

Example ReadBlock_short_buffer :
  STFlash_ReadBlock (const_platform true 0) 0 [0] 2 [] = Fault.
Proof. reflexivity. Qed.

Example erase_then_read :
  exists h0 h1 h2,
    STFlash_EraseBlock 512 [] = Done tt h0
    /\ poll_status (flash_platform ready_flash (fun _ => 0)) 3 h0 = Done tt h1
    /\ STFlash_ReadBlock (flash_platform ready_flash (fun _ => 0)) 512
         [0; 0] 2 h1 = Done [255; 255] h2.
Proof.
  eexists. eexists. eexists.
  split; [vm_compute; reflexivity|].
  split; [vm_compute; reflexivity|].
  vm_compute. reflexivity.
Qed.

(** ** Sequencing *)

Lemma bind_done {A B} (m : M A) (k : A -> M B) h a h' :
  m h = Done a h' -> bind m k h = k a h'.
Proof. intros Hm. unfold bind. now rewrite Hm. Qed.

Lemma bind_spin {A B} (m : M A) (k : A -> M B) h :
  m h = Spin -> bind m k h = Spin.
Proof. intros Hm. unfold bind. now rewrite Hm. Qed.

Lemma bind_inv {A B} (m : M A) (k : A -> M B) h b h2 :
  bind m k h = Done b h2 ->
  exists a h1, m h = Done a h1 /\ k a h1 = Done b h2.
Proof.
  unfold bind. destruct (m h) as [a h1| |]; try discriminate.
  intros Hk. now exists a, h1.
Qed.

Lemma emit_run e h : emit e h = Done tt (h ++ [e]).
Proof. reflexivity. Qed.

(** ** Bits and bytes *)

Lemma wrap8_mod x : wrap8 x = x mod 256.
Proof.
  unfold wrap8. change 255 with (Z.ones 8).
  now rewrite Z.land_ones by lia.
Qed.

Lemma shift_left_out x b : fst (shift_left x b) = Z.testbit x 7.
Proof. reflexivity. Qed.

Lemma lor_double_bit x b : Z.lor (Z.shiftl x 1) (Z.b2z b) = 2 * x + Z.b2z b.
Proof.
  rewrite Z.shiftl_mul_pow2 by lia. change (2 ^ 1) with 2.
  replace (x * 2) with (2 * x) by lia.
  assert (Hd : Z.land (2 * x) (Z.b2z b) = 0).
  { destruct b; simpl Z.b2z; [|apply Z.land_0_r].
    change 1 with (Z.ones 1). rewrite Z.land_ones by lia.
    change (2 ^ 1) with 2. rewrite Z.mul_comm. apply Z.mod_mul. lia. }
  rewrite <- (Z.lxor_lor _ _ Hd). symmetry. now apply Z.add_nocarry_lxor.
Qed.

Lemma shift_left_arith x b :
  snd (shift_left x b) = (2 * x + Z.b2z b) mod 256.
Proof.
  change (snd (shift_left x b))
    with (wrap8 (Z.lor (Z.shiftl x 1) (Z.b2z b))).
  now rewrite wrap8_mod, lor_double_bit.
Qed.

Lemma shift_left_testbit x b k :
  1 <= k < 8 -> Z.testbit (snd (shift_left x b)) k = Z.testbit x (k - 1).
Proof.
  intros Hk.
  change (snd (shift_left x b))
    with (Z.land (Z.lor (Z.shiftl x 1) (Z.b2z b)) 255).
  rewrite Z.land_spec, Z.lor_spec, Z.shiftl_spec by lia.
  change 255 with (Z.ones 8). rewrite Z.ones_spec_low by lia.
  rewrite andb_true_r.
  replace (Z.testbit (Z.b2z b) k) with false; [apply orb_false_r|].
  destruct b; simpl Z.b2z; [|now rewrite Z.bits_0].
  symmetry. change 1 with (Z.ones 1). apply Z.ones_spec_high. lia.
Qed.

Lemma bits_value_shift bs : forall acc,
  bits_value acc bs = acc * 2 ^ Z.of_nat (length bs) + bits_value 0 bs.
Proof.
  unfold bits_value.
  induction bs as [|b bs IH]; intros acc; cbn [fold_left].
  - simpl. lia.
  - rewrite (IH (2 * acc + Z.b2z b)), (IH (2 * 0 + Z.b2z b)).
    cbn [length]. rewrite Nat2Z.inj_succ, Z.pow_succ_r by lia. ring.
Qed.

Lemma bits_value_range bs :
  0 <= bits_value 0 bs < 2 ^ Z.of_nat (length bs).
Proof.
  induction bs as [|b bs IH] using rev_ind.
  - simpl. lia.
  - unfold bits_value in *. rewrite fold_left_app. cbn [fold_left].
    rewrite length_app. cbn [length].
    replace (Z.of_nat (length bs + 1)) with (Z.succ (Z.of_nat (length bs)))
      by lia.
    rewrite Z.pow_succ_r by lia. destruct b; simpl Z.b2z; lia.
Qed.

(** Shifting bits into a byte computes their value modulo 256, whatever
    the byte held before. *)
Lemma shift_in_value bs : forall x,
  fold_left (fun a b => snd (shift_left a b)) bs x mod 256
  = bits_value x bs mod 256.
Proof.
  induction bs as [|b bs IH]; intros x; cbn [fold_left].
  - reflexivity.
  - rewrite IH. unfold bits_value at 2. cbn [fold_left].
    fold (bits_value (2 * x + Z.b2z b) bs).
    rewrite shift_left_arith.
    rewrite (bits_value_shift bs ((2 * x + Z.b2z b) mod 256)).
    rewrite (bits_value_shift bs (2 * x + Z.b2z b)).
    rewrite Z.add_mod by lia. rewrite Z.mul_mod_idemp_l by lia.
    now rewrite <- Z.add_mod by lia.
Qed.

Lemma shift_in_wrapped bs x :
  bs <> [] ->
  fold_left (fun a b => snd (shift_left a b)) bs x mod 256
  = fold_left (fun a b => snd (shift_left a b)) bs x.
Proof.
  intros Hne. destruct bs as [|b bs] using rev_ind; [congruence|].
  rewrite fold_left_app. cbn [fold_left].
  rewrite shift_left_arith. apply Z.mod_mod. lia.
Qed.

Lemma shift_in_byte bs x :
  length bs = 8%nat ->
  fold_left (fun a b => snd (shift_left a b)) bs x = byte_of_bits bs.
Proof.
  intros Hlen.
  rewrite <- shift_in_wrapped by (destruct bs; [discriminate|congruence]).
  rewrite shift_in_value, bits_value_shift, Hlen.
  unfold byte_of_bits.
  pose proof (bits_value_range bs) as Hr. rewrite Hlen in Hr.
  change (2 ^ Z.of_nat 8) with 256 in *.
  rewrite Z.add_comm, Z.mod_add by lia. apply Z.mod_small. lia.
Qed.

Lemma byte_of_bits_range bs :
  length bs = 8%nat -> 0 <= byte_of_bits bs < 256.
Proof.
  intros Hlen. pose proof (bits_value_range bs) as Hr.
  rewrite Hlen in Hr. exact Hr.
Qed.

Lemma shift_left_testbit0 x b : Z.testbit (snd (shift_left x b)) 0 = b.
Proof.
  change (snd (shift_left x b))
    with (Z.land (Z.lor (Z.shiftl x 1) (Z.b2z b)) 255).
  rewrite Z.land_spec, Z.lor_spec, Z.shiftl_spec_low by lia.
  rewrite Z.b2z_bit0. cbn [orb]. apply andb_true_r.
Qed.

Lemma bits8_shift_left x b :
  bits8 (snd (shift_left x b)) = tl (bits8 x) ++ [b].
Proof.
  unfold bits8. cbn [tl app].
  rewrite !shift_left_testbit by lia.
  now rewrite shift_left_testbit0.
Qed.

Lemma length_bits8 v : length (bits8 v) = 8%nat.
Proof. reflexivity. Qed.

Lemma bits8_byte_of_bits bs :
  length bs = 8%nat -> bits8 (byte_of_bits bs) = bs.
Proof.
  intros Hlen.
  do 9 (destruct bs as [|? bs]; try discriminate).
  repeat match goal with b : bool |- _ => destruct b end; reflexivity.
Qed.

Lemma byte_of_bits8 v : 0 <= v < 256 -> byte_of_bits (bits8 v) = v.
Proof.
  intros Hv. apply Z.bits_inj'. intros k Hk.
  destruct (Z_lt_ge_dec k 8) as [Hlt|Hge].
  - pose proof (bits8_byte_of_bits (bits8 v) eq_refl) as Hb.
    unfold bits8 in Hb at 1. injection Hb as H7 H6 H5 H4 H3 H2 H1 H0.
    assert (Hc : k = 0 \/ k = 1 \/ k = 2 \/ k = 3 \/ k = 4 \/ k = 5 \/
                 k = 6 \/ k = 7) by lia.
    destruct Hc as [->|[->|[->|[->|[->|[->|[->| ->]]]]]]]; assumption.
  - pose proof (byte_of_bits_range (bits8 v) eq_refl) as Hr.
    rewrite !Z.bits_above_log2; try reflexivity; try lia.
    + destruct (Z.eq_dec v 0) as [->|Hnz]; [simpl; lia|].
      apply Z.log2_lt_pow2; try lia.
      apply Z.lt_le_trans with (2 ^ 8); [change (2 ^ 8) with 256; lia|].
      apply Z.pow_le_mono_r; lia.
    + destruct (Z.eq_dec (byte_of_bits (bits8 v)) 0) as [->|Hnz];
        [simpl; lia|].
      apply Z.log2_lt_pow2; try lia.
      apply Z.lt_le_trans with (2 ^ 8); [change (2 ^ 8) with 256; lia|].
      apply Z.pow_le_mono_r; lia.
Qed.

(** ** What each primitive appends to the history *)

Ltac step_run :=
  unfold output_high, output_low, output_bit, delay_us, delay_cycles,
    Set_Tris_B, Set_Tris_C, bind, emit, ret;
  rewrite <- ?app_assoc; cbn [app].

Section Runs.

Variable E : platform.

Lemma chip_select_run h : chip_select h = Done tt (h ++ select_tr).
Proof. unfold chip_select. step_run. reflexivity. Qed.

Lemma chip_deselect_run h : chip_deselect h = Done tt (h ++ deselect_tr).
Proof. unfold chip_deselect. step_run. reflexivity. Qed.

Lemma Init_STFlash_run h :
  Init_STFlash E h =
  Done tt (h ++ [Tris PORT_B (TRISB_Master E); Tris PORT_C (TRISC_Master E);
                 Drive FLASH_SELECT true; Drive FLASH_CLOCK false]).
Proof. unfold Init_STFlash. step_run. reflexivity. Qed.

Lemma SendByte_loop_run n : forall data h,
  (n <= 8)%nat ->
  SendByte_loop n data h
  = Done tt (h ++ flat_map bit_tr (firstn n (bits8 data))).
Proof.
  induction n as [|n IH]; intros data h Hn.
  - cbn. now rewrite app_nil_r.
  - cbn [SendByte_loop].
    change (shift_left data false)
      with (Z.testbit data 7, snd (shift_left data false)).
    cbv iota. step_run. rewrite IH by lia.
    rewrite bits8_shift_left, firstn_app.
    replace (n - length (tl (bits8 data)))%nat with 0%nat
      by (cbn [bits8 tl length]; lia).
    cbn [firstn]. rewrite app_nil_r.
    rewrite <- app_assoc. reflexivity.
Qed.

Lemma STFlash_SendByte_run data h :
  STFlash_SendByte data h = Done tt (h ++ send_tr data).
Proof.
  unfold STFlash_SendByte. rewrite SendByte_loop_run by lia. reflexivity.
Qed.

Lemma length_samples n : forall h, length (samples E n h) = n.
Proof. induction n as [|n IH]; intros h; cbn; [|rewrite IH]; reflexivity. Qed.

Lemma samples_app a : forall b h,
  samples E (a + b) h
  = samples E a h ++ samples E b (h ++ recv_tr (samples E a h)).
Proof.
  induction a as [|a IH]; intros b h.
  - cbn. now rewrite app_nil_r.
  - cbn [Nat.add samples app]. f_equal. rewrite IH.
    cbn [recv_tr flat_map]. fold (recv_tr (samples E a
      (h ++ clock_in_tr (wire E FLASH_DO
         (h ++ [Drive FLASH_CLOCK true; DelayCycles 2]))))).
    now rewrite <- app_assoc.
Qed.

Lemma GetByte_loop_run n : forall x h,
  GetByte_loop E n x h
  = Done (fold_left (fun a b => snd (shift_left a b)) (samples E n h) x)
         (h ++ recv_tr (samples E n h)).
Proof.
  induction n as [|n IH]; intros x h.
  - cbn. now rewrite app_nil_r.
  - cbn [GetByte_loop]. step_run. unfold input. cbn [app].
    rewrite <- ?app_assoc. cbn [app].
    rewrite IH. cbn [samples fold_left recv_tr flat_map].
    unfold clock_in_tr at 3. rewrite <- app_assoc. reflexivity.
Qed.

(** The byte received is the value of the eight sampled levels. *)
Lemma STFlash_GetByte_run h :
  STFlash_GetByte E h
  = Done (byte_of_bits (samples E 8 h)) (h ++ recv_tr (samples E 8 h)).
Proof.
  unfold STFlash_GetByte, uninit, bind. rewrite GetByte_loop_run.
  now rewrite shift_in_byte by apply length_samples.
Qed.

End Runs.

(** ** Buffers *)

Lemma length_set_nth l : forall n v, length (set_nth l n v) = length l.
Proof.
  induction l as [|x l IH]; intros [|n] v; cbn; try rewrite IH; reflexivity.
Qed.

Lemma nth_error_set_nth l : forall n v,
  (n < length l)%nat -> nth_error (set_nth l n v) n = Some v.
Proof.
  induction l as [|x l IH]; intros [|n] v Hn; cbn in *; try lia.
  - reflexivity.
  - apply IH. lia.
Qed.

Lemma set_nth_twice l : forall n v w,
  set_nth (set_nth l n v) n w = set_nth l n w.
Proof.
  induction l as [|x l IH]; intros [|n] v w; cbn; try rewrite IH; reflexivity.
Qed.

Lemma set_nth_same l : forall n x,
  nth_error l n = Some x -> set_nth l n x = l.
Proof.
  induction l as [|y l IH]; intros [|n] x Hx; cbn in *; try congruence.
  now rewrite IH.
Qed.

Lemma set_nth_split l : forall n v,
  (n < length l)%nat ->
  set_nth l n v = firstn n l ++ v :: skipn (S n) l.
Proof.
  induction l as [|x l IH]; intros [|n] v Hn; cbn in *; try lia.
  - reflexivity.
  - f_equal. apply IH. lia.
Qed.

Lemma buf_get_run buffer i x h :
  0 <= i -> nth_error buffer (Z.to_nat i) = Some x ->
  buf_get buffer i h = Done x h.
Proof.
  intros Hi Hx. unfold buf_get.
  destruct (Z.ltb_spec i 0); [lia|]. now rewrite Hx.
Qed.

Lemma buf_set_run buffer i x v h :
  0 <= i -> nth_error buffer (Z.to_nat i) = Some x ->
  buf_set buffer i v h = Done (set_nth buffer (Z.to_nat i) v) h.
Proof.
  intros Hi Hx. unfold buf_set.
  destruct (Z.ltb_spec i 0); [lia|]. now rewrite Hx.
Qed.

Lemma bytes_of_bits_app n : forall bs cs,
  length bs = 8%nat ->
  bytes_of_bits (S n) (bs ++ cs) = byte_of_bits bs :: bytes_of_bits n cs.
Proof.
  intros bs cs Hlen. cbn [bytes_of_bits].
  rewrite firstn_app, skipn_app, Hlen, Nat.sub_diag.
  rewrite <- Hlen at 1. rewrite firstn_all.
  rewrite <- Hlen at 1. rewrite skipn_all.
  cbn [firstn skipn app]. now rewrite app_nil_r.
Qed.

Lemma length_bytes_of_bits n : forall bs, length (bytes_of_bits n bs) = n.
Proof. induction n as [|n IH]; intros bs; cbn; [|rewrite IH]; reflexivity. Qed.

Section BlockRuns.

Variable E : platform.

Lemma getBytes_bits_run n : forall data i x h,
  0 <= i -> nth_error data (Z.to_nat i) = Some x ->
  getBytes_bits E n data i h
  = Done (set_nth data (Z.to_nat i)
            (fold_left (fun a b => snd (shift_left a b)) (samples E n h) x))
         (h ++ recv_tr (samples E n h)).
Proof.
  induction n as [|n IH]; intros data i x h Hi Hx.
  - cbn. now rewrite app_nil_r, (set_nth_same _ _ _ Hx).
  - cbn [getBytes_bits]. step_run. unfold input. cbn [app].
    rewrite <- ?app_assoc. cbn [app].
    rewrite (buf_get_run _ _ _ _ Hi Hx).
    rewrite (buf_set_run _ _ _ _ _ Hi Hx).
    rewrite <- ?app_assoc. cbn [app].
    erewrite IH; [|exact Hi|].
    + rewrite set_nth_twice. cbn [samples fold_left recv_tr flat_map].
      unfold clock_in_tr at 3. rewrite <- app_assoc. reflexivity.
    + apply nth_error_set_nth. apply nth_error_Some. congruence.
Qed.

Lemma firstn_set_nth_succ l : forall k v,
  (k < length l)%nat -> firstn (S k) (set_nth l k v) = firstn k l ++ [v].
Proof.
  induction l as [|x l IH]; intros [|k] v Hk; cbn in *; try lia.
  - reflexivity.
  - f_equal. apply IH. lia.
Qed.

Lemma skipn_set_nth l : forall k m v,
  (k < m)%nat -> skipn m (set_nth l k v) = skipn m l.
Proof.
  induction l as [|x l IH]; intros [|k] [|m] v Hk; cbn; try lia;
    try reflexivity.
  apply IH. lia.
Qed.

Lemma recv_tr_app a b : recv_tr (a ++ b) = recv_tr a ++ recv_tr b.
Proof. apply flat_map_app. Qed.

Lemma getBytes_loop_run n : forall data k h,
  (k + n <= length data)%nat -> Z.of_nat (k + n) <= 65536 ->
  getBytes_loop E n data (Z.of_nat k) h
  = Done (firstn k data ++ bytes_of_bits n (samples E (8 * n) h)
            ++ skipn (k + n) data)
         (h ++ recv_tr (samples E (8 * n) h)).
Proof.
  induction n as [|n IH]; intros data k h Hlen Hmax.
  - cbn [getBytes_loop ret Nat.mul samples recv_tr flat_map bytes_of_bits app].
    now rewrite Nat.add_0_r, firstn_skipn, app_nil_r.
  - cbn [getBytes_loop].
    destruct (nth_error data k) as [x|] eqn:Hx;
      [|apply nth_error_None in Hx; lia].
    erewrite bind_done;
      [|apply getBytes_bits_run with (x := x); [lia|now rewrite Nat2Z.id]].
    rewrite Nat2Z.id.
    rewrite shift_in_byte by apply length_samples.
    replace (8 * S n)%nat with (8 + 8 * n)%nat by lia.
    rewrite samples_app.
    rewrite bytes_of_bits_app by apply length_samples.
    set (v := byte_of_bits (samples E 8 h)).
    set (h1 := h ++ recv_tr (samples E 8 h)).
    assert (Hk : (k < length data)%nat) by lia.
    destruct n as [|n].
    + cbn [getBytes_loop ret Nat.mul samples recv_tr flat_map
             bytes_of_bits app]. rewrite !app_nil_r.
      rewrite (set_nth_split _ _ _ Hk).
      replace (k + 1)%nat with (S k) by lia. reflexivity.
    + replace (wrap16 (Z.of_nat k + 1)) with (Z.of_nat (S k))
        by (unfold wrap16; rewrite Z.mod_small; lia).
      rewrite IH by (rewrite ?length_set_nth; lia).
      f_equal.
      * rewrite firstn_set_nth_succ by exact Hk.
        rewrite skipn_set_nth by lia.
        replace (S k + S n)%nat with (k + S (S n))%nat by lia.
        rewrite <- app_assoc. reflexivity.
      * unfold h1. rewrite recv_tr_app, app_assoc. reflexivity.
Qed.

End BlockRuns.

(** ** What each command appends to the history *)

Section CommandRuns.

Variable E : platform.

Lemma output_high_run p h : output_high p h = Done tt (h ++ [Drive p true]).
Proof. reflexivity. Qed.

Ltac run1 :=
  lazymatch goal with
  | |- bind chip_select _ _ = _ =>
      rewrite (bind_done _ _ _ _ _ (chip_select_run _))
  | |- bind chip_deselect _ _ = _ =>
      rewrite (bind_done _ _ _ _ _ (chip_deselect_run _))
  | |- bind (STFlash_SendByte _) _ _ = _ =>
      rewrite (bind_done _ _ _ _ _ (STFlash_SendByte_run _ _))
  | |- bind (STFlash_GetByte _) _ _ = _ =>
      rewrite (bind_done _ _ _ _ _ (STFlash_GetByte_run _ _))
  | |- bind (output_high _) _ _ = _ =>
      rewrite (bind_done _ _ _ _ _ (output_high_run _ _))
  | |- chip_deselect _ = _ => rewrite chip_deselect_run
  | |- ret _ _ = _ => unfold ret
  end.

Ltac run := repeat run1.

Ltac tidy :=
  unfold xfer_tr, addr_bytes, status_bits;
  cbn [flat_map recv_tr app];
  rewrite <- ?app_assoc, ?app_nil_r; cbn [app].

Lemma STFlash_getBytes_run data size h :
  0 <= size <= 65536 -> (Z.to_nat size <= length data)%nat ->
  STFlash_getBytes E data size h
  = Done (bytes_of_bits (Z.to_nat size) (samples E (8 * Z.to_nat size) h)
            ++ skipn (Z.to_nat size) data)
         (h ++ recv_tr (samples E (8 * Z.to_nat size) h)).
Proof.
  intros Hs Hl. unfold STFlash_getBytes.
  change 0 with (Z.of_nat 0).
  rewrite getBytes_loop_run by (cbn [Nat.add]; lia).
  reflexivity.
Qed.

Lemma STFlash_readStatus_run h :
  STFlash_readStatus E h = Done (status_at E h) (after_status E h).
Proof.
  unfold STFlash_readStatus, after_status, status_at. run. tidy.
  reflexivity.
Qed.

Lemma STFlash_WriteEnable_run h :
  STFlash_WriteEnable h = Done tt (h ++ xfer_tr [6] []).
Proof.
  unfold STFlash_WriteEnable. run. tidy. reflexivity.
Qed.

Lemma STFlash_WriteDisable_run h :
  STFlash_WriteDisable h = Done tt (h ++ xfer_tr [4] []).
Proof.
  unfold STFlash_WriteDisable. run. tidy. reflexivity.
Qed.

Lemma STFlash_writeStatus_run value h :
  STFlash_writeStatus value h
  = Done tt (h ++ xfer_tr [6] [] ++ xfer_tr [1; value] [] ++ xfer_tr [4] []).
Proof.
  unfold STFlash_writeStatus.
  rewrite (bind_done _ _ _ _ _ (STFlash_WriteEnable_run _)). run.
  rewrite STFlash_WriteDisable_run. tidy. reflexivity.
Qed.

Lemma STFlash_Write1Byte_run Address data h :
  STFlash_Write1Byte Address data h
  = Done tt (h ++ Write1Byte_tr Address data).
Proof.
  unfold STFlash_Write1Byte, Write1Byte_tr.
  rewrite (bind_done _ _ _ _ _ (STFlash_WriteEnable_run _)). run. tidy.
  reflexivity.
Qed.

Lemma STFlash_EraseBlock_run Address h :
  STFlash_EraseBlock Address h = Done tt (h ++ EraseBlock_tr Address).
Proof.
  unfold STFlash_EraseBlock, EraseBlock_tr.
  rewrite (bind_done _ _ _ _ _ (STFlash_WriteEnable_run _)). run.
  rewrite STFlash_WriteDisable_run. tidy. reflexivity.
Qed.

Lemma STFlash_ReadBlock_run Address buffer size h :
  0 <= size <= 65536 -> (Z.to_nat size <= length buffer)%nat ->
  let n := Z.to_nat size in
  let bs := samples E (8 * n)
              (h ++ select_tr ++ flat_map send_tr (3 :: addr_bytes Address)) in
  STFlash_ReadBlock E Address buffer size h
  = Done (bytes_of_bits n bs ++ skipn n buffer)
         (h ++ xfer_tr (3 :: addr_bytes Address) bs).
Proof.
  intros Hs Hl n bs. unfold STFlash_ReadBlock. run.
  rewrite (bind_done _ _ _ _ _ (STFlash_getBytes_run _ _ _ Hs Hl)).
  run. subst bs n. tidy. reflexivity.
Qed.

End CommandRuns.

(** ** The bus monitor on the driver's traces *)

Lemma monitor_app s t1 t2 : monitor s (t1 ++ t2) = monitor (monitor s t1) t2.
Proof. apply fold_left_app. Qed.

Lemma monitor_select s :
  b_cs s = true ->
  monitor s select_tr
  = {| b_cs := false; b_clk := false; b_di := b_di s; b_cur := [];
       b_closed := b_closed s;
       b_falls := S (b_falls s); b_rises := b_rises s |}.
Proof. destruct s; cbn. intros ->. reflexivity. Qed.

Lemma monitor_deselect s :
  b_cs s = false ->
  monitor s deselect_tr
  = {| b_cs := true; b_clk := false; b_di := b_di s; b_cur := [];
       b_closed := b_closed s ++ [b_cur s];
       b_falls := b_falls s; b_rises := S (b_rises s) |}.
Proof. destruct s; cbn. intros ->. reflexivity. Qed.

Lemma monitor_bit s b :
  b_cs s = false -> b_clk s = false ->
  monitor s (bit_tr b)
  = {| b_cs := false; b_clk := false; b_di := b; b_cur := b_cur s ++ [b];
       b_closed := b_closed s;
       b_falls := b_falls s; b_rises := b_rises s |}.
Proof. destruct s; cbn. intros -> ->. reflexivity. Qed.

Lemma last_cons_default {A} (l : list A) : forall a d,
  last (a :: l) d = last l a.
Proof.
  induction l as [|x l IH]; intros a d; [reflexivity|].
  change (last (a :: x :: l) d) with (last (x :: l) d).
  now rewrite !IH.
Qed.

Lemma monitor_bits bs : forall s,
  b_cs s = false -> b_clk s = false ->
  monitor s (flat_map bit_tr bs)
  = {| b_cs := false; b_clk := false; b_di := last bs (b_di s);
       b_cur := b_cur s ++ bs;
       b_closed := b_closed s;
       b_falls := b_falls s; b_rises := b_rises s |}.
Proof.
  induction bs as [|b bs IH]; intros s Hcs Hclk.
  - destruct s; cbn in *; subst. now rewrite app_nil_r.
  - cbn [flat_map]. rewrite monitor_app, monitor_bit by assumption.
    rewrite IH by reflexivity. cbn [b_di b_cur b_closed b_falls b_rises].
    rewrite <- app_assoc. cbn [app]. f_equal.
    symmetry. apply last_cons_default.
Qed.

Lemma monitor_send s v :
  b_cs s = false -> b_clk s = false ->
  monitor s (send_tr v)
  = {| b_cs := false; b_clk := false; b_di := Z.testbit v 0;
       b_cur := b_cur s ++ bits8 v;
       b_closed := b_closed s;
       b_falls := b_falls s; b_rises := b_rises s |}.
Proof. intros Hcs Hclk. unfold send_tr. now rewrite monitor_bits. Qed.

Lemma monitor_sends out : forall s,
  b_cs s = false -> b_clk s = false ->
  monitor s (flat_map send_tr out)
  = {| b_cs := false; b_clk := false; b_di := di_after out (b_di s);
       b_cur := b_cur s ++ frame out;
       b_closed := b_closed s;
       b_falls := b_falls s; b_rises := b_rises s |}.
Proof.
  induction out as [|v out IH]; intros s Hcs Hclk.
  - destruct s; cbn in *; subst. now rewrite app_nil_r.
  - cbn [flat_map]. rewrite monitor_app, monitor_send by assumption.
    rewrite IH by reflexivity. cbn [b_di b_cur b_closed b_falls b_rises].
    unfold frame. cbn [flat_map di_after fold_left].
    now rewrite <- app_assoc.
Qed.

Lemma monitor_recv bs : forall s,
  b_cs s = false -> b_clk s = false ->
  monitor s (recv_tr bs)
  = {| b_cs := false; b_clk := false; b_di := b_di s;
       b_cur := b_cur s ++ repeat (b_di s) (length bs);
       b_closed := b_closed s;
       b_falls := b_falls s; b_rises := b_rises s |}.
Proof.
  induction bs as [|b bs IH]; intros s Hcs Hclk.
  - destruct s; cbn in *; subst. now rewrite app_nil_r.
  - unfold recv_tr. cbn [flat_map]. fold (recv_tr bs).
    rewrite monitor_app.
    assert (H1 : monitor s (clock_in_tr b)
                 = {| b_cs := false; b_clk := false; b_di := b_di s;
                      b_cur := b_cur s ++ [b_di s];
                      b_closed := b_closed s;
                      b_falls := b_falls s; b_rises := b_rises s |}).
    { destruct s; cbn in *; subst. reflexivity. }
    rewrite H1, IH by reflexivity.
    cbn [b_di b_cur b_closed b_falls b_rises length repeat].
    now rewrite <- app_assoc.
Qed.

Lemma monitor_highs k s : monitor s (highs k) = s.
Proof.
  induction k as [|k IH]; [reflexivity|].
  unfold highs in *. cbn [repeat]. exact IH.
Qed.

(** A whole transaction, seen from an idle bus. *)
Lemma monitor_xfer s out inb :
  b_cs s = true ->
  monitor s (xfer_tr out inb) = bus_xfer s out (length inb).
Proof.
  intros Hcs. unfold xfer_tr.
  rewrite monitor_app, monitor_select by assumption.
  rewrite monitor_app, monitor_sends by reflexivity.
  rewrite monitor_app, monitor_recv by reflexivity.
  rewrite monitor_deselect by reflexivity. reflexivity.
Qed.

Lemma bus_xfer_cs s out nin : b_cs (bus_xfer s out nin) = true.
Proof. reflexivity. Qed.

(** ** Byte serialisation *)

Lemma Done_inj {A} (a b : A) h h' : Done a h = Done b h' -> a = b /\ h = h'.
Proof. intros H. injection H as -> ->. now split. Qed.

(** C5.  [STFlash_SendByte] always returns, and what it appends to the
    history is, for each of the bits 7, 6, ..., 0 of the value in this
    order: the data line driven to the bit, the clock raised, a delay of
    [SCLKDELAY] cycles, the clock lowered, the same delay.  For
    0b10110000 the data line is driven 1,0,1,1,0,0,0,0, and a bus monitor
    clocks in exactly these bits. *)
Theorem SendByte_msb_first :
  (forall data h,
     STFlash_SendByte data h
     = Done tt
         (h ++ flat_map
                 (fun k => [Drive FLASH_DI (Z.testbit data k);
                            Drive FLASH_CLOCK true; DelayCycles SCLKDELAY;
                            Drive FLASH_CLOCK false; DelayCycles SCLKDELAY])
                 [7; 6; 5; 4; 3; 2; 1; 0]))
  /\ (forall data, driven FLASH_DI (send_tr data) = bits8 data)
  /\ (forall data,
        transactions (select_tr ++ send_tr data ++ deselect_tr)
        = [bits8 data])
  /\ (exists t, STFlash_SendByte 176 [] = Done tt t
                /\ driven FLASH_DI t
                   = [true; false; true; true; false; false; false; false]).
Proof.
  split; [|split; [|split]].
  - intros data h. rewrite STFlash_SendByte_run. reflexivity.
  - intros data. reflexivity.
  - intros data. unfold transactions.
    change (select_tr ++ send_tr data ++ deselect_tr)
      with (xfer_tr [data] []) at 1.
    reflexivity.
  - exists (send_tr 176). split; reflexivity.
Qed.

(** C9.  [STFlash_GetByte] always returns; it samples the data-out line
    exactly eight times and returns the value of the eight levels read most
    significant bit first.  The loop gives this result from any initial
    content of [flashData], and two runs (on any platforms, after any
    histories) that sample the same levels return the same byte.  In the
    same way the bytes that [STFlash_getBytes] stores are the values of
    the levels it samples, eight per byte, whatever the buffer held. *)
Theorem GetByte_determined_by_samples :
  (forall E h,
     exists bs, length bs = 8%nat
       /\ STFlash_GetByte E h = Done (byte_of_bits bs) (h ++ recv_tr bs)
       /\ sampled FLASH_DO (recv_tr bs) = bs)
  /\ (forall E h x1 x2, GetByte_loop E 8 x1 h = GetByte_loop E 8 x2 h)
  /\ (forall E1 E2 h1 h2 r1 r2 t1 t2,
        STFlash_GetByte E1 h1 = Done r1 (h1 ++ t1) ->
        STFlash_GetByte E2 h2 = Done r2 (h2 ++ t2) ->
        sampled FLASH_DO t1 = sampled FLASH_DO t2 ->
        r1 = r2)
  /\ (forall E data size h,
        0 <= size < 65536 -> (Z.to_nat size <= length data)%nat ->
        exists bs,
          length bs = (8 * Z.to_nat size)%nat
          /\ STFlash_getBytes E data size h
             = Done (bytes_of_bits (Z.to_nat size) bs
                       ++ skipn (Z.to_nat size) data)
                    (h ++ recv_tr bs)
          /\ sampled FLASH_DO (recv_tr bs) = bs).
Proof.
  assert (Hs : forall bs, sampled FLASH_DO (recv_tr bs) = bs).
  { induction bs as [|b bs IH]; [reflexivity|].
    cbn [recv_tr flat_map clock_in_tr app sampled pin_eqb].
    fold (recv_tr bs). now rewrite IH. }
  split; [|split; [|split]]; cycle 3.
  { intros E data size h Hsz Hl.
    exists (samples E (8 * Z.to_nat size) h).
    split; [apply length_samples|]. split; [|apply Hs].
    apply STFlash_getBytes_run; [lia|exact Hl]. }
  - intros E h. exists (samples E 8 h).
    split; [apply length_samples|]. split; [apply STFlash_GetByte_run|].
    apply Hs.
  - intros E h x1 x2. rewrite !GetByte_loop_run.
    now rewrite !shift_in_byte by apply length_samples.
  - intros E1 E2 h1 h2 r1 r2 t1 t2 H1 H2 Heq.
    rewrite STFlash_GetByte_run in H1, H2.
    apply Done_inj in H1 as [<- Ht1]. apply Done_inj in H2 as [<- Ht2].
    apply app_inv_head in Ht1, Ht2. subst t1 t2.
    rewrite !Hs in Heq. now rewrite Heq.
Qed.

Lemma GetByte_determined_by_samples_witness :
  STFlash_GetByte (const_platform true 0) [] = Done 255 ([] ++ recv_tr (repeat true 8))
  /\ STFlash_GetByte (const_platform true 170) [Drive FLASH_CLOCK false]
     = Done 255 ([Drive FLASH_CLOCK false] ++ recv_tr (repeat true 8))
  /\ 255 = 255.
Proof.
  split; [reflexivity|]. split; [reflexivity|].
  exact (proj1 (proj2 (proj2 GetByte_determined_by_samples))
           (const_platform true 0) (const_platform true 170)
           [] [Drive FLASH_CLOCK false] 255 255
           (recv_tr (repeat true 8)) (recv_tr (repeat true 8))
           eq_refl eq_refl eq_refl).
Defined.

(** ** Address framing *)

Lemma Make8_spec var k :
  0 <= k -> Make8 var k = (var / 256 ^ k) mod 256.
Proof.
  intros Hk. unfold Make8. change 255 with (Z.ones 8).
  rewrite Z.land_ones, Z.shiftr_div_pow2 by lia.
  rewrite Z.pow_mul_r by lia. reflexivity.
Qed.

Lemma Make8_0 var : Make8 var 0 = var mod 256.
Proof. rewrite Make8_spec by lia. now rewrite Z.div_1_r. Qed.

Lemma Make8_1 var : Make8 var 1 = (var / 256) mod 256.
Proof. now rewrite Make8_spec by lia. Qed.

Lemma Make8_2 var : Make8 var 2 = (var / 65536) mod 256.
Proof. now rewrite Make8_spec by lia. Qed.

Lemma Make8_range var k : 0 <= k -> 0 <= Make8 var k < 256.
Proof. intros Hk. rewrite Make8_spec by lia. apply Z.mod_pos_bound. lia. Qed.

(** The three bytes sent are the 24 low bits of the address. *)
Lemma addr_bytes_value Address :
  65536 * Make8 Address 2 + 256 * Make8 Address 1 + Make8 Address 0
  = Address mod 16777216.
Proof.
  rewrite Make8_0, Make8_1, Make8_2.
  Z.div_mod_to_equations. lia.
Qed.

Lemma addr_bytes_congr A B :
  A mod 16777216 = B mod 16777216 -> addr_bytes A = addr_bytes B.
Proof.
  intros H. unfold addr_bytes.
  rewrite !Make8_0, !Make8_1, !Make8_2.
  assert (H0 : A mod 256 = B mod 256)
    by (Z.div_mod_to_equations; lia).
  assert (H1 : (A / 256) mod 256 = (B / 256) mod 256)
    by (Z.div_mod_to_equations; lia).
  assert (H2 : (A / 65536) mod 256 = (B / 65536) mod 256)
    by (Z.div_mod_to_equations; lia).
  now rewrite H0, H1, H2.
Qed.

Lemma testbit_Make8_0 var : Z.testbit (Make8 var 0) 0 = Z.testbit var 0.
Proof.
  unfold Make8. rewrite Z.land_spec, Z.shiftr_spec by lia.
  cbn. apply andb_true_r.
Qed.

Ltac mon :=
  unfold transactions, selects, deselects, select_level;
  repeat first [ rewrite monitor_app
               | rewrite monitor_xfer by reflexivity ].

Lemma transactions_ReadBlock Address bs :
  transactions (xfer_tr (3 :: addr_bytes Address) bs)
  = [frame [3; (Address / 65536) mod 256; (Address / 256) mod 256;
            Address mod 256]
     ++ repeat (Z.testbit Address 0) (length bs)].
Proof.
  mon. unfold bus_xfer, addr_bytes. cbn [b_closed idle_bus app].
  cbn [di_after fold_left]. rewrite testbit_Make8_0.
  now rewrite Make8_0, Make8_1, Make8_2.
Qed.

Lemma transactions_Write1Byte Address data :
  transactions (Write1Byte_tr Address data)
  = [frame [6];
     frame [2; (Address / 65536) mod 256; (Address / 256) mod 256;
            Address mod 256; data]].
Proof.
  unfold Write1Byte_tr. mon. unfold bus_xfer, addr_bytes.
  cbn [b_closed idle_bus app repeat]. rewrite !app_nil_r.
  now rewrite Make8_0, Make8_1, Make8_2.
Qed.

Lemma monitor_erase s out :
  b_cs s = true ->
  monitor s (select_tr ++ flat_map send_tr out
               ++ Drive FLASH_SELECT true :: deselect_tr)
  = bus_xfer s out 0.
Proof.
  intros Hcs.
  rewrite monitor_app, monitor_select by assumption.
  rewrite monitor_app, monitor_sends by reflexivity.
  unfold bus_xfer. cbn. now rewrite app_nil_r.
Qed.

Lemma transactions_EraseBlock Address :
  transactions (EraseBlock_tr Address)
  = [frame [6];
     frame [216; (Address / 65536) mod 256; (Address / 256) mod 256;
            Address mod 256];
     frame [4]].
Proof.
  unfold EraseBlock_tr, transactions.
  rewrite monitor_app, monitor_xfer by reflexivity.
  rewrite monitor_app, monitor_erase by reflexivity.
  rewrite monitor_xfer by reflexivity.
  unfold bus_xfer, addr_bytes.
  cbn [b_closed idle_bus app repeat]. rewrite !app_nil_r.
  now rewrite Make8_0, Make8_1, Make8_2.
Qed.

(** C4.  Seen by a bus monitor, the transaction of [STFlash_ReadBlock] is
    the opcode 0x03, then byte 2, byte 1 and byte 0 of the address, then
    only the clock pulses of the receive phase (eight per byte to read, the
    data line left as it was); the program transaction of
    [STFlash_Write1Byte] is 0x02, the same three address bytes and the data
    byte; the erase transaction of [STFlash_EraseBlock] is 0xD8 and the
    three address bytes.  The address bytes do not depend on the length
    argument, and for the address 0x012345 they are 0x01, 0x23, 0x45. *)
Theorem address_phase_big_endian :
  (forall E Address buffer size h,
     0 <= size < 65536 -> (Z.to_nat size <= length buffer)%nat ->
     exists buffer' t,
       STFlash_ReadBlock E Address buffer size h = Done buffer' (h ++ t)
       /\ transactions t
          = [frame [3; (Address / 65536) mod 256; (Address / 256) mod 256;
                    Address mod 256]
             ++ repeat (Z.testbit Address 0) (8 * Z.to_nat size)])
  /\ (forall Address data h,
        exists t,
          STFlash_Write1Byte Address data h = Done tt (h ++ t)
          /\ transactions t
             = [frame [6];
                frame [2; (Address / 65536) mod 256; (Address / 256) mod 256;
                       Address mod 256; data]])
  /\ (forall Address h,
        exists t,
          STFlash_EraseBlock Address h = Done tt (h ++ t)
          /\ transactions t
             = [frame [6];
                frame [216; (Address / 65536) mod 256;
                       (Address / 256) mod 256; Address mod 256];
                frame [4]])
  /\ (forall E buffer size h,
        0 <= size < 65536 -> (Z.to_nat size <= length buffer)%nat ->
        exists buffer' t tx,
          STFlash_ReadBlock E 74565 buffer size h = Done buffer' (h ++ t)
          /\ transactions t = [tx]
          /\ bytes_of_bits 4 tx = [3; 1; 35; 69]).
Proof.
  split; [|split; [|split]].
  - intros E Address buffer size h Hs Hl.
    rewrite STFlash_ReadBlock_run by lia.
    eexists. eexists. split; [reflexivity|].
    rewrite transactions_ReadBlock. now rewrite length_samples.
  - intros Address data h. rewrite STFlash_Write1Byte_run.
    eexists. split; [reflexivity|]. apply transactions_Write1Byte.
  - intros Address h. rewrite STFlash_EraseBlock_run.
    eexists. split; [reflexivity|]. apply transactions_EraseBlock.
  - intros E buffer size h Hs Hl.
    rewrite STFlash_ReadBlock_run by lia.
    eexists. eexists. eexists. split; [reflexivity|].
    split; [apply transactions_ReadBlock|]. reflexivity.
Qed.

Lemma address_phase_big_endian_witness :
  exists buffer' t,
    STFlash_ReadBlock (const_platform false 0) 74565 [0; 0] 2 []
    = Done buffer' ([] ++ t)
    /\ transactions t
       = [frame [3; (74565 / 65536) mod 256; (74565 / 256) mod 256;
                 74565 mod 256]
          ++ repeat (Z.testbit 74565 0) (8 * Z.to_nat 2)].
Proof.
  apply (proj1 address_phase_big_endian (const_platform false 0)
           74565 [0; 0] 2 []).
  - lia.
  - cbn. lia.
Defined.

Lemma Write1Byte_frames Address data h :
  exists t,
    STFlash_Write1Byte Address data h = Done tt (h ++ t)
    /\ transactions t
       = [frame [6];
          frame [2; (Address / 65536) mod 256; (Address / 256) mod 256;
                 Address mod 256; data]].
Proof.
  rewrite STFlash_Write1Byte_run.
  eexists. split; [reflexivity|]. apply transactions_Write1Byte.
Qed.

Lemma EraseBlock_frames Address h :
  exists t,
    STFlash_EraseBlock Address h = Done tt (h ++ t)
    /\ transactions t
       = [frame [6];
          frame [216; (Address / 65536) mod 256; (Address / 256) mod 256;
                 Address mod 256];
          frame [4]].
Proof.
  rewrite STFlash_EraseBlock_run.
  eexists. split; [reflexivity|]. apply transactions_EraseBlock.
Qed.

Lemma ReadBlock_frames E Address buffer size h :
  0 <= size < 65536 -> (Z.to_nat size <= length buffer)%nat ->
  exists buffer' t,
    STFlash_ReadBlock E Address buffer size h = Done buffer' (h ++ t)
    /\ transactions t
       = [frame [3; (Address / 65536) mod 256; (Address / 256) mod 256;
                 Address mod 256]
          ++ repeat (Z.testbit Address 0) (8 * Z.to_nat size)].
Proof.
  intros Hs Hl. rewrite STFlash_ReadBlock_run by lia.
  eexists. eexists. split; [reflexivity|].
  rewrite transactions_ReadBlock. now rewrite length_samples.
Qed.

(** C10.  No addressed operation checks its address.  For every address
    (32 bits or any other integer) [STFlash_Write1Byte] and
    [STFlash_EraseBlock] return after a bus transaction, and so does
    [STFlash_ReadBlock] when the buffer holds [size] bytes; the three
    address bytes on the wire are the digits in base 256 of the address
    modulo 2^24; and two addresses that agree modulo 2^24 give the same
    outcome, history included. *)
Theorem address_truncated_to_24_bits :
  (forall Address,
     exists b2 b1 b0,
       0 <= b2 < 256 /\ 0 <= b1 < 256 /\ 0 <= b0 < 256
       /\ 65536 * b2 + 256 * b1 + b0 = Address mod 16777216
       /\ (forall data h,
             exists t, STFlash_Write1Byte Address data h = Done tt (h ++ t)
                       /\ transactions t
                          = [frame [6]; frame [2; b2; b1; b0; data]])
       /\ (forall h,
             exists t, STFlash_EraseBlock Address h = Done tt (h ++ t)
                       /\ transactions t
                          = [frame [6]; frame [216; b2; b1; b0]; frame [4]])
       /\ (forall E buffer size h,
             0 <= size < 65536 -> (Z.to_nat size <= length buffer)%nat ->
             exists buffer' t pad,
               STFlash_ReadBlock E Address buffer size h
               = Done buffer' (h ++ t)
               /\ transactions t = [frame [3; b2; b1; b0] ++ pad]))
  /\ (forall A B,
        A mod 16777216 = B mod 16777216 ->
        (forall data h,
           STFlash_Write1Byte A data h = STFlash_Write1Byte B data h)
        /\ (forall h, STFlash_EraseBlock A h = STFlash_EraseBlock B h)
        /\ (forall E buffer size h,
              STFlash_ReadBlock E A buffer size h
              = STFlash_ReadBlock E B buffer size h)).
Proof.
  split.
  - intros Address.
    exists ((Address / 65536) mod 256), ((Address / 256) mod 256),
           (Address mod 256).
    repeat split; try (apply Z.mod_pos_bound; lia).
    + Z.div_mod_to_equations. lia.
    + intros data h. apply Write1Byte_frames.
    + intros h. apply EraseBlock_frames.
    + intros E buffer size h Hs Hl.
      destruct (ReadBlock_frames E Address buffer size h Hs Hl)
        as (buffer' & t & Hrun & Htx).
      exists buffer', t. eexists. split; [exact Hrun|exact Htx].
  - intros A B HAB. apply addr_bytes_congr in HAB.
    unfold addr_bytes in HAB. injection HAB as H2 H1 H0.
    repeat split; intros.
    + unfold STFlash_Write1Byte. now rewrite H2, H1, H0.
    + unfold STFlash_EraseBlock. now rewrite H2, H1, H0.
    + unfold STFlash_ReadBlock. now rewrite H2, H1, H0.
Qed.

Lemma address_truncated_to_24_bits_witness :
  16842753 mod 16777216 = 65537 mod 16777216
  /\ STFlash_Write1Byte 16842753 90 [] = STFlash_Write1Byte 65537 90 [].
Proof.
  split; [reflexivity|].
  exact (proj1 (proj2 address_truncated_to_24_bits 16842753 65537 eq_refl)
           90 []).
Defined.

(** ** The two polling loops *)

Lemma first_false k : forall P : nat -> bool,
  P k = false ->
  exists k', (k' <= k)%nat /\ P k' = false
             /\ forall j, (j < k')%nat -> P j = true.
Proof.
  induction k as [|k IH]; intros P Hk.
  - exists 0%nat. repeat split; [lia|assumption|intros; lia].
  - destruct (P 0%nat) eqn:H0.
    + destruct (IH (fun j => P (S j)) Hk) as (k' & Hle & Hf & Hlt).
      exists (S k'). repeat split; [lia|assumption|].
      intros [|j] Hj; [assumption|apply Hlt; lia].
    + exists 0%nat. repeat split; [lia|assumption|intros; lia].
Qed.

Lemma highs_succ h k :
  (h ++ [Sample FLASH_DO true]) ++ highs k = h ++ highs (S k).
Proof. now rewrite <- app_assoc. Qed.

Section Polling.

Variable E : platform.

Lemma wait_DO_low_step fuel h :
  wait_DO_low E (S fuel) h
  = if wire E FLASH_DO h
    then wait_DO_low E fuel (h ++ [Sample FLASH_DO true])
    else Done tt (h ++ [Sample FLASH_DO false]).
Proof.
  cbn [wait_DO_low]. unfold bind, input.
  destruct (wire E FLASH_DO h); reflexivity.
Qed.

Lemma wait_DO_low_done k : forall h fuel,
  (forall j, (j < k)%nat -> wire E FLASH_DO (h ++ highs j) = true) ->
  wire E FLASH_DO (h ++ highs k) = false ->
  (k < fuel)%nat ->
  wait_DO_low E fuel h = Done tt (h ++ highs k ++ [Sample FLASH_DO false]).
Proof.
  induction k as [|k IH]; intros h fuel Hhigh Hlow Hfuel;
    (destruct fuel as [|fuel]; [lia|]); rewrite wait_DO_low_step.
  - cbn [highs repeat] in Hlow. rewrite app_nil_r in Hlow.
    now rewrite Hlow.
  - pose proof (Hhigh 0%nat ltac:(lia)) as H0.
    cbn [highs repeat] in H0. rewrite app_nil_r in H0. rewrite H0.
    rewrite IH; try lia.
    + now rewrite <- app_assoc.
    + intros j Hj. rewrite highs_succ. apply Hhigh. lia.
    + now rewrite highs_succ.
Qed.

Lemma wait_DO_low_inv fuel : forall h h',
  wait_DO_low E fuel h = Done tt h' ->
  exists k, (k < fuel)%nat
    /\ (forall j, (j < k)%nat -> wire E FLASH_DO (h ++ highs j) = true)
    /\ wire E FLASH_DO (h ++ highs k) = false
    /\ h' = h ++ highs k ++ [Sample FLASH_DO false].
Proof.
  induction fuel as [|fuel IH]; intros h h' Hrun; [discriminate|].
  rewrite wait_DO_low_step in Hrun.
  destruct (wire E FLASH_DO h) eqn:Hw.
  - destruct (IH _ _ Hrun) as (k & Hk & Hhigh & Hlow & ->).
    exists (S k). repeat split; [lia| |now rewrite <- highs_succ|].
    + intros [|j] Hj.
      * cbn [highs repeat]. now rewrite app_nil_r.
      * rewrite <- highs_succ. apply Hhigh. lia.
    + now rewrite <- app_assoc.
  - apply Done_inj in Hrun as [_ <-].
    exists 0%nat. repeat split; [lia|intros; lia|].
    cbn [highs repeat]. now rewrite app_nil_r.
Qed.

Lemma wait_DO_low_spin fuel : forall h,
  (forall k, wire E FLASH_DO (h ++ highs k) = true) ->
  wait_DO_low E fuel h = Spin.
Proof.
  induction fuel as [|fuel IH]; intros h Hhigh; [reflexivity|].
  rewrite wait_DO_low_step.
  pose proof (Hhigh 0%nat) as H0.
  cbn [highs repeat] in H0. rewrite app_nil_r in H0. rewrite H0.
  apply IH. intros k. rewrite highs_succ. apply Hhigh.
Qed.

Lemma poll_status_step fuel h :
  poll_status E (S fuel) h
  = if busy_at E h
    then poll_status E fuel (after_status E h)
    else Done tt (after_status E h).
Proof.
  cbn [poll_status].
  rewrite (bind_done _ _ _ _ _ (STFlash_readStatus_run E h)).
  unfold busy_at. destruct (Z.land (status_at E h) 1 =? 0); reflexivity.
Qed.

Lemma poll_status_done k : forall h fuel,
  (forall j, (j < k)%nat -> busy_at E (poll_hist E j h) = true) ->
  busy_at E (poll_hist E k h) = false ->
  (k < fuel)%nat ->
  poll_status E fuel h = Done tt (poll_hist E (S k) h).
Proof.
  induction k as [|k IH]; intros h fuel Hbusy Hready Hfuel;
    (destruct fuel as [|fuel]; [lia|]); rewrite poll_status_step.
  - cbn [poll_hist] in Hready. now rewrite Hready.
  - pose proof (Hbusy 0%nat ltac:(lia)) as H0. cbn [poll_hist] in H0.
    rewrite H0.
    rewrite IH; try lia; try reflexivity.
    + intros j Hj. apply (Hbusy (S j)). lia.
    + exact Hready.
Qed.

Lemma poll_status_inv fuel : forall h h',
  poll_status E fuel h = Done tt h' ->
  exists k, (k < fuel)%nat
    /\ (forall j, (j < k)%nat -> busy_at E (poll_hist E j h) = true)
    /\ busy_at E (poll_hist E k h) = false
    /\ h' = poll_hist E (S k) h.
Proof.
  induction fuel as [|fuel IH]; intros h h' Hrun; [discriminate|].
  rewrite poll_status_step in Hrun.
  destruct (busy_at E h) eqn:Hb.
  - destruct (IH _ _ Hrun) as (k & Hk & Hbusy & Hready & ->).
    exists (S k). repeat split; [lia| |exact Hready].
    intros [|j] Hj; [exact Hb|]. apply Hbusy. lia.
  - apply Done_inj in Hrun as [_ <-].
    exists 0%nat. repeat split; [lia|intros; lia|exact Hb].
Qed.

Lemma poll_status_spin fuel : forall h,
  (forall k, busy_at E (poll_hist E k h) = true) ->
  poll_status E fuel h = Spin.
Proof.
  induction fuel as [|fuel IH]; intros h Hbusy; [reflexivity|].
  rewrite poll_status_step.
  pose proof (Hbusy 0%nat) as H0. cbn [poll_hist] in H0. rewrite H0.
  apply IH. intros k. apply (Hbusy (S k)).
Qed.

(** The history left by [STFlash_waitUntilReady] when the data-out line
    was found high [k] times and then low. *)
Lemma STFlash_waitUntilReady_run k h fuel :
  let h1 := h ++ select_tr ++ send_tr 5 in
  (forall j, (j < k)%nat -> wire E FLASH_DO (h1 ++ highs j) = true) ->
  wire E FLASH_DO (h1 ++ highs k) = false ->
  (k < fuel)%nat ->
  let h2 := h1 ++ highs k ++ [Sample FLASH_DO false] in
  STFlash_waitUntilReady E fuel h
  = Done tt (h2 ++ recv_tr (samples E 8 h2) ++ deselect_tr).
Proof.
  intros h1 Hhigh Hlow Hfuel h2. unfold STFlash_waitUntilReady.
  rewrite (bind_done _ _ _ _ _ (chip_select_run h)).
  rewrite (bind_done _ _ _ _ _ (STFlash_SendByte_run _ _)).
  rewrite <- app_assoc. fold h1.
  rewrite (bind_done _ _ _ _ _ (wait_DO_low_done k h1 fuel Hhigh Hlow Hfuel)).
  fold h2.
  rewrite (bind_done _ _ _ _ _ (STFlash_GetByte_run E h2)).
  rewrite chip_deselect_run. now rewrite <- app_assoc.
Qed.

Lemma STFlash_waitUntilReady_inv fuel h h' :
  STFlash_waitUntilReady E fuel h = Done tt h' ->
  let h1 := h ++ select_tr ++ send_tr 5 in
  exists k, (k < fuel)%nat
    /\ (forall j, (j < k)%nat -> wire E FLASH_DO (h1 ++ highs j) = true)
    /\ wire E FLASH_DO (h1 ++ highs k) = false
    /\ h' = (h1 ++ highs k ++ [Sample FLASH_DO false])
            ++ recv_tr (samples E 8 (h1 ++ highs k ++ [Sample FLASH_DO false]))
            ++ deselect_tr.
Proof.
  intros Hrun h1. unfold STFlash_waitUntilReady in Hrun.
  rewrite (bind_done _ _ _ _ _ (chip_select_run h)) in Hrun.
  rewrite (bind_done _ _ _ _ _ (STFlash_SendByte_run _ _)) in Hrun.
  rewrite <- app_assoc in Hrun. fold h1 in Hrun.
  apply bind_inv in Hrun as ([] & hw & Hwait & Hrest).
  apply wait_DO_low_inv in Hwait as (k & Hk & Hhigh & Hlow & ->).
  exists k. repeat split; try assumption.
  rewrite (bind_done _ _ _ _ _ (STFlash_GetByte_run E _)) in Hrest.
  rewrite chip_deselect_run in Hrest.
  apply Done_inj in Hrest as [_ <-]. now rewrite <- app_assoc.
Qed.

Lemma STFlash_waitUntilReady_spin fuel h :
  (forall k, wire E FLASH_DO ((h ++ select_tr ++ send_tr 5) ++ highs k) = true) ->
  STFlash_waitUntilReady E fuel h = Spin.
Proof.
  intros Hhigh. unfold STFlash_waitUntilReady.
  rewrite (bind_done _ _ _ _ _ (chip_select_run h)).
  rewrite (bind_done _ _ _ _ _ (STFlash_SendByte_run _ _)).
  rewrite <- app_assoc.
  apply bind_spin. now apply wait_DO_low_spin.
Qed.

End Polling.

Lemma busy_at_bit0 E h : busy_at E h = Z.testbit (status_at E h) 0.
Proof.
  unfold busy_at. change 1 with (Z.ones 1).
  rewrite Z.land_ones by lia. change (2 ^ 1) with 2.
  rewrite <- Z.bit0_mod.
  destruct (Z.testbit (status_at E h) 0); reflexivity.
Qed.

Lemma WriteBlock_spin E fuel Address buffer size x h :
  0 < size -> nth_error buffer 0 = Some x ->
  (forall k, busy_at E (poll_hist E k
               (h ++ Write1Byte_tr (wrap32 (Address + 0)) x ++ [DelayUs 10]))
             = true) ->
  STFlash_WriteBlock E fuel Address buffer size h = Spin.
Proof.
  intros Hs Hx Hbusy. unfold STFlash_WriteBlock.
  apply bind_spin.
  destruct (Z.to_nat size) as [|n] eqn:Hn; [lia|].
  cbn [WriteBlock_loop].
  rewrite (bind_done _ _ _ _ _ (buf_get_run buffer 0 x h (Z.le_refl 0) Hx)).
  rewrite (bind_done _ _ _ _ _ (STFlash_Write1Byte_run _ _ _)).
  unfold delay_us. rewrite (bind_done _ _ _ _ _ (emit_run _ _)).
  apply bind_spin. rewrite <- app_assoc. now apply poll_status_spin.
Qed.

(** C8.  Neither polling loop has a timeout.  [STFlash_waitUntilReady]
    returns (for some amount of fuel) exactly when, after the status
    opcode, the data-out line is found low at some poll; the status poll
    of [STFlash_WriteBlock] returns exactly when some status read has bit 0
    clear.  When the line stays high, or bit 0 stays set, at every poll,
    the calls are still polling whatever the fuel: they never return, and
    so [STFlash_WriteBlock] never returns either. *)
Theorem polls_have_no_timeout :
  forall E h,
    let h1 := h ++ select_tr ++ send_tr 5 in
    ((exists fuel h', STFlash_waitUntilReady E fuel h = Done tt h')
     <-> (exists k, wire E FLASH_DO (h1 ++ highs k) = false))
    /\ ((forall k, wire E FLASH_DO (h1 ++ highs k) = true) ->
        forall fuel, STFlash_waitUntilReady E fuel h = Spin)
    /\ ((exists fuel h', poll_status E fuel h = Done tt h')
        <-> (exists k, Z.testbit (status_at E (poll_hist E k h)) 0 = false))
    /\ ((forall k, Z.testbit (status_at E (poll_hist E k h)) 0 = true) ->
        forall fuel, poll_status E fuel h = Spin)
    /\ (forall Address buffer size x,
          0 < size -> nth_error buffer 0 = Some x ->
          (forall k, Z.testbit
                       (status_at E
                          (poll_hist E k
                             (h ++ Write1Byte_tr (wrap32 (Address + 0)) x
                                ++ [DelayUs 10]))) 0 = true) ->
          forall fuel, STFlash_WriteBlock E fuel Address buffer size h = Spin).
Proof.
  intros E h h1. repeat split.
  - intros (fuel & h' & Hrun).
    apply STFlash_waitUntilReady_inv in Hrun as (k & _ & _ & Hlow & _).
    now exists k.
  - intros (k & Hk).
    destruct (first_false k (fun j => wire E FLASH_DO (h1 ++ highs j)) Hk)
      as (k' & _ & Hlow & Hhigh).
    exists (S k'). eexists.
    apply (STFlash_waitUntilReady_run E k' h (S k') Hhigh Hlow). lia.
  - intros Hhigh fuel. apply STFlash_waitUntilReady_spin. exact Hhigh.
  - intros (fuel & h' & Hrun).
    apply poll_status_inv in Hrun as (k & _ & _ & Hready & _).
    exists k. now rewrite <- busy_at_bit0.
  - intros (k & Hk). rewrite <- busy_at_bit0 in Hk.
    destruct (first_false k (fun j => busy_at E (poll_hist E j h)) Hk)
      as (k' & _ & Hready & Hbusy).
    exists (S k'). eexists.
    apply (poll_status_done E k' h (S k') Hbusy Hready). lia.
  - intros Hbusy fuel. apply poll_status_spin.
    intros k. rewrite busy_at_bit0. apply Hbusy.
  - intros Address buffer size x Hs Hx Hbusy fuel.
    apply (WriteBlock_spin E fuel Address buffer size x h Hs Hx).
    intros k. rewrite busy_at_bit0. apply Hbusy.
Qed.

Lemma polls_have_no_timeout_witness :
  STFlash_waitUntilReady (const_platform true 0) 50 [] = Spin
  /\ poll_status (const_platform true 0) 50 [] = Spin
  /\ exists fuel h',
       STFlash_waitUntilReady (const_platform false 0) fuel [] = Done tt h'.
Proof.
  split; [|split].
  - apply (proj1 (proj2 (polls_have_no_timeout (const_platform true 0) []))).
    intros k. reflexivity.
  - apply (proj1 (proj2 (proj2 (proj2
             (polls_have_no_timeout (const_platform true 0) []))))).
    intros k. rewrite <- busy_at_bit0. reflexivity.
  - apply (proj1 (polls_have_no_timeout (const_platform false 0) [])).
    exists 0%nat. reflexivity.
Defined.

(** ** The loop of [STFlash_WriteBlock] *)

Lemma buf_get_inv buffer i h x h' :
  buf_get buffer i h = Done x h' ->
  0 <= i /\ nth_error buffer (Z.to_nat i) = Some x /\ h' = h.
Proof.
  unfold buf_get. destruct (Z.ltb_spec i 0); [discriminate|].
  destruct (nth_error buffer (Z.to_nat i)) as [v|]; [|discriminate].
  intros Hd. apply Done_inj in Hd as [-> ->]. auto.
Qed.

Section BlockLoop.

Variable E : platform.

Lemma WriteBlock_loop_step fuel n Address buffer i x h :
  0 <= i -> nth_error buffer (Z.to_nat i) = Some x ->
  WriteBlock_loop E fuel (S n) Address buffer i h
  = bind (poll_status E fuel)
      (fun _ => WriteBlock_loop E fuel n Address buffer (wrap16 (i + 1)))
      (h ++ Write1Byte_tr (wrap32 (Address + i)) x ++ [DelayUs 10]).
Proof.
  intros Hi Hx. cbn [WriteBlock_loop].
  rewrite (bind_done _ _ _ _ _ (buf_get_run buffer i x h Hi Hx)).
  rewrite (bind_done _ _ _ _ _ (STFlash_Write1Byte_run _ _ _)).
  unfold delay_us. rewrite (bind_done _ _ _ _ _ (emit_run _ _)).
  now rewrite <- app_assoc.
Qed.

Lemma WriteBlock_loop_programmed fuel n : forall Address buffer i h h',
  WriteBlock_loop E fuel n Address buffer i h = Done tt h' ->
  programmed E Address buffer n i h h'.
Proof.
  induction n as [|n IH]; intros Address buffer i h h' Hrun.
  - apply Done_inj in Hrun as [_ <-]. constructor.
  - pose proof Hrun as Hrun'. cbn [WriteBlock_loop] in Hrun'.
    apply bind_inv in Hrun' as (x & h0 & Hget & _).
    apply buf_get_inv in Hget as (Hi & Hx & ->).
    rewrite (WriteBlock_loop_step _ _ _ _ _ _ _ Hi Hx) in Hrun.
    apply bind_inv in Hrun as ([] & hp & Hpoll & Hrest).
    apply poll_status_inv in Hpoll as (k & _ & Hbusy & Hready & ->).
    apply (programmed_byte E Address buffer n i x k h h' Hi Hx Hbusy Hready).
    now apply IH.
Qed.

Lemma programmed_WriteBlock_loop Address buffer n i h h' :
  programmed E Address buffer n i h h' ->
  exists fuel0, forall fuel, (fuel0 <= fuel)%nat ->
    WriteBlock_loop E fuel n Address buffer i h = Done tt h'.
Proof.
  induction 1 as [i h | n i x k h h' Hi Hx h1 Hbusy Hready Hrest IH].
  - exists 0%nat. reflexivity.
  - destruct IH as (fuel0 & Hfuel0).
    exists (Nat.max (S k) fuel0). intros fuel Hfuel.
    rewrite (WriteBlock_loop_step _ _ _ _ _ _ _ Hi Hx).
    rewrite (bind_done _ _ _ _ _
               (poll_status_done E k h1 fuel Hbusy Hready ltac:(lia))).
    apply Hfuel0. lia.
Qed.

End BlockLoop.

(** ** Select edges and transactions of each command *)

Lemma bus_polls_cs k : forall s, b_cs s = true -> b_cs (bus_polls k s) = true.
Proof.
  induction k as [|k IH]; intros s Hs; [exact Hs|].
  cbn [bus_polls]. now apply IH.
Qed.

Lemma bus_polls_falls k : forall s,
  b_falls (bus_polls k s) = (b_falls s + k)%nat.
Proof.
  induction k as [|k IH]; intros s; cbn [bus_polls]; [lia|].
  rewrite IH. cbn [bus_xfer b_falls]. lia.
Qed.

Lemma bus_polls_rises k : forall s,
  b_rises (bus_polls k s) = (b_rises s + k)%nat.
Proof.
  induction k as [|k IH]; intros s; cbn [bus_polls]; [lia|].
  rewrite IH. cbn [bus_xfer b_rises]. lia.
Qed.

Lemma bus_polls_closed k : forall s,
  b_closed (bus_polls k s) = b_closed s ++ repeat status_frame k.
Proof.
  induction k as [|k IH]; intros s; cbn [bus_polls repeat].
  - now rewrite app_nil_r.
  - rewrite IH. cbn [bus_xfer b_closed]. now rewrite <- app_assoc.
Qed.

Lemma bus_block_cs ks : forall s Address buffer i,
  b_cs s = true -> b_cs (bus_block s Address buffer i ks) = true.
Proof.
  induction ks as [|k ks IH]; intros s Address buffer i Hs; [exact Hs|].
  cbn [bus_block]. apply IH. now apply bus_polls_cs.
Qed.

Lemma bus_block_closed ks : forall s Address buffer i,
  b_closed (bus_block s Address buffer i ks)
  = b_closed s ++ block_frames Address buffer i ks.
Proof.
  induction ks as [|k ks IH]; intros s Address buffer i;
    cbn [bus_block block_frames].
  - now rewrite app_nil_r.
  - rewrite IH. cbn [bus_polls]. rewrite bus_polls_closed.
    cbn [bus_xfer b_closed repeat app]. rewrite !app_nil_r.
    rewrite <- !app_assoc. reflexivity.
Qed.

Lemma length_block_frames ks : forall Address buffer i,
  length (block_frames Address buffer i ks)
  = (3 * length ks + list_sum ks)%nat.
Proof.
  induction ks as [|k ks IH]; intros Address buffer i; [reflexivity|].
  change (list_sum (k :: ks)) with (k + list_sum ks)%nat.
  cbn [block_frames length app]. rewrite length_app, repeat_length.
  rewrite IH. lia.
Qed.

Lemma bus_block_falls ks : forall s Address buffer i,
  b_falls (bus_block s Address buffer i ks)
  = (b_falls s + length (block_frames Address buffer i ks))%nat.
Proof.
  induction ks as [|k ks IH]; intros s Address buffer i.
  - cbn. lia.
  - rewrite length_block_frames. cbn [bus_block].
    rewrite IH, length_block_frames, bus_polls_falls.
    change (list_sum (k :: ks)) with (k + list_sum ks)%nat.
    cbn [bus_xfer b_falls length]. lia.
Qed.

Lemma bus_block_rises ks : forall s Address buffer i,
  b_rises (bus_block s Address buffer i ks)
  = (b_rises s + length (block_frames Address buffer i ks))%nat.
Proof.
  induction ks as [|k ks IH]; intros s Address buffer i.
  - cbn. lia.
  - rewrite length_block_frames. cbn [bus_block].
    rewrite IH, length_block_frames, bus_polls_rises.
    change (list_sum (k :: ks)) with (k + list_sum ks)%nat.
    cbn [bus_xfer b_rises length]. lia.
Qed.

Section MonitorRuns.

Variable E : platform.

Lemma monitor_after_status s h :
  b_cs (monitor s h) = true ->
  monitor s (after_status E h) = bus_xfer (monitor s h) [5] 8.
Proof.
  intros Hcs. unfold after_status.
  rewrite monitor_app, monitor_xfer by assumption.
  unfold status_bits. now rewrite length_samples.
Qed.

Lemma monitor_poll_hist k : forall s h,
  b_cs (monitor s h) = true ->
  monitor s (poll_hist E k h) = bus_polls k (monitor s h).
Proof.
  induction k as [|k IH]; intros s h Hcs; [reflexivity|].
  cbn [poll_hist bus_polls].
  rewrite IH; rewrite monitor_after_status by assumption; reflexivity.
Qed.

Lemma monitor_programmed s Address buffer n i h h' :
  programmed E Address buffer n i h h' ->
  b_cs (monitor s h) = true ->
  exists ks, length ks = n
    /\ monitor s h' = bus_block (monitor s h) Address buffer i ks.
Proof.
  induction 1 as [i h | n i x k h h' Hi Hx h1 Hbusy Hready Hrest IH];
    intros Hcs.
  - exists []. split; reflexivity.
  - assert (H1 : monitor s h1
                 = bus_xfer (bus_xfer (monitor s h) [6] 0)
                     (2 :: addr_bytes (wrap32 (Address + i)) ++ [x]) 0).
    { unfold h1, Write1Byte_tr.
      rewrite monitor_app, <- app_assoc, monitor_app.
      rewrite monitor_xfer by assumption.
      rewrite monitor_app, monitor_xfer by reflexivity.
      reflexivity. }
    assert (Hp : monitor s (poll_hist E (S k) h1)
                 = bus_polls (S k) (monitor s h1)).
    { apply monitor_poll_hist. now rewrite H1. }
    destruct IH as (ks & Hlen & Hmon).
    { rewrite Hp. apply bus_polls_cs. now rewrite H1. }
    exists (k :: ks). split; [cbn; now rewrite Hlen|].
    rewrite Hmon, Hp, H1. cbn [bus_block].
    now rewrite (nth_error_nth _ _ 0 Hx).
Qed.

End MonitorRuns.

Section CommandFrames.

Variable E : platform.

Lemma monitor_waitUntilReady s k bs :
  b_cs s = false -> b_clk s = false ->
  monitor s ((highs k ++ [Sample FLASH_DO false]) ++ recv_tr bs ++ deselect_tr)
  = {| b_cs := true; b_clk := false; b_di := b_di s; b_cur := [];
       b_closed := b_closed s ++ [b_cur s ++ repeat (b_di s) (length bs)];
       b_falls := b_falls s; b_rises := S (b_rises s) |}.
Proof.
  intros Hcs Hclk.
  rewrite !monitor_app, monitor_highs.
  change (monitor s [Sample FLASH_DO false]) with s.
  rewrite monitor_recv by assumption.
  now rewrite monitor_deselect by reflexivity.
Qed.

(** The monitor after each command that returned, from a history that
    left the select line inactive. *)
Lemma monitor_readStatus h r h' :
  select_level h = true ->
  STFlash_readStatus E h = Done r h' ->
  monitor idle_bus h' = bus_xfer (monitor idle_bus h) [5] 8.
Proof.
  intros Hcs Hrun. rewrite STFlash_readStatus_run in Hrun.
  apply Done_inj in Hrun as [_ <-]. now apply monitor_after_status.
Qed.

Lemma monitor_waitUntilReady_run fuel h h' :
  select_level h = true ->
  STFlash_waitUntilReady E fuel h = Done tt h' ->
  monitor idle_bus h' = bus_xfer (monitor idle_bus h) [5] 8.
Proof.
  intros Hcs Hrun.
  apply STFlash_waitUntilReady_inv in Hrun as (k & _ & _ & _ & ->).
  rewrite <- !app_assoc.
  rewrite monitor_app, monitor_app, monitor_select by assumption.
  rewrite monitor_app, monitor_send by reflexivity.
  rewrite !app_assoc. rewrite <- (app_assoc _ (recv_tr _)).
  rewrite monitor_waitUntilReady by reflexivity.
  rewrite length_samples. reflexivity.
Qed.

Lemma monitor_WriteEnable h h' :
  select_level h = true ->
  STFlash_WriteEnable h = Done tt h' ->
  monitor idle_bus h' = bus_xfer (monitor idle_bus h) [6] 0.
Proof.
  intros Hcs Hrun. rewrite STFlash_WriteEnable_run in Hrun.
  apply Done_inj in Hrun as [_ <-].
  now rewrite monitor_app, monitor_xfer.
Qed.

Lemma monitor_WriteDisable h h' :
  select_level h = true ->
  STFlash_WriteDisable h = Done tt h' ->
  monitor idle_bus h' = bus_xfer (monitor idle_bus h) [4] 0.
Proof.
  intros Hcs Hrun. rewrite STFlash_WriteDisable_run in Hrun.
  apply Done_inj in Hrun as [_ <-].
  now rewrite monitor_app, monitor_xfer.
Qed.

Lemma monitor_writeStatus value h h' :
  select_level h = true ->
  STFlash_writeStatus value h = Done tt h' ->
  monitor idle_bus h'
  = bus_xfer (bus_xfer (bus_xfer (monitor idle_bus h) [6] 0) [1; value] 0)
      [4] 0.
Proof.
  intros Hcs Hrun. rewrite STFlash_writeStatus_run in Hrun.
  apply Done_inj in Hrun as [_ <-].
  rewrite monitor_app, monitor_app.
  rewrite (monitor_xfer (monitor idle_bus h)) by assumption.
  rewrite monitor_app, monitor_xfer by reflexivity.
  now rewrite monitor_xfer by reflexivity.
Qed.

Lemma monitor_ReadBlock Address buffer size h buffer' h' :
  select_level h = true ->
  0 <= size < 65536 -> (Z.to_nat size <= length buffer)%nat ->
  STFlash_ReadBlock E Address buffer size h = Done buffer' h' ->
  monitor idle_bus h'
  = bus_xfer (monitor idle_bus h) (3 :: addr_bytes Address)
      (8 * Z.to_nat size).
Proof.
  intros Hcs Hs Hl Hrun. rewrite STFlash_ReadBlock_run in Hrun by lia.
  apply Done_inj in Hrun as [_ <-].
  rewrite monitor_app, monitor_xfer by assumption.
  now rewrite length_samples.
Qed.

Lemma monitor_Write1Byte Address data h h' :
  select_level h = true ->
  STFlash_Write1Byte Address data h = Done tt h' ->
  monitor idle_bus h'
  = bus_xfer (bus_xfer (monitor idle_bus h) [6] 0)
      (2 :: addr_bytes Address ++ [data]) 0.
Proof.
  intros Hcs Hrun. rewrite STFlash_Write1Byte_run in Hrun.
  apply Done_inj in Hrun as [_ <-]. unfold Write1Byte_tr.
  rewrite monitor_app, monitor_app.
  rewrite (monitor_xfer (monitor idle_bus h)) by assumption.
  now rewrite monitor_xfer by reflexivity.
Qed.

Lemma monitor_EraseBlock Address h h' :
  select_level h = true ->
  STFlash_EraseBlock Address h = Done tt h' ->
  monitor idle_bus h'
  = bus_xfer (bus_xfer (bus_xfer (monitor idle_bus h) [6] 0)
                (216 :: addr_bytes Address) 0) [4] 0.
Proof.
  intros Hcs Hrun. rewrite STFlash_EraseBlock_run in Hrun.
  apply Done_inj in Hrun as [_ <-]. unfold EraseBlock_tr.
  rewrite monitor_app, monitor_app.
  rewrite (monitor_xfer (monitor idle_bus h)) by assumption.
  rewrite monitor_app, monitor_erase by reflexivity.
  now rewrite monitor_xfer by reflexivity.
Qed.

Lemma monitor_WriteBlock fuel Address buffer size h h' :
  select_level h = true ->
  STFlash_WriteBlock E fuel Address buffer size h = Done tt h' ->
  exists ks, length ks = Z.to_nat size
    /\ monitor idle_bus h'
       = bus_xfer (bus_block (monitor idle_bus h) Address buffer 0 ks) [4] 0.
Proof.
  intros Hcs Hrun. unfold STFlash_WriteBlock in Hrun.
  apply bind_inv in Hrun as ([] & hm & Hloop & Hwd).
  rewrite STFlash_WriteDisable_run in Hwd.
  apply Done_inj in Hwd as [_ <-].
  apply WriteBlock_loop_programmed in Hloop.
  destruct (monitor_programmed E idle_bus _ _ _ _ _ _ Hloop Hcs)
    as (ks & Hlen & Hmon).
  exists ks. split; [exact Hlen|].
  rewrite monitor_app, Hmon. apply monitor_xfer.
  now apply bus_block_cs.
Qed.

End CommandFrames.

Lemma balanced_intro k h h' s' :
  monitor idle_bus h' = s' ->
  b_cs s' = true ->
  b_falls s' = (b_falls (monitor idle_bus h) + k)%nat ->
  b_rises s' = (b_rises (monitor idle_bus h) + k)%nat ->
  balanced k h h'.
Proof.
  intros Hm Hcs Hf Hr. unfold balanced, select_level, selects, deselects.
  rewrite Hm. auto.
Qed.

(** ** The program loop of [STFlash_WriteBlock] as a whole *)

Lemma block_frames_no_disable ks : forall Address buffer i,
  ~ In (frame [4]) (block_frames Address buffer i ks).
Proof.
  induction ks as [|k ks IH]; intros Address buffer i Hin; [exact Hin|].
  cbn [block_frames app In] in Hin.
  destruct Hin as [H|[H|Hin]]; try discriminate H.
  apply in_app_or in Hin as [Hin|Hin].
  - apply repeat_spec in Hin.
    apply (f_equal (@length bool)) in Hin. discriminate Hin.
  - exact (IH _ _ _ Hin).
Qed.

(** C3.  [STFlash_WriteBlock] returns exactly the histories of this shape:
    for the loop counter i = 0, 1, ... (one iteration per byte), the
    activity of [STFlash_Write1Byte (Address + i) buffer[i]], then the
    10 us delay, then status reads that found bit 0 set followed by one
    that found it clear, and only then the next byte; after the last
    byte one write-disable transaction and nothing else.  Every history of
    this shape is returned once the fuel covers the longest poll.  The
    write disable is the last transaction of the call and the only one
    with opcode 0x04.  The counter and the address do not wrap while they
    stay in the range of their types. *)
Theorem WriteBlock_per_byte_program_loop :
  forall E Address buffer size h,
    (forall fuel h',
       STFlash_WriteBlock E fuel Address buffer size h = Done tt h' ->
       exists hm,
         programmed E Address buffer (Z.to_nat size) 0 h hm
         /\ h' = hm ++ xfer_tr [4] [])
    /\ (forall hm,
          programmed E Address buffer (Z.to_nat size) 0 h hm ->
          exists fuel,
            STFlash_WriteBlock E fuel Address buffer size h
            = Done tt (hm ++ xfer_tr [4] []))
    /\ (forall fuel h',
          select_level h = true ->
          STFlash_WriteBlock E fuel Address buffer size h = Done tt h' ->
          exists txs,
            transactions h' = transactions h ++ txs ++ [frame [4]]
            /\ ~ In (frame [4]) txs)
    /\ (forall i, 0 <= i < 65535 -> wrap16 (i + 1) = i + 1)
    /\ (forall i, 0 <= Address + i < 4294967296 ->
                  wrap32 (Address + i) = Address + i).
Proof.
  intros E Address buffer size h. repeat apply conj.
  - intros fuel h' Hrun. unfold STFlash_WriteBlock in Hrun.
    apply bind_inv in Hrun as ([] & hm & Hloop & Hwd).
    rewrite STFlash_WriteDisable_run in Hwd.
    apply Done_inj in Hwd as [_ <-].
    exists hm. split; [|reflexivity].
    now apply WriteBlock_loop_programmed with (fuel := fuel).
  - intros hm Hprog.
    destruct (programmed_WriteBlock_loop E _ _ _ _ _ _ Hprog)
      as (fuel0 & Hfuel0).
    exists fuel0. unfold STFlash_WriteBlock.
    rewrite (bind_done _ _ _ _ _ (Hfuel0 fuel0 (Nat.le_refl _))).
    apply STFlash_WriteDisable_run.
  - intros fuel h' Hcs Hrun.
    destruct (monitor_WriteBlock E fuel Address buffer size h h' Hcs Hrun)
      as (ks & _ & Hmon).
    exists (block_frames Address buffer 0 ks).
    split; [|apply block_frames_no_disable].
    unfold transactions. rewrite Hmon. cbn [bus_xfer b_closed repeat].
    now rewrite bus_block_closed, !app_nil_r, <- !app_assoc.
  - intros i Hi. unfold wrap16. apply Z.mod_small. lia.
  - intros i Hi. unfold wrap32. apply Z.mod_small. lia.
Qed.

Lemma WriteBlock_per_byte_program_loop_witness :
  exists h',
    STFlash_WriteBlock (const_platform false 0) 1 16 [90] 1 [] = Done tt h'
    /\ exists hm,
         programmed (const_platform false 0) 16 [90] (Z.to_nat 1) 0 [] hm
         /\ h' = hm ++ xfer_tr [4] [].
Proof.
  eexists. split; [vm_compute; reflexivity|].
  apply (proj1 (WriteBlock_per_byte_program_loop
                  (const_platform false 0) 16 [90] 1 []) 1%nat).
  vm_compute. reflexivity.
Defined.

(** ** The status reads of the program loop, counted *)

Lemma programmed_polled E Address buffer n i h h' :
  programmed E Address buffer n i h h' ->
  exists ks, length ks = n /\ polled E Address buffer ks i h h'.
Proof.
  induction 1 as [i h | n i x k h h' Hi Hx h1 Hbusy Hready Hrest IH].
  - exists []. split; [reflexivity|constructor].
  - destruct IH as (ks & Hlen & Hp). exists (k :: ks).
    split; [cbn [length]; now rewrite Hlen|].
    now apply (polled_byte E Address buffer ks i x k h h').
Qed.

Lemma polled_programmed E Address buffer ks i h h' :
  polled E Address buffer ks i h h' ->
  programmed E Address buffer (length ks) i h h'.
Proof.
  induction 1 as [i h | ks i x k h h' Hi Hx h1 Hbusy Hready Hrest IH].
  - constructor.
  - cbn [length].
    now apply (programmed_byte E Address buffer (length ks) i x k h h').
Qed.

Lemma monitor_polled E s Address buffer ks i h h' :
  polled E Address buffer ks i h h' ->
  b_cs (monitor s h) = true ->
  monitor s h' = bus_block (monitor s h) Address buffer i ks.
Proof.
  induction 1 as [i h | ks i x k h h' Hi Hx h1 Hbusy Hready Hrest IH];
    intros Hcs; [reflexivity|].
  assert (H1 : monitor s h1
               = bus_xfer (bus_xfer (monitor s h) [6] 0)
                   (2 :: addr_bytes (wrap32 (Address + i)) ++ [x]) 0).
  { unfold h1, Write1Byte_tr.
    rewrite monitor_app, <- app_assoc, monitor_app.
    rewrite monitor_xfer by assumption.
    rewrite monitor_app, monitor_xfer by reflexivity.
    reflexivity. }
  assert (Hp : monitor s (poll_hist E (S k) h1)
               = bus_polls (S k) (monitor s h1)).
  { apply monitor_poll_hist. now rewrite H1. }
  rewrite IH by (rewrite Hp; apply bus_polls_cs; now rewrite H1).
  rewrite Hp, H1. cbn [bus_block].
  now rewrite (nth_error_nth _ _ 0 Hx).
Qed.

(** The number of busy status reads before the first ready one is
    determined by the platform and the history. *)
Lemma first_ready_unique E h k k' :
  (forall j, (j < k)%nat -> busy_at E (poll_hist E j h) = true) ->
  busy_at E (poll_hist E k h) = false ->
  (forall j, (j < k')%nat -> busy_at E (poll_hist E j h) = true) ->
  busy_at E (poll_hist E k' h) = false ->
  k = k'.
Proof.
  intros Hb Hr Hb' Hr'.
  destruct (Nat.lt_trichotomy k k') as [Hlt|[Heq|Hgt]]; [|exact Heq|].
  - rewrite (Hb' k Hlt) in Hr. discriminate Hr.
  - rewrite (Hb k' Hgt) in Hr'. discriminate Hr'.
Qed.

Lemma polled_unique E Address buffer ks i h h1 :
  polled E Address buffer ks i h h1 ->
  forall ks' h2,
    polled E Address buffer ks' i h h2 ->
    length ks' = length ks -> ks' = ks /\ h2 = h1.
Proof.
  induction 1 as [i h | ks i x k h h' Hi Hx g Hbusy Hready Hrest IH];
    intros ks' h2 Hp Hlen.
  - destruct ks' as [|k' ks']; [|discriminate Hlen].
    inversion Hp; subst. now split.
  - destruct ks' as [|k' ks']; [discriminate Hlen|].
    inversion Hp as [|ks0 i0 x' k0 h0 h0' Hi' Hx' g' Hbusy' Hready' Hrest'];
      subst.
    assert (x' = x) by congruence. subst x'.
    assert (k' = k)
      by (apply (first_ready_unique E g); assumption).
    subst k'.
    destruct (IH ks' h2 Hrest') as (-> & ->).
    { cbn [length] in Hlen. congruence. }
    now split.
Qed.

(** ** Selects and deselects per call *)

(** C2, as the code has it.  From a history that left the select line
    inactive, every command that returns leaves it inactive again, after
    as many falling as rising edges of the line: one of each for
    [STFlash_readStatus], [STFlash_waitUntilReady], [STFlash_WriteEnable],
    [STFlash_WriteDisable] and [STFlash_ReadBlock]; two for
    [STFlash_Write1Byte]; three for [STFlash_writeStatus] and
    [STFlash_EraseBlock]; and for [STFlash_WriteBlock] three per byte, one
    more per status read that found the device busy, and a last one: the
    history is the one of the program loop with, for each byte, [k] status
    reads that found bit 0 set and one that found it clear, followed by
    the write disable, the numbers [k] are the only ones that fit the
    platform, and the count is three times the number of bytes, plus
    their sum, plus one.  In [STFlash_EraseBlock] the line is driven high
    twice in a row, which adds no edge. *)
Theorem select_deselect_balanced :
  forall E h,
    select_level h = true ->
    (exists r h', STFlash_readStatus E h = Done r h' /\ balanced 1 h h')
    /\ (forall fuel h',
          STFlash_waitUntilReady E fuel h = Done tt h' -> balanced 1 h h')
    /\ (exists h', STFlash_WriteEnable h = Done tt h' /\ balanced 1 h h')
    /\ (exists h', STFlash_WriteDisable h = Done tt h' /\ balanced 1 h h')
    /\ (forall value,
          exists h', STFlash_writeStatus value h = Done tt h'
                     /\ balanced 3 h h')
    /\ (forall Address buffer size,
          0 <= size < 65536 -> (Z.to_nat size <= length buffer)%nat ->
          exists buffer' h',
            STFlash_ReadBlock E Address buffer size h = Done buffer' h'
            /\ balanced 1 h h')
    /\ (forall Address data,
          exists h', STFlash_Write1Byte Address data h = Done tt h'
                     /\ balanced 2 h h')
    /\ (forall Address,
          exists h', STFlash_EraseBlock Address h = Done tt h'
                     /\ balanced 3 h h'
                     /\ driven FLASH_SELECT (EraseBlock_tr Address)
                        = [false; true; false; true; true; false; true])
    /\ (forall fuel Address buffer size h',
          STFlash_WriteBlock E fuel Address buffer size h = Done tt h' ->
          exists ks hm,
            length ks = Z.to_nat size
            /\ polled E Address buffer ks 0 h hm
            /\ h' = hm ++ xfer_tr [4] []
            /\ balanced (3 * length ks + list_sum ks + 1) h h'
            /\ (forall ks' hm',
                  length ks' = length ks ->
                  polled E Address buffer ks' 0 h hm' -> ks' = ks)).
Proof.
  intros E h Hcs. repeat apply conj.
  - eexists. eexists. split; [apply STFlash_readStatus_run|].
    eapply balanced_intro;
      [eapply monitor_readStatus;
       [exact Hcs|apply STFlash_readStatus_run]| | |];
      cbn [bus_xfer b_cs b_falls b_rises]; try reflexivity; lia.
  - intros fuel h' Hrun.
    eapply balanced_intro;
      [eapply monitor_waitUntilReady_run; [exact Hcs|exact Hrun]| | |];
      cbn [bus_xfer b_cs b_falls b_rises]; try reflexivity; lia.
  - eexists. split; [apply STFlash_WriteEnable_run|].
    eapply balanced_intro;
      [eapply monitor_WriteEnable;
       [exact Hcs|apply STFlash_WriteEnable_run]| | |];
      cbn [bus_xfer b_cs b_falls b_rises]; try reflexivity; lia.
  - eexists. split; [apply STFlash_WriteDisable_run|].
    eapply balanced_intro;
      [eapply monitor_WriteDisable;
       [exact Hcs|apply STFlash_WriteDisable_run]| | |];
      cbn [bus_xfer b_cs b_falls b_rises]; try reflexivity; lia.
  - intros value. eexists. split; [apply STFlash_writeStatus_run|].
    eapply balanced_intro;
      [eapply monitor_writeStatus;
       [exact Hcs|apply STFlash_writeStatus_run]| | |];
      cbn [bus_xfer b_cs b_falls b_rises]; try reflexivity; lia.
  - intros Address buffer size Hs Hl. eexists. eexists.
    split; [apply STFlash_ReadBlock_run; lia|].
    eapply balanced_intro;
      [eapply monitor_ReadBlock;
       [exact Hcs|exact Hs|exact Hl|apply STFlash_ReadBlock_run; lia]| | |];
      cbn [bus_xfer b_cs b_falls b_rises]; try reflexivity; lia.
  - intros Address data. eexists. split; [apply STFlash_Write1Byte_run|].
    eapply balanced_intro;
      [eapply monitor_Write1Byte;
       [exact Hcs|apply STFlash_Write1Byte_run]| | |];
      cbn [bus_xfer b_cs b_falls b_rises]; try reflexivity; lia.
  - intros Address. eexists. split; [apply STFlash_EraseBlock_run|].
    split; [|reflexivity].
    eapply balanced_intro;
      [eapply monitor_EraseBlock;
       [exact Hcs|apply STFlash_EraseBlock_run]| | |];
      cbn [bus_xfer b_cs b_falls b_rises]; try reflexivity; lia.
  - intros fuel Address buffer size h' Hrun.
    unfold STFlash_WriteBlock in Hrun.
    apply bind_inv in Hrun as ([] & hm & Hloop & Hwd).
    rewrite STFlash_WriteDisable_run in Hwd.
    apply Done_inj in Hwd as [_ <-].
    apply WriteBlock_loop_programmed in Hloop.
    destruct (programmed_polled E _ _ _ _ _ _ Hloop) as (ks & Hlen & Hp).
    exists ks, hm. split; [exact Hlen|]. split; [exact Hp|].
    split; [reflexivity|]. split.
    + pose proof (monitor_polled E idle_bus _ _ _ _ _ _ Hp Hcs) as Hmon.
      eapply balanced_intro;
        [rewrite monitor_app, Hmon; apply monitor_xfer; now apply bus_block_cs
        |reflexivity| |].
      * cbn [bus_xfer b_falls].
        rewrite bus_block_falls, length_block_frames. lia.
      * cbn [bus_xfer b_rises].
        rewrite bus_block_rises, length_block_frames. lia.
    + intros ks' hm' Hlen' Hp'.
      exact (proj1 (polled_unique E _ _ _ _ _ _ Hp ks' hm' Hp' Hlen')).
Qed.

Lemma select_deselect_balanced_witness :
  select_level [] = true
  /\ exists h', STFlash_Write1Byte 0 0 [] = Done tt h' /\ balanced 2 [] h'.
Proof.
  split; [reflexivity|].
  exact (proj1 (proj2 (proj2 (proj2 (proj2 (proj2 (proj2
           (select_deselect_balanced (const_platform false 0) [] eq_refl)))))))
           0 0).
Defined.

(** C2 fails as stated: a call of [STFlash_writeStatus] selects the device
    three times, not once. *)
Lemma writeStatus_selects_three_times :
  exists h',
    STFlash_writeStatus 0 [] = Done tt h'
    /\ selects h' = 3%nat /\ deselects h' = 3%nat
    /\ selects h' <> 1%nat.
Proof.
  eexists. split; [apply STFlash_writeStatus_run|].
  repeat split. discriminate.
Qed.

(** A block of one byte on a device that reports busy twice after a
    program: two selects for the byte write, two busy status reads, the
    ready one and the write disable. *)
Example WriteBlock_counts_busy_reads :
  exists hm,
    polled (flash_platform ready_flash (fun _ => 0)) 0 [90] [2%nat] 0 [] hm
    /\ STFlash_WriteBlock (flash_platform ready_flash (fun _ => 0)) 3 0 [90] 1 []
       = Done tt (hm ++ xfer_tr [4] [])
    /\ selects (hm ++ xfer_tr [4] []) = 6%nat
    /\ deselects (hm ++ xfer_tr [4] []) = 6%nat.
Proof.
  eexists. split.
  - apply (polled_byte _ 0 [90] [] 0 90 2); [lia|reflexivity| | |constructor].
    + intros [|[|j]] Hj; [vm_compute; reflexivity|vm_compute; reflexivity|lia].
    + vm_compute. reflexivity.
  - split; [vm_compute; reflexivity|].
    split; vm_compute; reflexivity.
Qed.

(** ** Transactions per call *)

Lemma di_after_addr Address d :
  di_after (3 :: addr_bytes Address) d = Z.testbit Address 0.
Proof. cbn. apply testbit_Make8_0. Qed.

(** C7, as the code has it.  A transaction is one traversal of the chain
    from select to deselect.  From a history that left the select line
    inactive, [STFlash_readStatus], [STFlash_waitUntilReady],
    [STFlash_WriteEnable], [STFlash_WriteDisable] and [STFlash_ReadBlock]
    add one transaction; [STFlash_Write1Byte] adds two (write enable,
    program); [STFlash_writeStatus] and [STFlash_EraseBlock] add three
    (write enable, the command, write disable); [STFlash_WriteBlock] adds,
    for each byte, the two of [STFlash_Write1Byte] and one per status read
    (at least one), and a final write disable. *)
Theorem transactions_per_command :
  forall E h,
    select_level h = true ->
    (exists r h', STFlash_readStatus E h = Done r h'
                  /\ transactions h' = transactions h ++ [status_frame])
    /\ (forall fuel h',
          STFlash_waitUntilReady E fuel h = Done tt h' ->
          transactions h' = transactions h ++ [status_frame])
    /\ (exists h', STFlash_WriteEnable h = Done tt h'
                   /\ transactions h' = transactions h ++ [frame [6]])
    /\ (exists h', STFlash_WriteDisable h = Done tt h'
                   /\ transactions h' = transactions h ++ [frame [4]])
    /\ (forall value,
          exists h', STFlash_writeStatus value h = Done tt h'
                     /\ transactions h'
                        = transactions h
                          ++ [frame [6]; frame [1; value]; frame [4]])
    /\ (forall Address buffer size,
          0 <= size < 65536 -> (Z.to_nat size <= length buffer)%nat ->
          exists buffer' h',
            STFlash_ReadBlock E Address buffer size h = Done buffer' h'
            /\ transactions h'
               = transactions h
                 ++ [frame (3 :: addr_bytes Address)
                     ++ repeat (Z.testbit Address 0) (8 * Z.to_nat size)])
    /\ (forall Address data,
          exists h', STFlash_Write1Byte Address data h = Done tt h'
                     /\ transactions h'
                        = transactions h
                          ++ [frame [6];
                              frame (2 :: addr_bytes Address ++ [data])])
    /\ (forall Address,
          exists h', STFlash_EraseBlock Address h = Done tt h'
                     /\ transactions h'
                        = transactions h
                          ++ [frame [6]; frame (216 :: addr_bytes Address);
                              frame [4]])
    /\ (forall fuel Address buffer size h',
          STFlash_WriteBlock E fuel Address buffer size h = Done tt h' ->
          exists ks, length ks = Z.to_nat size
            /\ transactions h'
               = transactions h ++ block_frames Address buffer 0 ks
                 ++ [frame [4]]
            /\ length (block_frames Address buffer 0 ks)
               = (3 * length ks + list_sum ks)%nat).
Proof.
  intros E h Hcs. unfold transactions. repeat apply conj.
  - eexists. eexists. split; [apply STFlash_readStatus_run|].
    erewrite monitor_readStatus;
      [reflexivity|exact Hcs|apply STFlash_readStatus_run].
  - intros fuel h' Hrun.
    erewrite monitor_waitUntilReady_run; [reflexivity|exact Hcs|exact Hrun].
  - eexists. split; [apply STFlash_WriteEnable_run|].
    erewrite monitor_WriteEnable;
      [|exact Hcs|apply STFlash_WriteEnable_run].
    cbn [bus_xfer b_closed repeat]. now rewrite app_nil_r.
  - eexists. split; [apply STFlash_WriteDisable_run|].
    erewrite monitor_WriteDisable;
      [|exact Hcs|apply STFlash_WriteDisable_run].
    cbn [bus_xfer b_closed repeat]. now rewrite app_nil_r.
  - intros value. eexists. split; [apply STFlash_writeStatus_run|].
    erewrite monitor_writeStatus;
      [|exact Hcs|apply STFlash_writeStatus_run].
    cbn [bus_xfer b_closed repeat]. rewrite !app_nil_r, <- !app_assoc.
    reflexivity.
  - intros Address buffer size Hs Hl. eexists. eexists.
    split; [apply STFlash_ReadBlock_run; lia|].
    erewrite monitor_ReadBlock;
      [|exact Hcs|exact Hs|exact Hl|apply STFlash_ReadBlock_run; lia].
    cbn [bus_xfer b_closed]. now rewrite di_after_addr.
  - intros Address data. eexists. split; [apply STFlash_Write1Byte_run|].
    erewrite monitor_Write1Byte;
      [|exact Hcs|apply STFlash_Write1Byte_run].
    cbn [bus_xfer b_closed repeat]. rewrite !app_nil_r, <- !app_assoc.
    reflexivity.
  - intros Address. eexists. split; [apply STFlash_EraseBlock_run|].
    erewrite monitor_EraseBlock;
      [|exact Hcs|apply STFlash_EraseBlock_run].
    cbn [bus_xfer b_closed repeat]. rewrite !app_nil_r, <- !app_assoc.
    reflexivity.
  - intros fuel Address buffer size h' Hrun.
    destruct (monitor_WriteBlock E fuel Address buffer size h h' Hcs Hrun)
      as (ks & Hlen & Hmon).
    exists ks. split; [exact Hlen|]. split; [|apply length_block_frames].
    rewrite Hmon. cbn [bus_xfer b_closed repeat].
    rewrite bus_block_closed, !app_nil_r, <- !app_assoc. reflexivity.
Qed.

Lemma transactions_per_command_witness :
  select_level [] = true
  /\ exists h', STFlash_writeStatus 28 [] = Done tt h'
                /\ transactions h'
                   = transactions []
                     ++ [frame [6]; frame [1; 28]; frame [4]].
Proof.
  split; [reflexivity|].
  exact (proj1 (proj2 (proj2 (proj2 (proj2
           (transactions_per_command (const_platform false 0) [] eq_refl)))))
           28).
Defined.

(** C7 fails as stated: [STFlash_EraseBlock], which is not
    [STFlash_WriteBlock], spans three transactions. *)
Lemma EraseBlock_spans_three_transactions :
  exists h',
    STFlash_EraseBlock 0 [] = Done tt h'
    /\ length (transactions h') = 3%nat
    /\ length (transactions h') <> 1%nat.
Proof.
  eexists. split; [apply STFlash_EraseBlock_run|].
  split; [reflexivity|discriminate].
Qed.

(** ** The write-enable latch *)

Lemma flash_run_app d txs1 txs2 :
  flash_run d (txs1 ++ txs2) = flash_run (flash_run d txs1) txs2.
Proof. apply fold_left_app. Qed.

Lemma flash_at_app d0 h h' txs :
  transactions h' = transactions h ++ txs ->
  flash_at d0 h' = flash_run (flash_at d0 h) txs.
Proof. intros Ht. unfold flash_at. now rewrite Ht, flash_run_app. Qed.

Lemma transactions_after_Write1Byte Address data h h' :
  select_level h = true ->
  STFlash_Write1Byte Address data h = Done tt h' ->
  select_level h' = true
  /\ transactions h'
     = transactions h
       ++ [frame [6]; frame (2 :: addr_bytes Address ++ [data])].
Proof.
  intros Hcs Hrun. unfold select_level, transactions.
  rewrite (monitor_Write1Byte _ _ _ _ Hcs Hrun).
  split; [reflexivity|].
  cbn [bus_xfer b_closed repeat]. now rewrite !app_nil_r, <- !app_assoc.
Qed.

Lemma transactions_after_WriteDisable h h' :
  select_level h = true ->
  STFlash_WriteDisable h = Done tt h' ->
  select_level h' = true
  /\ transactions h' = transactions h ++ [frame [4]].
Proof.
  intros Hcs Hrun. unfold select_level, transactions.
  rewrite (monitor_WriteDisable _ _ Hcs Hrun).
  split; [reflexivity|].
  cbn [bus_xfer b_closed repeat]. now rewrite !app_nil_r.
Qed.

Lemma transactions_after_programmed E Address buffer n i h h' :
  select_level h = true ->
  programmed E Address buffer n i h h' ->
  exists ks, length ks = n
    /\ select_level h' = true
    /\ transactions h' = transactions h ++ block_frames Address buffer i ks.
Proof.
  intros Hcs Hprog.
  destruct (monitor_programmed E idle_bus _ _ _ _ _ _ Hprog Hcs)
    as (ks & Hlen & Hmon).
  exists ks. split; [exact Hlen|]. unfold select_level, transactions.
  rewrite Hmon. split; [now apply bus_block_cs|apply bus_block_closed].
Qed.

Lemma flash_exec_wel_enable d : f_wel (flash_exec d (frame [6])) = true.
Proof. reflexivity. Qed.

Lemma flash_exec_wel_disable d : f_wel (flash_exec d (frame [4])) = false.
Proof. reflexivity. Qed.

Lemma flash_exec_wel_program d Address data :
  f_wel (flash_exec d (frame (2 :: addr_bytes Address ++ [data]))) = f_wel d.
Proof.
  unfold flash_exec.
  change (length (frame (2 :: addr_bytes Address ++ [data]))) with 40%nat.
  change (opcode_of (frame (2 :: addr_bytes Address ++ [data]))) with 2.
  cbn [Nat.eqb Z.eqb Pos.eqb andb Nat.leb].
  destruct (f_wel d) eqn:Hw; destruct (f_busy d =? 0)%nat;
    cbn [andb f_wel]; congruence.
Qed.

Lemma flash_exec_wel_status d : f_wel (flash_exec d status_frame) = f_wel d.
Proof. reflexivity. Qed.

Lemma flash_run_wel_statuses k : forall d,
  f_wel (flash_run d (repeat status_frame k)) = f_wel d.
Proof.
  induction k as [|k IH]; intros d; [reflexivity|].
  cbn [repeat flash_run fold_left]. unfold flash_run in IH.
  now rewrite IH, flash_exec_wel_status.
Qed.

Lemma flash_run_wel_block ks : forall d Address buffer i,
  f_wel (flash_run d (block_frames Address buffer i ks))
  = match ks with [] => f_wel d | _ => true end.
Proof.
  induction ks as [|k ks IH]; intros d Address buffer i; [reflexivity|].
  cbn [block_frames].
  rewrite flash_run_app, flash_run_app, IH.
  rewrite flash_run_wel_statuses.
  cbn [flash_run fold_left].
  rewrite flash_exec_wel_program, flash_exec_wel_enable.
  destruct ks; reflexivity.
Qed.

Lemma Write1Byte_seq_latch d0 calls : forall h,
  select_level h = true ->
  exists h',
    Write1Byte_seq calls h = Done tt h'
    /\ select_level h' = true
    /\ f_wel (flash_at d0 h')
       = match calls with [] => f_wel (flash_at d0 h) | _ => true end.
Proof.
  induction calls as [|[Address data] calls IH]; intros h Hcs.
  - exists h. repeat split. exact Hcs.
  - cbn [Write1Byte_seq].
    pose proof (STFlash_Write1Byte_run Address data h) as Hrun.
    destruct (transactions_after_Write1Byte _ _ _ _ Hcs Hrun) as (Hcs1 & Ht1).
    rewrite (bind_done _ _ _ _ _ Hrun).
    destruct (IH _ Hcs1) as (h' & Hrun' & Hcs' & Hwel).
    exists h'. split; [exact Hrun'|]. split; [exact Hcs'|].
    rewrite Hwel. destruct calls; [|reflexivity].
    rewrite (flash_at_app d0 _ _ _ Ht1). cbn [flash_run fold_left].
    now rewrite flash_exec_wel_program, flash_exec_wel_enable.
Qed.

(** C6.  [STFlash_Write1Byte] sends a write enable and a program
    transaction and no write disable.  On the device of the spec (0x06
    sets the latch, 0x04 clears it, nothing else touches it) the latch is
    set when [STFlash_Write1Byte] returns, whatever the device state
    before; it is set after any non-empty sequence of consecutive calls;
    it is set at the end of the loop of [STFlash_WriteBlock]; and it is
    clear after [STFlash_WriteDisable] and after [STFlash_WriteBlock]. *)
Theorem Write1Byte_leaves_latch_set :
  (forall Address data h,
     exists t, STFlash_Write1Byte Address data h = Done tt (h ++ t)
               /\ ~ In (frame [4]) (transactions t))
  /\ (forall d0 Address data h,
        select_level h = true ->
        exists h', STFlash_Write1Byte Address data h = Done tt h'
                   /\ f_wel (flash_at d0 h') = true)
  /\ (forall d0 calls h,
        select_level h = true -> calls <> [] ->
        exists h', Write1Byte_seq calls h = Done tt h'
                   /\ f_wel (flash_at d0 h') = true)
  /\ (forall d0 h,
        select_level h = true ->
        exists h', STFlash_WriteDisable h = Done tt h'
                   /\ f_wel (flash_at d0 h') = false)
  /\ (forall E d0 Address buffer n h hm,
        select_level h = true -> n <> 0%nat ->
        programmed E Address buffer n 0 h hm ->
        f_wel (flash_at d0 hm) = true)
  /\ (forall E d0 fuel Address buffer size h h',
        select_level h = true ->
        STFlash_WriteBlock E fuel Address buffer size h = Done tt h' ->
        f_wel (flash_at d0 h') = false).
Proof.
  repeat apply conj.
  - intros Address data h. rewrite STFlash_Write1Byte_run.
    eexists. split; [reflexivity|].
    rewrite transactions_Write1Byte. cbn [In].
    intros [H|[H|[]]]; discriminate H.
  - intros d0 Address data h Hcs.
    pose proof (STFlash_Write1Byte_run Address data h) as Hrun.
    destruct (transactions_after_Write1Byte _ _ _ _ Hcs Hrun) as (_ & Ht).
    eexists. split; [exact Hrun|].
    rewrite (flash_at_app d0 _ _ _ Ht). cbn [flash_run fold_left].
    now rewrite flash_exec_wel_program, flash_exec_wel_enable.
  - intros d0 calls h Hcs Hne.
    destruct (Write1Byte_seq_latch d0 calls h Hcs) as (h' & Hrun & _ & Hwel).
    exists h'. split; [exact Hrun|].
    rewrite Hwel. destruct calls; [congruence|reflexivity].
  - intros d0 h Hcs.
    pose proof (STFlash_WriteDisable_run h) as Hrun.
    destruct (transactions_after_WriteDisable _ _ Hcs Hrun) as (_ & Ht).
    eexists. split; [exact Hrun|].
    rewrite (flash_at_app d0 _ _ _ Ht). reflexivity.
  - intros E d0 Address buffer n h hm Hcs Hn Hprog.
    destruct (transactions_after_programmed _ _ _ _ _ _ _ Hcs Hprog)
      as (ks & Hlen & _ & Ht).
    rewrite (flash_at_app d0 _ _ _ Ht), flash_run_wel_block.
    destruct ks; [cbn in Hlen; congruence|reflexivity].
  - intros E d0 fuel Address buffer size h h' Hcs Hrun.
    unfold STFlash_WriteBlock in Hrun.
    apply bind_inv in Hrun as ([] & hm & Hloop & Hwd).
    apply WriteBlock_loop_programmed in Hloop.
    destruct (transactions_after_programmed _ _ _ _ _ _ _ Hcs Hloop)
      as (ks & _ & Hcsm & _).
    destruct (transactions_after_WriteDisable _ _ Hcsm Hwd) as (_ & Ht).
    rewrite (flash_at_app d0 _ _ _ Ht). reflexivity.
Qed.

Lemma Write1Byte_leaves_latch_set_witness :
  select_level [] = true
  /\ [(16, 90); (17, 91)] <> []
  /\ exists h',
       Write1Byte_seq [(16, 90); (17, 91)] [] = Done tt h'
       /\ f_wel (flash_at {| f_mem := fun _ => 255; f_wel := false;
                             f_busy := 0; f_latency := 1 |} h') = true.
Proof.
  split; [reflexivity|]. split; [discriminate|].
  apply (proj1 (proj2 (proj2 Write1Byte_leaves_latch_set))).
  - reflexivity.
  - discriminate.
Defined.

(** ** The driver against the flash device *)

Lemma bits_value_app l1 l2 acc :
  bits_value acc (l1 ++ l2) = bits_value (bits_value acc l1) l2.
Proof. apply fold_left_app. Qed.

Lemma bits_value_bits8 acc v :
  0 <= v < 256 -> bits_value acc (bits8 v) = 256 * acc + v.
Proof.
  intros Hv. rewrite bits_value_shift.
  change (bits_value 0 (bits8 v)) with (byte_of_bits (bits8 v)).
  rewrite byte_of_bits8 by assumption.
  change (2 ^ Z.of_nat (length (bits8 v))) with 256. lia.
Qed.

Lemma opcode_of_frame op rest l :
  0 <= op < 256 -> opcode_of (frame (op :: rest) ++ l) = op.
Proof.
  intros Hop. unfold opcode_of.
  change (firstn 8 (frame (op :: rest) ++ l)) with (bits8 op).
  now apply byte_of_bits8.
Qed.

Lemma address_of_frame op Address rest l :
  address_of (frame (op :: addr_bytes Address ++ rest) ++ l)
  = Address mod 16777216.
Proof.
  unfold address_of.
  change (firstn 24 (skipn 8 (frame (op :: addr_bytes Address ++ rest) ++ l)))
    with (bits8 (Make8 Address 2) ++ bits8 (Make8 Address 1)
          ++ bits8 (Make8 Address 0)).
  rewrite !bits_value_app.
  rewrite !bits_value_bits8 by (apply Make8_range; lia).
  rewrite <- addr_bytes_value. lia.
Qed.

Lemma opcode_of_frame0 op rest :
  0 <= op < 256 -> opcode_of (frame (op :: rest)) = op.
Proof.
  intros Hop. rewrite <- (app_nil_r (frame (op :: rest))).
  now apply opcode_of_frame.
Qed.

Lemma address_of_frame0 op Address rest :
  address_of (frame (op :: addr_bytes Address ++ rest))
  = Address mod 16777216.
Proof.
  rewrite <- (app_nil_r (frame (op :: addr_bytes Address ++ rest))).
  apply address_of_frame.
Qed.

Lemma data_of_frame op Address x :
  0 <= x < 256 ->
  data_of (frame (op :: addr_bytes Address ++ [x])) = x.
Proof.
  intros Hx. unfold data_of.
  change (firstn 8 (skipn 32 (frame (op :: addr_bytes Address ++ [x]))))
    with (bits8 x).
  now apply byte_of_bits8.
Qed.

Lemma flash_exec_program d Address x :
  0 <= x < 256 -> f_wel d = true -> f_busy d = 0%nat ->
  flash_exec d (frame (2 :: addr_bytes Address ++ [x]))
  = {| f_mem := store (f_mem d) (Address mod 16777216) x;
       f_wel := true; f_busy := f_latency d; f_latency := f_latency d |}.
Proof.
  intros Hx Hw Hb. unfold flash_exec.
  rewrite opcode_of_frame0, address_of_frame0 by lia.
  rewrite data_of_frame by assumption.
  change (length (frame (2 :: addr_bytes Address ++ [x]))) with 40%nat.
  rewrite Hw, Hb. reflexivity.
Qed.

Lemma flash_exec_status d :
  flash_exec d status_frame
  = {| f_mem := f_mem d; f_wel := f_wel d;
       f_busy := Nat.pred (f_busy d); f_latency := f_latency d |}.
Proof. reflexivity. Qed.

Lemma flash_exec_enable d :
  flash_exec d (frame [6])
  = {| f_mem := f_mem d; f_wel := true;
       f_busy := f_busy d; f_latency := f_latency d |}.
Proof. reflexivity. Qed.

Lemma flash_exec_disable d :
  flash_exec d (frame [4])
  = {| f_mem := f_mem d; f_wel := false;
       f_busy := f_busy d; f_latency := f_latency d |}.
Proof. reflexivity. Qed.

Lemma flash_exec_latency d tx : f_latency (flash_exec d tx) = f_latency d.
Proof.
  unfold flash_exec.
  repeat match goal with
         | |- context [if ?c then _ else _] => destruct c
         end; reflexivity.
Qed.

Lemma flash_run_latency txs : forall d,
  f_latency (flash_run d txs) = f_latency d.
Proof.
  induction txs as [|tx txs IH]; intros d; [reflexivity|].
  cbn [flash_run fold_left]. unfold flash_run in IH.
  now rewrite IH, flash_exec_latency.
Qed.

Lemma monitor_rise s :
  b_cs s = false -> b_clk s = false ->
  monitor s [Drive FLASH_CLOCK true; DelayCycles 2] = clocked s 0.
Proof. destruct s; cbn. intros -> ->. reflexivity. Qed.

Lemma monitor_clock_in s b :
  b_cs s = false -> b_clk s = false ->
  monitor s (clock_in_tr b)
  = {| b_cs := false; b_clk := false; b_di := b_di s;
       b_cur := b_cur s ++ [b_di s];
       b_closed := b_closed s;
       b_falls := b_falls s; b_rises := b_rises s |}.
Proof. destruct s; cbn. intros -> ->. reflexivity. Qed.

Lemma flash_out_clocked d s j :
  flash_out d (clocked s j)
  = flash_bit d (b_cur s ++ repeat (b_di s) (S j)) (length (b_cur s) + j).
Proof.
  unfold flash_out, clocked. cbn [b_cs b_cur b_clk].
  f_equal. rewrite length_app, repeat_length. lia.
Qed.

Section FlashRuns.

Variable d0 : flash.
Variable junk : trace -> Z.

Local Abbreviation E := (flash_platform d0 junk).

Lemma samples_flash n : forall g,
  b_cs (monitor idle_bus g) = false ->
  b_clk (monitor idle_bus g) = false ->
  samples E n g
  = map (fun j => flash_out (flash_run d0 (b_closed (monitor idle_bus g)))
                    (clocked (monitor idle_bus g) j))
      (seq 0 n).
Proof.
  induction n as [|n IH]; intros g Hcs Hclk; [reflexivity|].
  cbn [samples seq map]. f_equal.
  - cbn [wire flash_platform]. unfold flash_wire, flash_at, transactions.
    rewrite monitor_app, monitor_rise by assumption. reflexivity.
  - rewrite IH; rewrite monitor_app, monitor_clock_in by assumption;
      try reflexivity.
    rewrite <- seq_shift, map_map. apply map_ext. intros j.
    cbn [b_closed]. f_equal. unfold clocked.
    cbn [b_cur b_di b_closed b_falls b_rises].
    rewrite <- app_assoc. reflexivity.
Qed.

(** A status read on an idle bus returns the status of the device. *)
Lemma status_bits_flash g :
  select_level g = true ->
  status_bits E g = bits8 (status_of (flash_at d0 g)).
Proof.
  intros Hcs. unfold status_bits.
  rewrite samples_flash;
    rewrite app_assoc, monitor_app, monitor_send;
    rewrite ?monitor_app, ?monitor_select by assumption;
    try reflexivity.
Qed.

Lemma status_of_range d : 0 <= status_of d < 256.
Proof.
  unfold status_of. destruct (0 <? f_busy d)%nat, (f_wel d); cbn; lia.
Qed.

Lemma status_at_flash g :
  select_level g = true ->
  status_at E g = status_of (flash_at d0 g).
Proof.
  intros Hcs. unfold status_at. rewrite status_bits_flash by assumption.
  apply byte_of_bits8, status_of_range.
Qed.

Lemma busy_at_flash g :
  select_level g = true ->
  busy_at E g = (0 <? f_busy (flash_at d0 g))%nat.
Proof.
  intros Hcs. rewrite busy_at_bit0, status_at_flash by assumption.
  unfold status_of.
  destruct (0 <? f_busy (flash_at d0 g))%nat, (f_wel (flash_at d0 g));
    reflexivity.
Qed.

Lemma after_status_flash g :
  select_level g = true ->
  select_level (after_status E g) = true
  /\ flash_at d0 (after_status E g)
     = {| f_mem := f_mem (flash_at d0 g); f_wel := f_wel (flash_at d0 g);
          f_busy := Nat.pred (f_busy (flash_at d0 g));
          f_latency := f_latency (flash_at d0 g) |}.
Proof.
  intros Hcs. unfold select_level, flash_at, transactions.
  rewrite (monitor_after_status E idle_bus g Hcs).
  split; [reflexivity|].
  cbn [bus_xfer b_closed]. rewrite flash_run_app.
  cbn [flash_run fold_left]. apply flash_exec_status.
Qed.

(** Polling a device that reports busy for [k] more status reads. *)
Lemma poll_status_flash k : forall g fuel,
  select_level g = true ->
  f_busy (flash_at d0 g) = k ->
  (k < fuel)%nat ->
  exists g',
    poll_status E fuel g = Done tt g'
    /\ select_level g' = true
    /\ flash_at d0 g'
       = {| f_mem := f_mem (flash_at d0 g); f_wel := f_wel (flash_at d0 g);
            f_busy := 0; f_latency := f_latency (flash_at d0 g) |}.
Proof.
  induction k as [|k IH]; intros g fuel Hcs Hk Hfuel;
    (destruct fuel as [|fuel]; [lia|]);
    rewrite poll_status_step, busy_at_flash, Hk by assumption;
    destruct (after_status_flash g Hcs) as (Hcs' & Hd').
  - exists (after_status E g). repeat split; [exact Hcs'|].
    rewrite Hd', Hk. reflexivity.
  - cbn [Nat.ltb Nat.leb].
    destruct (IH (after_status E g) fuel Hcs') as (g' & Hrun & Hcs2 & Hd2).
    + rewrite Hd', Hk. reflexivity.
    + lia.
    + exists g'. repeat split; [exact Hrun|exact Hcs2|].
      rewrite Hd2, Hd'. reflexivity.
Qed.

End FlashRuns.

(** ** Programming and reading back *)

Lemma store_same mem a v : store mem a v a = v.
Proof. unfold store. now rewrite Z.eqb_refl. Qed.

Lemma store_other mem a v a' : a' <> a -> store mem a v a' = mem a'.
Proof.
  intros Hne. unfold store. destruct (Z.eqb_spec a' a); congruence.
Qed.

Lemma write_mem_other xs : forall mem Address i a,
  (forall t, 0 <= t < Z.of_nat (length xs) ->
             (Address + (i + t)) mod 16777216 <> a) ->
  write_mem mem Address i xs a = mem a.
Proof.
  induction xs as [|x xs IH]; intros mem Address i a Hne; [reflexivity|].
  cbn [write_mem]. rewrite IH.
  - apply store_other. intros ->.
    apply (Hne 0); [cbn [length]; lia|]. now rewrite Z.add_0_r.
  - intros t Ht. replace (i + 1 + t) with (i + (t + 1)) by lia.
    apply Hne. cbn [length]. lia.
Qed.

Lemma write_mem_nth xs : forall mem Address i j,
  (j < length xs)%nat ->
  Z.of_nat (length xs) <= 16777216 ->
  write_mem mem Address i xs ((Address + (i + Z.of_nat j)) mod 16777216)
  = nth j xs 0.
Proof.
  induction xs as [|x xs IH]; intros mem Address i j Hj Hlen;
    cbn [length] in *; [lia|].
  cbn [write_mem]. destruct j as [|j].
  - cbn [nth]. rewrite write_mem_other.
    + change (Z.of_nat 0) with 0. rewrite Z.add_0_r. apply store_same.
    + intros t Ht. change (Z.of_nat 0) with 0.
      Z.div_mod_to_equations. lia.
  - cbn [nth].
    replace (i + Z.of_nat (S j)) with (i + 1 + Z.of_nat j) by lia.
    apply IH; lia.
Qed.

Lemma wrap32_mod24 x : wrap32 x mod 16777216 = x mod 16777216.
Proof. unfold wrap32. Z.div_mod_to_equations. lia. Qed.

Lemma firstn_skipn_succ {A} (l : list A) : forall m n x,
  nth_error l m = Some x ->
  firstn (S n) (skipn m l) = x :: firstn n (skipn (S m) l).
Proof.
  induction l as [|y l IH]; intros [|m] n x Hx; cbn in *; try congruence.
  now apply IH.
Qed.

Section FlashBlocks.

Variable d0 : flash.
Variable junk : trace -> Z.

Local Abbreviation E := (flash_platform d0 junk).

Lemma Write1Byte_flash Address x h :
  select_level h = true ->
  f_busy (flash_at d0 h) = 0%nat ->
  0 <= x < 256 ->
  let h1 := h ++ Write1Byte_tr Address x ++ [DelayUs 10] in
  select_level h1 = true
  /\ flash_at d0 h1
     = {| f_mem := store (f_mem (flash_at d0 h)) (Address mod 16777216) x;
          f_wel := true;
          f_busy := f_latency d0; f_latency := f_latency d0 |}.
Proof.
  intros Hcs Hb Hx h1.
  assert (Hm : monitor idle_bus h1
               = bus_xfer (bus_xfer (monitor idle_bus h) [6] 0)
                   (2 :: addr_bytes Address ++ [x]) 0).
  { unfold h1, Write1Byte_tr.
    rewrite app_assoc, monitor_app, monitor_app, monitor_app.
    rewrite (monitor_xfer (monitor idle_bus h)) by assumption.
    rewrite monitor_xfer by reflexivity. reflexivity. }
  unfold select_level, flash_at, transactions. rewrite Hm.
  split; [reflexivity|].
  cbn [bus_xfer b_closed repeat]. rewrite !app_nil_r.
  rewrite !flash_run_app. cbn [flash_run fold_left].
  rewrite flash_exec_enable.
  rewrite flash_exec_program; cbn [f_wel f_busy f_mem f_latency];
    try assumption; try reflexivity.
  fold (flash_run d0 (b_closed (monitor idle_bus h))).
  now rewrite flash_run_latency.
Qed.

Lemma WriteBlock_loop_flash fuel Address data n : forall m h,
  select_level h = true ->
  f_busy (flash_at d0 h) = 0%nat ->
  (m + n <= length data)%nat ->
  Z.of_nat (m + n) <= 65536 ->
  Forall (fun x => 0 <= x < 256) data ->
  (f_latency d0 < fuel)%nat ->
  exists h',
    WriteBlock_loop E fuel n Address data (Z.of_nat m) h = Done tt h'
    /\ select_level h' = true
    /\ f_busy (flash_at d0 h') = 0%nat
    /\ f_mem (flash_at d0 h')
       = write_mem (f_mem (flash_at d0 h)) Address (Z.of_nat m)
           (firstn n (skipn m data)).
Proof.
  induction n as [|n IH]; intros m h Hcs Hb Hlen Hmax Hdata Hfuel.
  - exists h. repeat split; assumption.
  - destruct (nth_error data m) as [x|] eqn:Hx;
      [|apply nth_error_None in Hx; lia].
    assert (Hxr : 0 <= x < 256).
    { rewrite Forall_forall in Hdata. apply Hdata.
      eapply nth_error_In; eassumption. }
    rewrite (WriteBlock_loop_step E fuel n Address data (Z.of_nat m) x h)
      by (rewrite ?Nat2Z.id; first [lia|assumption]).
    destruct (Write1Byte_flash (wrap32 (Address + Z.of_nat m)) x h Hcs Hb Hxr)
      as (Hcs1 & Hd1).
    set (h1 := h ++ Write1Byte_tr (wrap32 (Address + Z.of_nat m)) x
                 ++ [DelayUs 10]) in *.
    destruct (poll_status_flash d0 junk (f_latency d0) h1 fuel Hcs1)
      as (h2 & Hpoll & Hcs2 & Hd2);
      [now rewrite Hd1|exact Hfuel|].
    rewrite (bind_done _ _ _ _ _ Hpoll).
    rewrite Hd1 in Hd2. cbn [f_mem f_wel f_latency] in Hd2.
    rewrite wrap32_mod24 in Hd2.
    rewrite (firstn_skipn_succ _ _ _ _ Hx). cbn [write_mem].
    destruct n as [|n].
    + exists h2. cbn [WriteBlock_loop ret firstn write_mem].
      repeat split; [exact Hcs2|now rewrite Hd2|now rewrite Hd2].
    + replace (wrap16 (Z.of_nat m + 1)) with (Z.of_nat (S m))
        by (unfold wrap16; rewrite Z.mod_small; lia).
      destruct (IH (S m) h2 Hcs2) as (h' & Hrun & Hcs' & Hb' & Hm');
        try assumption; try lia.
      { now rewrite Hd2. }
      exists h'. repeat split; try assumption.
      rewrite Hm', Hd2. cbn [f_mem].
      replace (Z.of_nat (S m)) with (Z.of_nat m + 1) by lia.
      reflexivity.
Qed.

End FlashBlocks.

Lemma flash_bit_read d Address di j :
  f_busy d = 0%nat ->
  flash_bit d (frame (3 :: addr_bytes Address) ++ repeat di (S j)) (32 + j)
  = Z.testbit
      (f_mem d ((Address mod 16777216 + Z.of_nat (j / 8)) mod 16777216))
      (7 - Z.of_nat (j mod 8)).
Proof.
  intros Hb. unfold flash_bit.
  rewrite opcode_of_frame by lia.
  change (frame (3 :: addr_bytes Address))
    with (frame (3 :: addr_bytes Address ++ [])).
  rewrite address_of_frame. rewrite Hb.
  replace (32 + j - 32)%nat with j by lia.
  reflexivity.
Qed.

Lemma stream_byte (g : nat -> Z) m :
  map (fun j => Z.testbit (g (j / 8)%nat) (7 - Z.of_nat (j mod 8)))
      (seq (8 * m) 8)
  = bits8 (g m).
Proof.
  assert (Hd : forall t, (t < 8)%nat -> ((t + 8 * m) / 8 = m)%nat).
  { intros t Ht. symmetry. apply (Nat.div_unique _ 8 m t); lia. }
  assert (Hm : forall t, (t < 8)%nat -> ((t + 8 * m) mod 8 = t)%nat).
  { intros t Ht. symmetry. apply (Nat.mod_unique _ 8 m t); lia. }
  cbn [seq map]. unfold bits8.
  change (8 * m)%nat with (0 + 8 * m)%nat at 1 2.
  change (S (8 * m)) with (1 + 8 * m)%nat.
  change (S (1 + 8 * m)) with (2 + 8 * m)%nat.
  change (S (2 + 8 * m)) with (3 + 8 * m)%nat.
  change (S (3 + 8 * m)) with (4 + 8 * m)%nat.
  change (S (4 + 8 * m)) with (5 + 8 * m)%nat.
  change (S (5 + 8 * m)) with (6 + 8 * m)%nat.
  change (S (6 + 8 * m)) with (7 + 8 * m)%nat.
  rewrite !Hd, !Hm by lia. reflexivity.
Qed.

Lemma bytes_of_stream (g : nat -> Z) n : forall m,
  bytes_of_bits n
    (map (fun j => Z.testbit (g (j / 8)%nat) (7 - Z.of_nat (j mod 8)))
         (seq (8 * m) (8 * n)))
  = map (fun i => byte_of_bits (bits8 (g i))) (seq m n).
Proof.
  induction n as [|n IH]; intros m; [reflexivity|].
  replace (8 * S n)%nat with (8 + 8 * n)%nat by lia.
  rewrite seq_app, map_app, stream_byte.
  rewrite bytes_of_bits_app by reflexivity.
  replace (8 * m + 8)%nat with (8 * S m)%nat by lia.
  rewrite IH. reflexivity.
Qed.

Section FlashRead.

Variable d0 : flash.
Variable junk : trace -> Z.

Local Abbreviation E := (flash_platform d0 junk).

Lemma read_samples_flash Address n h :
  select_level h = true ->
  f_busy (flash_at d0 h) = 0%nat ->
  samples E n (h ++ select_tr ++ flat_map send_tr (3 :: addr_bytes Address))
  = map (fun j =>
           Z.testbit
             (f_mem (flash_at d0 h)
                ((Address mod 16777216 + Z.of_nat (j / 8)) mod 16777216))
             (7 - Z.of_nat (j mod 8)))
      (seq 0 n).
Proof.
  intros Hcs Hb.
  assert (Hm : monitor idle_bus
                 (h ++ select_tr ++ flat_map send_tr (3 :: addr_bytes Address))
               = {| b_cs := false; b_clk := false;
                    b_di := di_after (3 :: addr_bytes Address)
                              (b_di (monitor idle_bus h));
                    b_cur := frame (3 :: addr_bytes Address);
                    b_closed := b_closed (monitor idle_bus h);
                    b_falls := S (b_falls (monitor idle_bus h));
                    b_rises := b_rises (monitor idle_bus h) |}).
  { rewrite monitor_app, monitor_app, monitor_select by assumption.
    now rewrite monitor_sends by reflexivity. }
  rewrite samples_flash by (rewrite Hm; reflexivity).
  apply map_ext. intros j. rewrite Hm, flash_out_clocked.
  cbn [b_cur b_di b_closed].
  change (length (frame (3 :: addr_bytes Address))) with 32%nat.
  now apply flash_bit_read.
Qed.

(** Reading a block from a device that is not busy returns its memory
    from the address on, modulo 2^24. *)
Lemma ReadBlock_flash Address buffer size h :
  select_level h = true ->
  f_busy (flash_at d0 h) = 0%nat ->
  0 <= size < 65536 -> (Z.to_nat size <= length buffer)%nat ->
  exists h',
    STFlash_ReadBlock E Address buffer size h
    = Done (map (fun i =>
                   byte_of_bits
                     (bits8 (f_mem (flash_at d0 h)
                               ((Address mod 16777216 + Z.of_nat i)
                                mod 16777216))))
                (seq 0 (Z.to_nat size))
            ++ skipn (Z.to_nat size) buffer) h'.
Proof.
  intros Hcs Hb Hs Hl. rewrite STFlash_ReadBlock_run by lia.
  eexists. f_equal. f_equal.
  rewrite read_samples_flash by assumption.
  exact (bytes_of_stream
           (fun i => f_mem (flash_at d0 h)
                       ((Address mod 16777216 + Z.of_nat i) mod 16777216))
           (Z.to_nat size) 0).
Qed.

End FlashRead.

Lemma map_nth_seq (l : list Z) :
  map (fun i => nth i l 0) (seq 0 (length l)) = l.
Proof.
  apply (nth_ext _ _ ((fun i => nth i l 0) 0%nat) 0).
  - now rewrite length_map, length_seq.
  - intros k Hk. rewrite length_map, length_seq in Hk.
    rewrite (map_nth (fun i => nth i l 0) (seq 0 (length l)) 0%nat k).
    now rewrite seq_nth.
Qed.

(** C1, as the code and the device of the spec have it.  When the select
    line is inactive and the device is not busy at the call, the data are
    bytes, their number fits the 16-bit size argument and the read buffer
    has room for them, [STFlash_WriteBlock] returns (the fuel only needs
    to cover the device's latency) and [STFlash_ReadBlock] of the same
    address and length then fills the buffer with exactly the data (the
    rest of a longer buffer is left as it was); the address is any
    integer, taken modulo 2^24 by both. *)
Theorem WriteBlock_ReadBlock_round_trip :
  forall d0 junk fuel Address data buffer h,
    select_level h = true ->
    f_busy (flash_at d0 h) = 0%nat ->
    Forall (fun x => 0 <= x < 256) data ->
    Z.of_nat (length data) < 65536 ->
    (length data <= length buffer)%nat ->
    (f_latency d0 < fuel)%nat ->
    exists h1 h2,
      STFlash_WriteBlock (flash_platform d0 junk) fuel Address data
        (Z.of_nat (length data)) h = Done tt h1
      /\ STFlash_ReadBlock (flash_platform d0 junk) Address buffer
           (Z.of_nat (length data)) h1
         = Done (data ++ skipn (length data) buffer) h2.
Proof.
  intros d0 junk fuel Address data buffer h Hcs Hb Hdata Hlen Hbuf Hfuel.
  destruct (WriteBlock_loop_flash d0 junk fuel Address data (length data)
              0 h Hcs Hb)
    as (hm & Hloop & Hcsm & Hbm & Hmem); try assumption; try (cbn; lia).
  cbn [skipn] in Hmem. rewrite firstn_all in Hmem.
  pose proof (STFlash_WriteDisable_run hm) as Hwd.
  destruct (transactions_after_WriteDisable _ _ Hcsm Hwd) as (Hcs1 & Ht1).
  set (h1 := hm ++ xfer_tr [4] []) in *.
  assert (Hd1 : flash_at d0 h1 = flash_exec (flash_at d0 hm) (frame [4]))
    by (rewrite (flash_at_app d0 _ _ _ Ht1); reflexivity).
  rewrite flash_exec_disable in Hd1.
  destruct (ReadBlock_flash d0 junk Address buffer (Z.of_nat (length data)) h1)
    as (h2 & Hread); try assumption; try lia.
  { rewrite Hd1. exact Hbm. }
  exists h1, h2. split.
  - unfold STFlash_WriteBlock. rewrite Nat2Z.id.
    change (Z.of_nat 0) with 0 in Hloop.
    rewrite (bind_done _ _ _ _ _ Hloop). exact Hwd.
  - rewrite Hread. f_equal. rewrite Nat2Z.id. f_equal.
    rewrite <- (map_nth_seq data) at 2.
    apply map_ext_in. intros i Hi. apply in_seq in Hi.
    rewrite Hd1. cbn [f_mem]. rewrite Hmem.
    replace ((Address mod 16777216 + Z.of_nat i) mod 16777216)
      with ((Address + (Z.of_nat 0 + Z.of_nat i)) mod 16777216)
      by (change (Z.of_nat 0) with 0; Z.div_mod_to_equations; lia).
    rewrite write_mem_nth by lia.
    apply byte_of_bits8.
    rewrite Forall_forall in Hdata. apply Hdata, nth_In. lia.
Qed.

Lemma WriteBlock_ReadBlock_round_trip_witness :
  exists h1 h2,
    STFlash_WriteBlock (flash_platform ready_flash (fun _ => 0)) 3 16777215
      [90; 17] (Z.of_nat (length [90; 17])) [] = Done tt h1
    /\ STFlash_ReadBlock (flash_platform ready_flash (fun _ => 0)) 16777215
         [0; 0; 7] (Z.of_nat (length [90; 17])) h1
       = Done ([90; 17] ++ skipn (length [90; 17]) [0; 0; 7]) h2.
Proof.
  apply (WriteBlock_ReadBlock_round_trip ready_flash (fun _ => 0) 3
           16777215 [90; 17] [0; 0; 7] []).
  - reflexivity.
  - reflexivity.
  - repeat constructor; lia.
  - cbn. lia.
  - cbn. lia.
  - cbn. lia.
Defined.

(** C1 fails when the device is busy at the call.  From a ready device,
    [STFlash_Write1Byte] returns while its program is still in progress;
    [STFlash_WriteBlock] called next sends its first program to a busy
    device, which does not accept it, and the block read back is not the
    data.  No erase takes place at all. *)
Lemma round_trip_fails_on_busy_device :
  exists h0 h1 h2 r,
    STFlash_Write1Byte 256 7 [] = Done tt h0
    /\ f_busy (flash_at ready_flash h0) = 2%nat
    /\ STFlash_WriteBlock (flash_platform ready_flash (fun _ => 0)) 5 0 [90] 1
         h0 = Done tt h1
    /\ STFlash_ReadBlock (flash_platform ready_flash (fun _ => 0)) 0 [0] 1 h1
       = Done r h2
    /\ r = [255]
    /\ r <> [90].
Proof.
  eexists. eexists. eexists. eexists.
  split; [vm_compute; reflexivity|].
  split; [vm_compute; reflexivity|].
  split; [vm_compute; reflexivity|].
  split; [vm_compute; reflexivity|].
  split; [reflexivity|discriminate].
Qed.

(** * Further properties of the driver *)

(** ** Set-up and the select primitives *)

Lemma sampled_app p t1 t2 : sampled p (t1 ++ t2) = sampled p t1 ++ sampled p t2.
Proof.
  induction t1 as [|e t1 IH]; [reflexivity|].
  destruct e as [q m|q l|q l|n|n]; cbn [app sampled]; try exact IH.
  destruct (pin_eqb p q); cbn [app]; now rewrite IH.
Qed.

Lemma sampled_recv_tr bs : sampled FLASH_DO (recv_tr bs) = bs.
Proof.
  induction bs as [|b bs IH]; [reflexivity|].
  cbn [recv_tr flat_map clock_in_tr app sampled pin_eqb].
  fold (recv_tr bs). now rewrite IH.
Qed.

Lemma observe_idle_cur s e :
  (b_cs s = true -> b_cur s = []) ->
  b_cs (observe s e) = true -> b_cur (observe s e) = [].
Proof.
  destruct s as [cs clk di cur closed falls rises].
  destruct e as [q m|[] [|]|q l|n|n], cs, clk; cbn;
    intros Hs Hcs; try reflexivity; try discriminate Hcs;
    now apply Hs.
Qed.

Lemma monitor_idle_cur t : forall s,
  (b_cs s = true -> b_cur s = []) ->
  b_cs (monitor s t) = true -> b_cur (monitor s t) = [].
Proof.
  induction t as [|e t IH]; intros s Hs; [exact Hs|].
  cbn [monitor fold_left]. apply IH. now apply observe_idle_cur.
Qed.

(** No bits are pending on an idle bus. *)
Lemma idle_bus_cur h :
  select_level h = true -> b_cur (monitor idle_bus h) = [].
Proof. apply monitor_idle_cur. reflexivity. Qed.

(** X1.  Whatever happened before, [Init_STFlash] returns with the select
    line inactive and the clock low, which is what every command expects
    on entry.  It sets the direction of port B, then of port C, and only
    then drives the two lines.  If it is called while a transaction is
    open it closes it; otherwise it adds no transaction and no select
    edge. *)
Theorem Init_STFlash_leaves_bus_idle :
  forall E h,
    exists h',
      Init_STFlash E h = Done tt h'
      /\ select_level h' = true
      /\ b_clk (monitor idle_bus h') = false
      /\ b_cur (monitor idle_bus h') = []
      /\ selects h' = selects h
      /\ transactions h'
         = transactions h
           ++ (if select_level h then [] else [b_cur (monitor idle_bus h)])
      /\ h' = h ++ [Tris PORT_B (TRISB_Master E); Tris PORT_C (TRISC_Master E);
                    Drive FLASH_SELECT true; Drive FLASH_CLOCK false].
Proof.
  intros E h. eexists. split; [apply Init_STFlash_run|].
  pose proof (idle_bus_cur h) as Hcur.
  unfold select_level, selects, transactions in *. rewrite monitor_app.
  destruct (monitor idle_bus h) as [cs clk di cur closed falls rises].
  destruct cs; cbn in *; rewrite ?app_nil_r; repeat split; auto.
Qed.

(** X3.  The select primitives from any state of the bus.
    [chip_deselect] always leaves the select line inactive and the clock
    low; on an idle bus it adds no edge and no transaction, on a selected
    one it closes the open transaction.  [chip_select] always leaves the
    device selected with the clock low and never clocks a bit in: it opens
    an empty transaction when the bus was idle and leaves an already open
    one as it is, without a second select edge.  Neither samples the
    data-out line. *)
Theorem select_primitives_from_any_state :
  forall h,
    (exists h',
       chip_deselect h = Done tt h'
       /\ select_level h' = true
       /\ b_clk (monitor idle_bus h') = false
       /\ selects h' = selects h
       /\ deselects h'
          = (deselects h + (if select_level h then 0 else 1))%nat
       /\ transactions h'
          = transactions h
            ++ (if select_level h then [] else [b_cur (monitor idle_bus h)])
       /\ sampled FLASH_DO h' = sampled FLASH_DO h)
    /\ (exists h',
          chip_select h = Done tt h'
          /\ select_level h' = false
          /\ b_clk (monitor idle_bus h') = false
          /\ selects h' = (selects h + (if select_level h then 1 else 0))%nat
          /\ deselects h' = deselects h
          /\ transactions h' = transactions h
          /\ b_cur (monitor idle_bus h')
             = (if select_level h then [] else b_cur (monitor idle_bus h))
          /\ sampled FLASH_DO h' = sampled FLASH_DO h).
Proof.
  intros h. split.
  - eexists. split; [apply chip_deselect_run|].
    rewrite sampled_app.
    unfold select_level, selects, deselects, transactions.
    rewrite monitor_app.
    destruct (monitor idle_bus h) as [cs clk di cur closed falls rises].
    destruct cs; cbn; rewrite ?app_nil_r; repeat split; try reflexivity; lia.
  - eexists. split; [apply chip_select_run|].
    rewrite sampled_app.
    unfold select_level, selects, deselects, transactions.
    rewrite monitor_app.
    destruct (monitor idle_bus h) as [cs clk di cur closed falls rises].
    destruct cs; cbn; rewrite ?app_nil_r; repeat split; try reflexivity; lia.
Qed.

(** ** Bytes on the wire *)

Lemma bits8_mod v : bits8 (v mod 256) = bits8 v.
Proof.
  unfold bits8. change 256 with (2 ^ 8).
  now rewrite !Z.mod_pow2_bits_low by lia.
Qed.

Lemma byte_of_bits8_mod v : byte_of_bits (bits8 v) = v mod 256.
Proof.
  rewrite <- bits8_mod. apply byte_of_bits8. apply Z.mod_pos_bound. lia.
Qed.

(** X4.  [STFlash_SendByte] sends its argument modulo 256: any two
    arguments with the same low eight bits give the same outcome, and a
    receiver that assembles the eight levels of the data line most
    significant bit first gets the argument modulo 256, which is the
    argument itself for a byte. *)
Theorem SendByte_sends_low_byte :
  forall data h,
    STFlash_SendByte data h = STFlash_SendByte (data mod 256) h
    /\ exists t,
         STFlash_SendByte data h = Done tt (h ++ t)
         /\ length (driven FLASH_DI t) = 8%nat
         /\ byte_of_bits (driven FLASH_DI t) = data mod 256
         /\ sampled FLASH_DO t = [].
Proof.
  intros data h. split.
  - rewrite !STFlash_SendByte_run. unfold send_tr. now rewrite bits8_mod.
  - exists (send_tr data). split; [apply STFlash_SendByte_run|].
    change (driven FLASH_DI (send_tr data)) with (bits8 data).
    split; [reflexivity|]. split; [apply byte_of_bits8_mod|reflexivity].
Qed.

Lemma sampled_xfer_tr out inb : sampled FLASH_DO (xfer_tr out inb) = inb.
Proof.
  unfold xfer_tr. rewrite !sampled_app, sampled_recv_tr.
  replace (sampled FLASH_DO (flat_map send_tr out)) with (@nil bool).
  - cbn [select_tr deselect_tr sampled app]. apply app_nil_r.
  - induction out as [|v out IH]; [reflexivity|].
    cbn [flat_map]. rewrite sampled_app, <- IH. reflexivity.
Qed.

Lemma testbit0_land1 r : (Z.land r 1 =? 0) = negb (Z.testbit r 0).
Proof.
  change 1 with (Z.ones 1). rewrite Z.land_ones by lia.
  change (2 ^ 1) with 2. rewrite <- Z.bit0_mod.
  destruct (Z.testbit r 0); reflexivity.
Qed.

(** X5.  [STFlash_readStatus] always returns, after sampling the data-out
    line exactly eight times; the status it returns is a byte whose bits
    7, 6, ..., 0 are the eight levels in the order they were sampled.  So
    the busy test of [STFlash_WriteBlock], [status & 0x01], looks at the
    level sampled last. *)
Theorem readStatus_bits_are_samples :
  forall E h,
    exists status t,
      STFlash_readStatus E h = Done status (h ++ t)
      /\ 0 <= status < 256
      /\ length (sampled FLASH_DO t) = 8%nat
      /\ bits8 status = sampled FLASH_DO t
      /\ (Z.land status 1 =? 0) = negb (nth 7 (sampled FLASH_DO t) false).
Proof.
  intros E h. rewrite STFlash_readStatus_run.
  exists (status_at E h), (xfer_tr [5] (status_bits E h)).
  split; [reflexivity|].
  assert (Hlen : length (status_bits E h) = 8%nat) by apply length_samples.
  rewrite sampled_xfer_tr. unfold status_at.
  split; [now apply byte_of_bits_range|]. split; [exact Hlen|].
  assert (Hb : bits8 (byte_of_bits (status_bits E h)) = status_bits E h)
    by now apply bits8_byte_of_bits.
  split; [exact Hb|].
  rewrite testbit0_land1. f_equal. rewrite <- Hb at 2. reflexivity.
Qed.

(** X6.  [STFlash_waitUntilReady] tests the level of the data-out line,
    not a bit of the status byte.  When the line is low right after the
    status opcode it returns at once (one poll is enough); it then
    clocks eight more levels in and throws the byte away, whatever it is,
    so that it samples the line nine times in all within one
    transaction. *)
Theorem waitUntilReady_returns_on_low_line :
  forall E h fuel,
    wire E FLASH_DO (h ++ select_tr ++ send_tr 5) = false ->
    (0 < fuel)%nat ->
    exists bs,
      length bs = 8%nat
      /\ STFlash_waitUntilReady E fuel h
         = Done tt (h ++ select_tr ++ send_tr 5 ++ [Sample FLASH_DO false]
                      ++ recv_tr bs ++ deselect_tr)
      /\ bs = samples E 8 (h ++ select_tr ++ send_tr 5
                             ++ [Sample FLASH_DO false]).
Proof.
  intros E h fuel Hlow Hfuel.
  exists (samples E 8 (h ++ select_tr ++ send_tr 5 ++ [Sample FLASH_DO false])).
  split; [apply length_samples|]. split; [|reflexivity].
  rewrite (STFlash_waitUntilReady_run E 0 h fuel).
  - cbn [highs repeat app]. rewrite <- !app_assoc. reflexivity.
  - intros j Hj. lia.
  - cbn [highs repeat]. now rewrite app_nil_r.
  - exact Hfuel.
Qed.

Lemma waitUntilReady_returns_on_low_line_witness :
  exists bs,
    length bs = 8%nat
    /\ STFlash_waitUntilReady (const_platform false 0) 1 []
       = Done tt ([] ++ select_tr ++ send_tr 5 ++ [Sample FLASH_DO false]
                     ++ recv_tr bs ++ deselect_tr)
    /\ bs = samples (const_platform false 0) 8
              ([] ++ select_tr ++ send_tr 5 ++ [Sample FLASH_DO false]).
Proof.
  apply (waitUntilReady_returns_on_low_line (const_platform false 0) [] 1).
  - reflexivity.
  - lia.
Defined.

(** X7.  The commands that change the device do not wait for it:
    [STFlash_WriteEnable], [STFlash_WriteDisable], [STFlash_writeStatus],
    [STFlash_Write1Byte] and [STFlash_EraseBlock] always return and never
    sample the data-out line, so they return before the device has
    reported anything about the program or erase they started. *)
Theorem write_commands_never_sample :
  forall h,
    (exists t, STFlash_WriteEnable h = Done tt (h ++ t)
               /\ sampled FLASH_DO t = [])
    /\ (exists t, STFlash_WriteDisable h = Done tt (h ++ t)
                  /\ sampled FLASH_DO t = [])
    /\ (forall value,
          exists t, STFlash_writeStatus value h = Done tt (h ++ t)
                    /\ sampled FLASH_DO t = [])
    /\ (forall Address data,
          exists t, STFlash_Write1Byte Address data h = Done tt (h ++ t)
                    /\ sampled FLASH_DO t = [])
    /\ (forall Address,
          exists t, STFlash_EraseBlock Address h = Done tt (h ++ t)
                    /\ sampled FLASH_DO t = []).
Proof.
  intros h. repeat apply conj.
  - eexists. split; [apply STFlash_WriteEnable_run|reflexivity].
  - eexists. split; [apply STFlash_WriteDisable_run|reflexivity].
  - intros value. eexists.
    split; [apply STFlash_writeStatus_run|reflexivity].
  - intros Address data. eexists.
    split; [apply STFlash_Write1Byte_run|reflexivity].
  - intros Address. eexists.
    split; [apply STFlash_EraseBlock_run|reflexivity].
Qed.

(** ** Clock discipline *)

Lemma levels_at_app sel get t1 : forall s t2,
  levels_at sel get s (t1 ++ t2)
  = levels_at sel get s t1 ++ levels_at sel get (monitor s t1) t2.
Proof.
  induction t1 as [|e t1 IH]; intros s t2; [reflexivity|].
  cbn [app levels_at monitor fold_left]. rewrite IH.
  now rewrite <- app_assoc.
Qed.

Lemma levels_sample_recv bs : forall s,
  levels_at is_sample b_clk s (recv_tr bs) = repeat true (length bs).
Proof.
  induction bs as [|b bs IH]; intros s; [reflexivity|].
  unfold recv_tr. cbn [flat_map]. fold (recv_tr bs).
  rewrite levels_at_app, IH.
  destruct s as [cs clk di cur closed falls rises].
  destruct cs, clk; reflexivity.
Qed.

Lemma monitor_bit_clk s b : b_clk (monitor s (bit_tr b)) = false.
Proof. destruct s as [cs clk di cur closed falls rises]. now destruct clk. Qed.

Lemma levels_data_bits bs : forall s,
  b_clk s = false ->
  levels_at is_data_drive b_clk s (flat_map bit_tr bs)
  = repeat false (length bs).
Proof.
  induction bs as [|b bs IH]; intros s Hclk; [reflexivity|].
  cbn [flat_map]. rewrite levels_at_app, IH by apply monitor_bit_clk.
  destruct s as [cs clk di cur closed falls rises]. cbn in Hclk. subst clk.
  reflexivity.
Qed.

Lemma monitor_bits_clk bs : forall s,
  b_clk s = false -> b_clk (monitor s (flat_map bit_tr bs)) = false.
Proof.
  induction bs as [|b bs IH]; intros s Hclk; [exact Hclk|].
  cbn [flat_map]. rewrite monitor_app. apply IH, monitor_bit_clk.
Qed.

Lemma levels_sample_bits bs : forall s,
  levels_at is_sample b_clk s (flat_map bit_tr bs) = [].
Proof.
  induction bs as [|b bs IH]; intros s; [reflexivity|].
  cbn [flat_map]. rewrite levels_at_app, IH. reflexivity.
Qed.

Lemma levels_sample_highs k s :
  levels_at is_sample b_clk s (highs k) = repeat (b_clk s) k.
Proof.
  induction k as [|k IH]; [reflexivity|].
  unfold highs in *. cbn [repeat levels_at is_sample observe app].
  now rewrite IH.
Qed.

(** X8.  The phase of the clock.  [STFlash_GetByte] and
    [STFlash_getBytes] sample the data-out line only while the clock is
    high, whatever the level of the clock on entry (they raise it
    themselves before each sample).  [STFlash_SendByte], entered with the
    clock low as [chip_select] and every earlier byte leave it, changes
    the data-in line only while the clock is low.  The wait loop of
    [STFlash_waitUntilReady] samples the line with the clock low, and the
    eight samples of the byte it then reads with the clock high. *)
Theorem samples_and_data_changes_by_clock_phase :
  (forall E h,
     exists r t,
       STFlash_GetByte E h = Done r (h ++ t)
       /\ levels_at is_sample b_clk (monitor idle_bus h) t = repeat true 8)
  /\ (forall E data size h,
        0 <= size < 65536 -> (Z.to_nat size <= length data)%nat ->
        exists data' t,
          STFlash_getBytes E data size h = Done data' (h ++ t)
          /\ levels_at is_sample b_clk (monitor idle_bus h) t
             = repeat true (8 * Z.to_nat size))
  /\ (forall data h,
        b_clk (monitor idle_bus h) = false ->
        exists t,
          STFlash_SendByte data h = Done tt (h ++ t)
          /\ levels_at is_data_drive b_clk (monitor idle_bus h) t
             = repeat false 8
          /\ b_clk (monitor idle_bus (h ++ t)) = false)
  /\ (forall E fuel h h',
        STFlash_waitUntilReady E fuel h = Done tt h' ->
        exists k t,
          h' = h ++ t
          /\ levels_at is_sample b_clk (monitor idle_bus h) t
             = repeat false (S k) ++ repeat true 8).
Proof.
  repeat apply conj.
  - intros E h. rewrite STFlash_GetByte_run. eexists. eexists.
    split; [reflexivity|].
    now rewrite levels_sample_recv, length_samples.
  - intros E data size h Hs Hl.
    rewrite STFlash_getBytes_run by (try lia; assumption).
    eexists. eexists. split; [reflexivity|].
    now rewrite levels_sample_recv, length_samples.
  - intros data h Hclk. rewrite STFlash_SendByte_run. eexists.
    split; [reflexivity|]. unfold send_tr. split.
    + now rewrite levels_data_bits by assumption.
    + rewrite monitor_app. now apply monitor_bits_clk.
  - intros E fuel h h' Hrun.
    apply STFlash_waitUntilReady_inv in Hrun as (k & _ & _ & _ & ->).
    exists k. eexists. split; [rewrite <- !app_assoc; reflexivity|].
    unfold send_tr.
    rewrite levels_at_app, levels_at_app, levels_sample_bits.
    rewrite levels_at_app, levels_at_app, levels_sample_highs.
    rewrite levels_at_app, levels_sample_recv, length_samples.
    rewrite monitor_highs.
    assert (Hclk : b_clk (monitor (monitor (monitor idle_bus h) select_tr)
                            (flat_map bit_tr (bits8 5))) = false).
    { apply monitor_bits_clk.
      destruct (monitor idle_bus h) as [cs clk di cur closed falls rises].
      now destruct cs. }
    rewrite Hclk.
    replace (S k) with (k + 1)%nat by lia. rewrite repeat_app.
    cbn [levels_at is_sample observe app select_tr deselect_tr repeat].
    rewrite ?Hclk, ?app_nil_r, <- ?app_assoc. reflexivity.
Qed.

Lemma samples_and_data_changes_by_clock_phase_witness :
  b_clk (monitor idle_bus select_tr) = false
  /\ exists t,
       STFlash_SendByte 165 select_tr = Done tt (select_tr ++ t)
       /\ levels_at is_data_drive b_clk (monitor idle_bus select_tr) t
          = repeat false 8
       /\ b_clk (monitor idle_bus (select_tr ++ t)) = false.
Proof.
  split; [reflexivity|].
  apply (proj1 (proj2 (proj2 samples_and_data_changes_by_clock_phase))).
  reflexivity.
Defined.

(** ** Buffers and their bounds *)

Lemma byte_of_bits_firstn8_range bs : 0 <= byte_of_bits (firstn 8 bs) < 256.
Proof.
  pose proof (bits_value_range (firstn 8 bs)) as Hr.
  pose proof (firstn_le_length 8 bs) as Hl.
  unfold byte_of_bits. split; [apply Hr|].
  apply Z.lt_le_trans with (2 ^ Z.of_nat (length (firstn 8 bs))); [apply Hr|].
  change 256 with (2 ^ 8). apply Z.pow_le_mono_r; lia.
Qed.

Lemma bytes_of_bits_range n : forall bs,
  Forall (fun x => 0 <= x < 256) (bytes_of_bits n bs).
Proof.
  induction n as [|n IH]; intros bs; cbn [bytes_of_bits]; constructor.
  - apply byte_of_bits_firstn8_range.
  - apply IH.
Qed.

Section Bounds.

Variable E : platform.

Lemma getBytes_bits_fault n data i h :
  0 <= i -> nth_error data (Z.to_nat i) = None ->
  getBytes_bits E (S n) data i h = Fault.
Proof.
  intros Hi Hnone. cbn [getBytes_bits]. step_run.
  unfold input, buf_get. cbn [app].
  destruct (Z.ltb_spec i 0); [lia|]. now rewrite Hnone.
Qed.

Lemma getBytes_loop_fault n : forall data k h,
  (k <= length data)%nat -> (length data < k + n)%nat ->
  Z.of_nat (k + n) <= 65536 ->
  getBytes_loop E n data (Z.of_nat k) h = Fault.
Proof.
  induction n as [|n IH]; intros data k h Hk Hlen Hmax; [lia|].
  cbn [getBytes_loop].
  destruct (nth_error data k) as [x|] eqn:Hx.
  - assert (Hkl : (k < length data)%nat)
      by (apply nth_error_Some; congruence).
    erewrite bind_done;
      [|apply getBytes_bits_run with (x := x); [lia|now rewrite Nat2Z.id]].
    replace (wrap16 (Z.of_nat k + 1)) with (Z.of_nat (S k))
      by (unfold wrap16; rewrite Z.mod_small; lia).
    apply IH; rewrite ?length_set_nth; lia.
  - unfold bind.
    rewrite getBytes_bits_fault; [reflexivity|lia|now rewrite Nat2Z.id].
Qed.

Lemma poll_status_no_fault fuel : forall h, poll_status E fuel h <> Fault.
Proof.
  induction fuel as [|fuel IH]; intros h; [discriminate|].
  rewrite poll_status_step. destruct (busy_at E h); [apply IH|discriminate].
Qed.

Lemma WriteBlock_loop_no_fault fuel Address buffer n : forall k h,
  (k + n <= length buffer)%nat -> Z.of_nat (k + n) <= 65536 ->
  WriteBlock_loop E fuel n Address buffer (Z.of_nat k) h <> Fault.
Proof.
  induction n as [|n IH]; intros k h Hlen Hmax; [discriminate|].
  destruct (nth_error buffer k) as [x|] eqn:Hx;
    [|apply nth_error_None in Hx; lia].
  rewrite (WriteBlock_loop_step E fuel n Address buffer (Z.of_nat k) x h)
    by (rewrite ?Nat2Z.id; first [lia|assumption]).
  unfold bind.
  destruct (poll_status E fuel _) as [[] h2| |] eqn:Hp.
  - destruct n as [|n]; [discriminate|].
    replace (wrap16 (Z.of_nat k + 1)) with (Z.of_nat (S k))
      by (unfold wrap16; rewrite Z.mod_small; lia).
    apply IH; lia.
  - discriminate.
  - exfalso. exact (poll_status_no_fault _ _ Hp).
Qed.

Lemma programmed_bound Address buffer n i h h' :
  programmed E Address buffer n i h h' ->
  forall k, i = Z.of_nat k -> (k <= length buffer)%nat ->
  Z.of_nat (k + n) <= 65536 ->
  (k + n <= length buffer)%nat.
Proof.
  induction 1 as [i h | n i x k0 h h' Hi Hx h1 Hbusy Hready Hrest IH];
    intros k -> Hkl Hmax.
  - lia.
  - rewrite Nat2Z.id in Hx.
    assert (Hk : (k < length buffer)%nat)
      by (apply nth_error_Some; congruence).
    destruct n as [|n]; [lia|].
    specialize (IH (S k)).
    replace (wrap16 (Z.of_nat k + 1)) with (Z.of_nat (S k)) in IH
      by (unfold wrap16; rewrite Z.mod_small; lia).
    specialize (IH eq_refl). lia.
Qed.

End Bounds.

(** X10.  [STFlash_ReadBlock] makes no check of the buffer.  For a size
    in the range of its 16-bit type it writes outside the caller's buffer
    exactly when the buffer is shorter than [size]; otherwise it returns
    a buffer of the same length whose first [size] elements are bytes
    just received and whose other elements are untouched. *)
Theorem ReadBlock_buffer_bounds :
  forall E Address buffer size h,
    0 <= size < 65536 ->
    (STFlash_ReadBlock E Address buffer size h = Fault
     <-> (length buffer < Z.to_nat size)%nat)
    /\ ((Z.to_nat size <= length buffer)%nat ->
        exists buffer' h',
          STFlash_ReadBlock E Address buffer size h = Done buffer' h'
          /\ length buffer' = length buffer
          /\ skipn (Z.to_nat size) buffer' = skipn (Z.to_nat size) buffer
          /\ Forall (fun x => 0 <= x < 256) (firstn (Z.to_nat size) buffer')).
Proof.
  intros E Address buffer size h Hs.
  assert (Hok : (Z.to_nat size <= length buffer)%nat ->
                exists buffer' h',
                  STFlash_ReadBlock E Address buffer size h = Done buffer' h'
                  /\ length buffer' = length buffer
                  /\ skipn (Z.to_nat size) buffer'
                     = skipn (Z.to_nat size) buffer
                  /\ Forall (fun x => 0 <= x < 256)
                            (firstn (Z.to_nat size) buffer')).
  { intros Hl. rewrite STFlash_ReadBlock_run by lia.
    eexists. eexists. split; [reflexivity|].
    set (bytes := bytes_of_bits _ _).
    assert (Hb : length bytes = Z.to_nat size)
      by apply length_bytes_of_bits.
    split; [|split].
    - rewrite length_app, length_skipn. lia.
    - rewrite skipn_app, Hb, Nat.sub_diag.
      rewrite <- Hb at 1. rewrite skipn_all. reflexivity.
    - rewrite firstn_app, Hb, Nat.sub_diag.
      rewrite <- Hb at 1. rewrite firstn_all. cbn [firstn].
      rewrite app_nil_r. apply bytes_of_bits_range. }
  split; [|exact Hok]. split.
  - intros Hf. destruct (Nat.lt_ge_cases (length buffer) (Z.to_nat size))
      as [Hlt|Hge]; [exact Hlt|].
    destruct (Hok Hge) as (b' & h' & Hrun & _). congruence.
  - intros Hlt. unfold STFlash_ReadBlock.
    rewrite (bind_done _ _ _ _ _ (chip_select_run h)).
    do 4 rewrite (bind_done _ _ _ _ _ (STFlash_SendByte_run _ _)).
    unfold bind, STFlash_getBytes. change 0 with (Z.of_nat 0).
    rewrite getBytes_loop_fault; [reflexivity|lia|lia|lia].
Qed.

Lemma ReadBlock_buffer_bounds_witness :
  0 <= 3 < 65536
  /\ (STFlash_ReadBlock (const_platform true 0) 0 [1; 2] 3 [] = Fault
      <-> (length [1; 2] < Z.to_nat 3)%nat).
Proof.
  split; [lia|].
  apply (proj1 (ReadBlock_buffer_bounds (const_platform true 0) 0 [1; 2] 3 []
                  ltac:(lia))).
Defined.

(** X11.  [STFlash_WriteBlock] makes no check of the buffer either.  For
    a size in the range of its type, it returns only if the buffer holds
    at least [size] bytes, and with such a buffer it never reads outside
    it: a call with a shorter buffer ends by reading past the end of the
    buffer, unless it is still polling. *)
Theorem WriteBlock_buffer_bounds :
  forall E fuel Address buffer size h,
    0 <= size < 65536 ->
    (forall h',
       STFlash_WriteBlock E fuel Address buffer size h = Done tt h' ->
       (Z.to_nat size <= length buffer)%nat)
    /\ ((Z.to_nat size <= length buffer)%nat ->
        STFlash_WriteBlock E fuel Address buffer size h <> Fault).
Proof.
  intros E fuel Address buffer size h Hs. split.
  - intros h' Hrun. unfold STFlash_WriteBlock in Hrun.
    apply bind_inv in Hrun as ([] & hm & Hloop & _).
    apply WriteBlock_loop_programmed in Hloop.
    apply (programmed_bound E _ _ _ _ _ _ Hloop 0%nat eq_refl);
      cbn [Nat.add]; lia.
  - intros Hl. unfold STFlash_WriteBlock, bind.
    destruct (WriteBlock_loop E fuel (Z.to_nat size) Address buffer 0 h)
      as [[] hm| |] eqn:Hloop.
    + rewrite STFlash_WriteDisable_run. discriminate.
    + discriminate.
    + exfalso.
      apply (WriteBlock_loop_no_fault E fuel Address buffer (Z.to_nat size)
               0 h); [cbn [Nat.add]; lia|cbn [Nat.add]; lia|exact Hloop].
Qed.

Lemma WriteBlock_buffer_bounds_witness :
  0 <= 2 < 65536
  /\ ((Z.to_nat 2 <= length [7; 8])%nat ->
      STFlash_WriteBlock (const_platform true 0) 4 0 [7; 8] 2 [] <> Fault).
Proof.
  split; [lia|].
  apply (proj2 (WriteBlock_buffer_bounds (const_platform true 0) 4 0 [7; 8] 2
                  [] ltac:(lia))).
Defined.

(** X12.  Blocks of no bytes.  [STFlash_ReadBlock] with size 0 still
    sends its opcode and the address in one transaction, samples
    nothing and returns the buffer as it was, even an empty one.
    [STFlash_WriteBlock] with size 0 reads no byte of the buffer, programs
    nothing, polls nothing (it returns with no fuel at all) and sends
    only the write disable. *)
Theorem blocks_of_size_zero :
  (forall E Address buffer h,
     STFlash_ReadBlock E Address buffer 0 h
     = Done buffer (h ++ xfer_tr (3 :: addr_bytes Address) []))
  /\ (forall E fuel Address buffer h,
        STFlash_WriteBlock E fuel Address buffer 0 h
        = Done tt (h ++ xfer_tr [4] []))
  /\ (forall Address,
        sampled FLASH_DO (xfer_tr (3 :: addr_bytes Address) []) = []
        /\ transactions (xfer_tr (3 :: addr_bytes Address) [])
           = [frame (3 :: addr_bytes Address)]).
Proof.
  repeat apply conj.
  - intros E Address buffer h.
    rewrite STFlash_ReadBlock_run by (cbn; lia). reflexivity.
  - intros E fuel Address buffer h. unfold STFlash_WriteBlock.
    cbn [Z.to_nat WriteBlock_loop]. unfold bind, ret.
    apply STFlash_WriteDisable_run.
  - intros Address. split; [apply sampled_xfer_tr|].
    unfold transactions. rewrite monitor_xfer by reflexivity.
    cbn [bus_xfer b_closed idle_bus length repeat app]. now rewrite app_nil_r.
Qed.

(** ** Receiving several bytes *)

Lemma GetByte_seq_run E n : forall h,
  GetByte_seq E n h
  = Done (bytes_of_bits n (samples E (8 * n) h))
         (h ++ recv_tr (samples E (8 * n) h)).
Proof.
  induction n as [|n IH]; intros h.
  - cbn. now rewrite app_nil_r.
  - cbn [GetByte_seq].
    rewrite (bind_done _ _ _ _ _ (STFlash_GetByte_run E h)).
    rewrite (bind_done _ _ _ _ _ (IH _)). unfold ret.
    replace (8 * S n)%nat with (8 + 8 * n)%nat by lia.
    rewrite samples_app, bytes_of_bits_app by apply length_samples.
    now rewrite recv_tr_app, app_assoc.
Qed.

(** X14.  [STFlash_getBytes] is [STFlash_GetByte] repeated: with a buffer
    of at least [size] bytes, it leaves the same history as [size] calls
    of [STFlash_GetByte] in a row and stores in the first [size] elements
    of the buffer the bytes that these calls return, in order. *)
Theorem getBytes_is_repeated_GetByte :
  forall E data size h,
    0 <= size < 65536 -> (Z.to_nat size <= length data)%nat ->
    exists bytes h',
      GetByte_seq E (Z.to_nat size) h = Done bytes h'
      /\ length bytes = Z.to_nat size
      /\ STFlash_getBytes E data size h
         = Done (bytes ++ skipn (Z.to_nat size) data) h'.
Proof.
  intros E data size h Hs Hl. rewrite GetByte_seq_run.
  eexists. eexists. split; [reflexivity|].
  split; [apply length_bytes_of_bits|].
  apply STFlash_getBytes_run; [lia|exact Hl].
Qed.

Lemma getBytes_is_repeated_GetByte_witness :
  exists bytes h',
    GetByte_seq (const_platform true 0) (Z.to_nat 2) [] = Done bytes h'
    /\ length bytes = Z.to_nat 2
    /\ STFlash_getBytes (const_platform true 0) [0; 0; 9] 2 []
       = Done (bytes ++ skipn (Z.to_nat 2) [0; 0; 9]) h'.
Proof.
  apply (getBytes_is_repeated_GetByte (const_platform true 0) [0; 0; 9] 2 []).
  - lia.
  - cbn. lia.
Defined.

(** ** Assertions along a computation *)

Lemma triple_ret {A} (P : trace -> Prop) (a : A) : triple P (ret a) P.
Proof. intros h b h' HP Hrun. apply Done_inj in Hrun as [_ <-]. exact HP. Qed.

Lemma triple_bind {A B} (P R Q : trace -> Prop) (m : M A) (k : A -> M B) :
  triple P m R -> (forall a, triple R (k a) Q) -> triple P (bind m k) Q.
Proof.
  intros Hm Hk h b h2 HP Hrun.
  apply bind_inv in Hrun as (a & h1 & H1 & H2).
  exact (Hk a h1 b h2 (Hm h a h1 HP H1) H2).
Qed.

Lemma triple_emit (P Q : trace -> Prop) e :
  (forall h, P h -> Q (h ++ [e])) -> triple P (emit e) Q.
Proof.
  intros H h [] h' HP Hrun. rewrite emit_run in Hrun.
  apply Done_inj in Hrun as [_ <-]. auto.
Qed.

Lemma triple_input E (P Q : trace -> Prop) p :
  (forall h b, P h -> Q (h ++ [Sample p b])) -> triple P (input E p) Q.
Proof.
  intros H h b h' HP Hrun. unfold input in Hrun.
  apply Done_inj in Hrun as [_ <-]. auto.
Qed.

Lemma triple_uninit E (P : trace -> Prop) : triple P (uninit E) P.
Proof.
  intros h x h' HP Hrun. unfold uninit in Hrun.
  apply Done_inj in Hrun as [_ <-]. exact HP.
Qed.

Lemma triple_buf_get (P : trace -> Prop) buffer i :
  triple P (buf_get buffer i) P.
Proof.
  intros h x h' HP Hrun. apply buf_get_inv in Hrun as (_ & _ & ->). exact HP.
Qed.

Lemma triple_buf_set (P : trace -> Prop) buffer i v :
  triple P (buf_set buffer i v) P.
Proof.
  intros h x h' HP Hrun. unfold buf_set in Hrun.
  destruct (i <? 0); [discriminate Hrun|].
  destruct (nth_error buffer (Z.to_nat i)); [|discriminate Hrun].
  apply Done_inj in Hrun as [_ <-]. exact HP.
Qed.

Lemma triple_spin {A} (P Q : trace -> Prop) :
  triple P (fun _ => @Spin A) Q.
Proof. intros h a h' _ Hrun. discriminate Hrun. Qed.

(** ** What every command keeps

    Take three assertions on histories: [Rest] for the bus between two
    commands, [Open] for the inside of a transaction, [Up] for the moment
    after the select line was driven inactive.  If the events that the
    driver emits carry them into one another as listed below, then every
    command that starts in [Rest] and returns ends in [Rest]. *)

Section Discipline.

Variable E : platform.
Variables Rest Open Up : trace -> Prop.

Hypothesis rest_clock_low :
  forall h, Rest h -> Rest (h ++ [Drive FLASH_CLOCK false]).
Hypothesis rest_delay_us :
  forall h n, Rest h -> Rest (h ++ [DelayUs n]).
Hypothesis rest_select :
  forall h, Rest h -> Open (h ++ [Drive FLASH_SELECT false]).
Hypothesis open_delay_us :
  forall h n, Open h -> Open (h ++ [DelayUs n]).
Hypothesis open_delay_cycles :
  forall h n, Open h -> Open (h ++ [DelayCycles n]).
Hypothesis open_data :
  forall h b, Open h -> Open (h ++ [Drive FLASH_DI b]).
Hypothesis open_clock :
  forall h b, Open h -> Open (h ++ [Drive FLASH_CLOCK b]).
Hypothesis open_sample :
  forall h b, Open h -> Open (h ++ [Sample FLASH_DO b]).
Hypothesis open_release :
  forall h, Open h -> Up (h ++ [Drive FLASH_SELECT true]).
Hypothesis up_release :
  forall h, Up h -> Up (h ++ [Drive FLASH_SELECT true]).
Hypothesis up_clock_low :
  forall h, Up h -> Rest (h ++ [Drive FLASH_CLOCK false]).

Ltac event P Q :=
  eapply triple_bind;
  [first [apply (triple_emit P Q) | apply (triple_input E P Q)];
   intros; auto
  |intros].

Ltac then_ lem := eapply triple_bind; [apply lem|intros].

Lemma chip_select_opens : triple Rest chip_select Open.
Proof.
  unfold chip_select, output_low, delay_us.
  event Rest Rest. event Rest Open.
  apply (triple_emit Open Open). auto.
Qed.

Lemma chip_deselect_from_up : triple Up chip_deselect Rest.
Proof.
  unfold chip_deselect, output_high, output_low, delay_us.
  event Up Up. event Up Rest.
  apply (triple_emit Rest Rest). auto.
Qed.

Lemma chip_deselect_closes : triple Open chip_deselect Rest.
Proof.
  unfold chip_deselect, output_high, output_low, delay_us.
  event Open Up. event Up Rest.
  apply (triple_emit Rest Rest). auto.
Qed.

Lemma SendByte_loop_open n : forall data,
  triple Open (SendByte_loop n data) Open.
Proof.
  induction n as [|n IH]; intros data; cbn [SendByte_loop];
    [apply triple_ret|].
  destruct (shift_left data false) as [b data'].
  unfold output_bit, output_high, output_low, delay_cycles.
  do 5 event Open Open. apply IH.
Qed.

Lemma SendByte_open data : triple Open (STFlash_SendByte data) Open.
Proof. apply SendByte_loop_open. Qed.

Lemma GetByte_loop_open n : forall x,
  triple Open (GetByte_loop E n x) Open.
Proof.
  induction n as [|n IH]; intros x; cbn [GetByte_loop];
    [apply triple_ret|].
  unfold output_high, output_low, delay_cycles.
  do 5 event Open Open. apply IH.
Qed.

Lemma GetByte_open : triple Open (STFlash_GetByte E) Open.
Proof.
  unfold STFlash_GetByte. then_ (triple_uninit E Open).
  apply GetByte_loop_open.
Qed.

Lemma getBytes_bits_open n : forall data i,
  triple Open (getBytes_bits E n data i) Open.
Proof.
  induction n as [|n IH]; intros data i; cbn [getBytes_bits];
    [apply triple_ret|].
  unfold output_high, output_low, delay_cycles.
  do 3 event Open Open.
  then_ (triple_buf_get Open). then_ (triple_buf_set Open).
  do 2 event Open Open. apply IH.
Qed.

Lemma getBytes_loop_open n : forall data i,
  triple Open (getBytes_loop E n data i) Open.
Proof.
  induction n as [|n IH]; intros data i; cbn [getBytes_loop];
    [apply triple_ret|].
  then_ getBytes_bits_open. apply IH.
Qed.

Lemma wait_DO_low_open fuel : triple Open (wait_DO_low E fuel) Open.
Proof.
  induction fuel as [|fuel IH]; cbn [wait_DO_low]; [apply triple_spin|].
  event Open Open. destruct a; [apply IH|apply triple_ret].
Qed.

Lemma readStatus_keeps : triple Rest (STFlash_readStatus E) Rest.
Proof.
  unfold STFlash_readStatus.
  then_ chip_select_opens. then_ SendByte_open. then_ GetByte_open.
  then_ chip_deselect_closes. apply triple_ret.
Qed.

Lemma waitUntilReady_keeps fuel :
  triple Rest (STFlash_waitUntilReady E fuel) Rest.
Proof.
  unfold STFlash_waitUntilReady.
  then_ chip_select_opens. then_ SendByte_open. then_ wait_DO_low_open.
  then_ GetByte_open. apply chip_deselect_closes.
Qed.

Lemma WriteEnable_keeps : triple Rest STFlash_WriteEnable Rest.
Proof.
  unfold STFlash_WriteEnable.
  then_ chip_select_opens. then_ SendByte_open. apply chip_deselect_closes.
Qed.

Lemma WriteDisable_keeps : triple Rest STFlash_WriteDisable Rest.
Proof.
  unfold STFlash_WriteDisable.
  then_ chip_select_opens. then_ SendByte_open. apply chip_deselect_closes.
Qed.

Lemma writeStatus_keeps value : triple Rest (STFlash_writeStatus value) Rest.
Proof.
  unfold STFlash_writeStatus.
  then_ WriteEnable_keeps. then_ chip_select_opens.
  do 2 then_ SendByte_open. then_ chip_deselect_closes.
  apply WriteDisable_keeps.
Qed.

Lemma ReadBlock_keeps Address buffer size :
  triple Rest (STFlash_ReadBlock E Address buffer size) Rest.
Proof.
  unfold STFlash_ReadBlock, STFlash_getBytes.
  then_ chip_select_opens. do 4 then_ SendByte_open.
  then_ getBytes_loop_open. then_ chip_deselect_closes. apply triple_ret.
Qed.

Lemma Write1Byte_keeps Address data :
  triple Rest (STFlash_Write1Byte Address data) Rest.
Proof.
  unfold STFlash_Write1Byte.
  then_ WriteEnable_keeps. then_ chip_select_opens.
  do 5 then_ SendByte_open. apply chip_deselect_closes.
Qed.

Lemma EraseBlock_keeps Address : triple Rest (STFlash_EraseBlock Address) Rest.
Proof.
  unfold STFlash_EraseBlock, output_high.
  then_ WriteEnable_keeps. then_ chip_select_opens.
  do 4 then_ SendByte_open. event Open Up.
  then_ chip_deselect_from_up. apply WriteDisable_keeps.
Qed.

Lemma poll_status_keeps fuel : triple Rest (poll_status E fuel) Rest.
Proof.
  induction fuel as [|fuel IH]; cbn [poll_status]; [apply triple_spin|].
  then_ readStatus_keeps.
  destruct (Z.land a 1 =? 0); [apply triple_ret|apply IH].
Qed.

Lemma WriteBlock_loop_keeps fuel n : forall Address buffer i,
  triple Rest (WriteBlock_loop E fuel n Address buffer i) Rest.
Proof.
  induction n as [|n IH]; intros Address buffer i; cbn [WriteBlock_loop];
    [apply triple_ret|].
  then_ (triple_buf_get Rest). then_ Write1Byte_keeps.
  unfold delay_us. event Rest Rest.
  then_ poll_status_keeps. apply IH.
Qed.

Lemma WriteBlock_keeps fuel Address buffer size :
  triple Rest (STFlash_WriteBlock E fuel Address buffer size) Rest.
Proof.
  unfold STFlash_WriteBlock.
  then_ WriteBlock_loop_keeps. apply WriteDisable_keeps.
Qed.

Lemma run_call_keeps fuel c : triple Rest (run_call E fuel c) Rest.
Proof.
  destruct c; cbn [run_call].
  - then_ readStatus_keeps. apply triple_ret.
  - apply waitUntilReady_keeps.
  - apply WriteEnable_keeps.
  - apply WriteDisable_keeps.
  - apply writeStatus_keeps.
  - then_ ReadBlock_keeps. apply triple_ret.
  - apply Write1Byte_keeps.
  - apply WriteBlock_keeps.
  - apply EraseBlock_keeps.
Qed.

Lemma run_calls_keep fuel cs : triple Rest (run_calls E fuel cs) Rest.
Proof.
  induction cs as [|c cs IH]; cbn [run_calls]; [apply triple_ret|].
  then_ run_call_keeps. exact IH.
Qed.

End Discipline.

(** ** The clock and the select line *)

Lemma monitor_snoc s h e : monitor s (h ++ [e]) = observe (monitor s h) e.
Proof. now rewrite monitor_app. Qed.

Lemma clocked_only_selected_snoc h e :
  clocked_only_selected h ->
  (is_clock_up e = true -> select_level h = false) ->
  clocked_only_selected (h ++ [e]).
Proof.
  intros Hh He. unfold clocked_only_selected.
  rewrite levels_at_app. apply Forall_app. split; [exact Hh|].
  cbn [levels_at]. destruct (is_clock_up e); [|constructor].
  repeat constructor. now apply He.
Qed.

Lemma at_rest_nil : at_rest [].
Proof. repeat split. constructor. Qed.

Ltac bus_event :=
  intros;
  repeat match goal with
         | H : at_rest _ |- _ => destruct H as (? & ? & ?)
         | H : in_transaction _ |- _ => destruct H as (? & ?)
         | H : released _ |- _ => destruct H as (? & ?)
         end;
  unfold at_rest, in_transaction, released;
  repeat split;
  try (apply clocked_only_selected_snoc; [assumption|];
       cbn [is_clock_up]; intros; first [assumption|discriminate]);
  unfold select_level in *; rewrite monitor_snoc;
  destruct (monitor idle_bus _) as [? ? ? ? ? ? ?];
  cbn in *; subst; try reflexivity;
  repeat match goal with |- context [if ?c then _ else _] => destruct c end;
  reflexivity.

Section ClockDiscipline.

Variable E : platform.

Local Abbreviation kept lemma :=
  (lemma E at_rest in_transaction released).

Lemma readStatus_at_rest : triple at_rest (STFlash_readStatus E) at_rest.
Proof. apply (kept readStatus_keeps); bus_event. Qed.

Lemma waitUntilReady_at_rest fuel :
  triple at_rest (STFlash_waitUntilReady E fuel) at_rest.
Proof. apply (kept waitUntilReady_keeps); bus_event. Qed.

Lemma WriteEnable_at_rest : triple at_rest STFlash_WriteEnable at_rest.
Proof.
  apply (WriteEnable_keeps at_rest in_transaction released); bus_event.
Qed.

Lemma WriteDisable_at_rest : triple at_rest STFlash_WriteDisable at_rest.
Proof.
  apply (WriteDisable_keeps at_rest in_transaction released); bus_event.
Qed.

Lemma writeStatus_at_rest value :
  triple at_rest (STFlash_writeStatus value) at_rest.
Proof.
  apply (writeStatus_keeps at_rest in_transaction released); bus_event.
Qed.

Lemma ReadBlock_at_rest Address buffer size :
  triple at_rest (STFlash_ReadBlock E Address buffer size) at_rest.
Proof. apply (kept ReadBlock_keeps); bus_event. Qed.

Lemma Write1Byte_at_rest Address data :
  triple at_rest (STFlash_Write1Byte Address data) at_rest.
Proof.
  apply (Write1Byte_keeps at_rest in_transaction released); bus_event.
Qed.

Lemma EraseBlock_at_rest Address :
  triple at_rest (STFlash_EraseBlock Address) at_rest.
Proof.
  apply (EraseBlock_keeps at_rest in_transaction released); bus_event.
Qed.

Lemma WriteBlock_at_rest fuel Address buffer size :
  triple at_rest (STFlash_WriteBlock E fuel Address buffer size) at_rest.
Proof. apply (kept WriteBlock_keeps); bus_event. Qed.

Lemma run_calls_at_rest fuel cs : triple at_rest (run_calls E fuel cs) at_rest.
Proof. apply (kept run_calls_keep); bus_event. Qed.

End ClockDiscipline.

(** X9.  No command pulses the clock while the device is deselected.
    The bus is at rest when the select line is inactive, the clock is low
    and every raising of the clock so far fell inside a transaction.
    [Init_STFlash] puts the bus at rest; every command that starts with
    the bus at rest and returns leaves it at rest again, and so does every
    sequence of commands.  The guarantee is the commands' own: the byte
    primitives [STFlash_GetByte] and [STFlash_SendByte] pulse the clock
    whatever the select level, so a caller that uses them on a bus at
    rest clocks a deselected device. *)
Theorem clock_pulses_only_while_selected :
  (forall E h,
     clocked_only_selected h ->
     exists h0, Init_STFlash E h = Done tt h0 /\ at_rest h0)
  /\ (forall E h,
        at_rest h ->
        (exists r h', STFlash_readStatus E h = Done r h' /\ at_rest h')
        /\ (forall fuel h',
              STFlash_waitUntilReady E fuel h = Done tt h' -> at_rest h')
        /\ (exists h', STFlash_WriteEnable h = Done tt h' /\ at_rest h')
        /\ (exists h', STFlash_WriteDisable h = Done tt h' /\ at_rest h')
        /\ (forall value,
              exists h', STFlash_writeStatus value h = Done tt h'
                         /\ at_rest h')
        /\ (forall Address buffer size buffer' h',
              STFlash_ReadBlock E Address buffer size h = Done buffer' h' ->
              at_rest h')
        /\ (forall Address data,
              exists h', STFlash_Write1Byte Address data h = Done tt h'
                         /\ at_rest h')
        /\ (forall Address,
              exists h', STFlash_EraseBlock Address h = Done tt h'
                         /\ at_rest h')
        /\ (forall fuel Address buffer size h',
              STFlash_WriteBlock E fuel Address buffer size h = Done tt h' ->
              at_rest h')
        /\ (forall fuel cs h',
              run_calls E fuel cs h = Done tt h' -> at_rest h'))
  /\ (forall E,
        at_rest []
        /\ (exists r h',
              STFlash_GetByte E [] = Done r h' /\ ~ clocked_only_selected h')
        /\ (forall data,
              exists h',
                STFlash_SendByte data [] = Done tt h'
                /\ ~ clocked_only_selected h')).
Proof.
  split; [|split].
  - intros E h Hh. eexists. split; [apply Init_STFlash_run|].
    change [Tris PORT_B (TRISB_Master E); Tris PORT_C (TRISC_Master E);
            Drive FLASH_SELECT true; Drive FLASH_CLOCK false]
      with ([Tris PORT_B (TRISB_Master E); Tris PORT_C (TRISC_Master E)]
            ++ [Drive FLASH_SELECT true] ++ [Drive FLASH_CLOCK false]).
    rewrite !app_assoc.
    assert (H2 : clocked_only_selected
                   (h ++ [Tris PORT_B (TRISB_Master E);
                          Tris PORT_C (TRISC_Master E)])).
    { unfold clocked_only_selected. rewrite levels_at_app.
      apply Forall_app. split; [exact Hh|constructor]. }
    assert (H3 : released
                   ((h ++ [Tris PORT_B (TRISB_Master E);
                           Tris PORT_C (TRISC_Master E)])
                    ++ [Drive FLASH_SELECT true])).
    { split.
      - unfold select_level. rewrite monitor_snoc.
        destruct (monitor idle_bus _) as [[] ? ? ? ? ? ?]; reflexivity.
      - apply clocked_only_selected_snoc; [exact H2|discriminate]. }
    revert H3. generalize ((h ++ [Tris PORT_B (TRISB_Master E);
                                   Tris PORT_C (TRISC_Master E)])
                           ++ [Drive FLASH_SELECT true]).
    bus_event.
  - intros E h Hh. repeat apply conj.
    + eexists. eexists. split; [apply STFlash_readStatus_run|].
      exact (readStatus_at_rest E h _ _ Hh (STFlash_readStatus_run E h)).
    + intros fuel h'. apply waitUntilReady_at_rest, Hh.
    + eexists. split; [apply STFlash_WriteEnable_run|].
      exact (WriteEnable_at_rest h _ _ Hh (STFlash_WriteEnable_run h)).
    + eexists. split; [apply STFlash_WriteDisable_run|].
      exact (WriteDisable_at_rest h _ _ Hh (STFlash_WriteDisable_run h)).
    + intros value. eexists. split; [apply STFlash_writeStatus_run|].
      exact (writeStatus_at_rest value h _ _ Hh
               (STFlash_writeStatus_run value h)).
    + intros Address buffer size buffer' h'. apply ReadBlock_at_rest, Hh.
    + intros Address data. eexists. split; [apply STFlash_Write1Byte_run|].
      exact (Write1Byte_at_rest Address data h _ _ Hh
               (STFlash_Write1Byte_run Address data h)).
    + intros Address. eexists. split; [apply STFlash_EraseBlock_run|].
      exact (EraseBlock_at_rest Address h _ _ Hh
               (STFlash_EraseBlock_run Address h)).
    + intros fuel Address buffer size h'. apply WriteBlock_at_rest, Hh.
    + intros fuel cs h'. apply run_calls_at_rest, Hh.
  - intros E. split; [apply at_rest_nil|]. split.
    + eexists. eexists. split; [apply STFlash_GetByte_run|].
      cbn [samples recv_tr flat_map clock_in_tr app].
      intros Hc. inversion Hc as [|x l Hx Hl]. discriminate Hx.
    + intros data. eexists. split; [apply STFlash_SendByte_run|].
      cbn [send_tr bits8 flat_map bit_tr app].
      intros Hc. inversion Hc as [|x l Hx Hl]. discriminate Hx.
Qed.

Lemma clock_pulses_only_while_selected_witness :
  at_rest []
  /\ exists h',
       run_calls (const_platform true 0) 2
         [Call_EraseBlock 4096; Call_readStatus; Call_Write1Byte 0 90] []
       = Done tt h'
       /\ at_rest h'.
Proof.
  assert (H0 : at_rest []) by (repeat split; constructor).
  split; [exact H0|].
  eexists. split; [vm_compute; reflexivity|].
  refine (proj2 (proj2 (proj2 (proj2 (proj2 (proj2 (proj2 (proj2 (proj2
           (proj1 (proj2 clock_pulses_only_while_selected)
              (const_platform true 0) [] H0)))))))))
           2%nat [Call_EraseBlock 4096; Call_readStatus; Call_Write1Byte 0 90]
           _ _).
  vm_compute. reflexivity.
Defined.

(** ** The port directions *)

Lemma direction_snoc p h e :
  direction p (h ++ [e])
  = match e with
    | Tris q mask => if port_eqb p q then Some mask else direction p h
    | _ => direction p h
    end.
Proof. unfold direction. now rewrite fold_left_app. Qed.

Section Directions.

Variable E : platform.
Variable p : port.
Variable d : option Z.

Local Abbreviation held := (fun h => direction p h = d).

Lemma run_calls_hold_direction fuel cs :
  triple held (run_calls E fuel cs) held.
Proof.
  apply (run_calls_keep E held held held);
    intros; cbv beta; now rewrite direction_snoc.
Qed.

End Directions.

(** X2.  The port directions are written by [Init_STFlash] and
    [Disable_STFlash] and by nothing else.  From any history,
    [Disable_STFlash] leaves both ports with the masks of the released
    state, written to port C first, and [Init_STFlash] leaves both with
    the masks of the master state; before either was called no direction
    has been written.  No command writes a direction: whatever sequence of
    commands is called, and whatever it does on the four lines, both ports
    hold afterwards what they held before.  So after [Disable_STFlash] the
    ports stay released through every command until [Init_STFlash] is
    called again. *)
Theorem directions_set_only_by_Init_and_Disable :
  forall E,
    (forall h,
       exists h',
         Disable_STFlash E h = Done tt h'
         /\ h' = h ++ [Tris PORT_C (TRISC_Disable E);
                       Tris PORT_B (TRISB_Disable E)]
         /\ direction PORT_B h' = Some (TRISB_Disable E)
         /\ direction PORT_C h' = Some (TRISC_Disable E))
    /\ (forall h,
          exists h',
            Init_STFlash E h = Done tt h'
            /\ direction PORT_B h' = Some (TRISB_Master E)
            /\ direction PORT_C h' = Some (TRISC_Master E))
    /\ (forall p, direction p [] = None)
    /\ (forall fuel cs p h h',
          run_calls E fuel cs h = Done tt h' ->
          direction p h' = direction p h)
    /\ (forall fuel cs h hd h',
          Disable_STFlash E h = Done tt hd ->
          run_calls E fuel cs hd = Done tt h' ->
          direction PORT_B h' = Some (TRISB_Disable E)
          /\ direction PORT_C h' = Some (TRISC_Disable E)).
Proof.
  intros E.
  assert (Hdis : forall h,
            Disable_STFlash E h
            = Done tt (h ++ [Tris PORT_C (TRISC_Disable E);
                             Tris PORT_B (TRISB_Disable E)]))
    by (intros h; unfold Disable_STFlash; step_run; reflexivity).
  assert (Hd : forall h,
            direction PORT_B (h ++ [Tris PORT_C (TRISC_Disable E);
                                    Tris PORT_B (TRISB_Disable E)])
            = Some (TRISB_Disable E)
            /\ direction PORT_C (h ++ [Tris PORT_C (TRISC_Disable E);
                                       Tris PORT_B (TRISB_Disable E)])
               = Some (TRISC_Disable E))
    by (intros h; unfold direction; rewrite !fold_left_app; split; reflexivity).
  assert (Hkeep : forall fuel cs p h h',
            run_calls E fuel cs h = Done tt h' ->
            direction p h' = direction p h)
    by (intros fuel cs p h h' Hrun;
        exact (run_calls_hold_direction E p (direction p h) fuel cs
                 h tt h' eq_refl Hrun)).
  repeat apply conj.
  - intros h. eexists. split; [apply Hdis|]. split; [reflexivity|apply Hd].
  - intros h. eexists. split; [apply Init_STFlash_run|].
    unfold direction. rewrite !fold_left_app. split; reflexivity.
  - reflexivity.
  - exact Hkeep.
  - intros fuel cs h hd h' Hrun Hcalls.
    rewrite Hdis in Hrun. apply Done_inj in Hrun as [_ <-].
    rewrite !(Hkeep fuel cs _ _ _ Hcalls). apply Hd.
Qed.

Lemma directions_set_only_by_Init_and_Disable_witness :
  exists hd h',
    Disable_STFlash (const_platform true 0) [] = Done tt hd
    /\ run_calls (const_platform true 0) 1
         [Call_Write1Byte 16 90; Call_readStatus; Call_EraseBlock 0] hd
       = Done tt h'
    /\ direction PORT_B h' = Some 255
    /\ direction PORT_C h' = Some 255.
Proof.
  eexists. eexists.
  split; [vm_compute; reflexivity|].
  split; [vm_compute; reflexivity|].
  refine (proj2 (proj2 (proj2 (proj2
            (directions_set_only_by_Init_and_Disable (const_platform true 0)))))
            1%nat [Call_Write1Byte 16 90; Call_readStatus; Call_EraseBlock 0]
            [] _ _ _ _).
  - vm_compute. reflexivity.
  - vm_compute. reflexivity.
Defined.

(** ** Addresses of a block *)

Lemma Write1Byte_congr A B data h :
  A mod 16777216 = B mod 16777216 ->
  STFlash_Write1Byte A data h = STFlash_Write1Byte B data h.
Proof.
  intros HAB. rewrite !STFlash_Write1Byte_run. unfold Write1Byte_tr.
  now rewrite (addr_bytes_congr A B HAB).
Qed.

Lemma WriteBlock_loop_congr E fuel A B buffer n : forall i h,
  A mod 16777216 = B mod 16777216 ->
  WriteBlock_loop E fuel n A buffer i h = WriteBlock_loop E fuel n B buffer i h.
Proof.
  induction n as [|n IH]; intros i h HAB; [reflexivity|].
  cbn [WriteBlock_loop]. unfold bind at 1 5.
  destruct (buf_get buffer i h) as [x h0| |]; try reflexivity.
  assert (Hw : wrap32 (A + i) mod 16777216 = wrap32 (B + i) mod 16777216).
  { rewrite !wrap32_mod24. Z.div_mod_to_equations. lia. }
  unfold bind at 1 4. rewrite (Write1Byte_congr _ _ x h0 Hw).
  destruct (STFlash_Write1Byte (wrap32 (B + i)) x h0) as [[] h1| |];
    try reflexivity.
  unfold bind at 1 3. destruct (delay_us 10 h1) as [[] h2| |];
    try reflexivity.
  unfold bind. destruct (poll_status E fuel h2) as [[] h3| |];
    try reflexivity.
  now apply IH.
Qed.

Lemma addr_bytes_digits Address :
  addr_bytes Address
  = [Address mod 16777216 / 65536;
     Address mod 16777216 / 256 mod 256;
     Address mod 16777216 mod 256].
Proof.
  unfold addr_bytes. rewrite Make8_0, Make8_1, Make8_2.
  assert (H2 : (Address / 65536) mod 256 = Address mod 16777216 / 65536)
    by (Z.div_mod_to_equations; lia).
  assert (H1 : (Address / 256) mod 256 = Address mod 16777216 / 256 mod 256)
    by (Z.div_mod_to_equations; lia).
  assert (H0 : Address mod 256 = Address mod 16777216 mod 256)
    by (Z.div_mod_to_equations; lia).
  now rewrite H2, H1, H0.
Qed.

Lemma program_frame_addr Address x :
  frame (2 :: addr_bytes Address ++ [x])
  = program_frame (Address mod 16777216) x.
Proof. now rewrite addr_bytes_digits. Qed.

Lemma is_program_program_frame a x : is_program (program_frame a x) = true.
Proof. reflexivity. Qed.

Lemma no_program_in_polls k : filter is_program (repeat status_frame k) = [].
Proof. induction k as [|k IH]; [reflexivity|exact IH]. Qed.

(** The program transactions of the loop, when the counter starts at
    [j] and does not leave the range of its type. *)
Lemma programs_of_block ks : forall Address buffer j,
  Z.of_nat j + Z.of_nat (length ks) <= 65536 ->
  filter is_program (block_frames Address buffer (Z.of_nat j) ks)
  = map (fun i => program_frame ((Address + Z.of_nat i) mod 16777216)
                                (nth i buffer 0))
        (seq j (length ks)).
Proof.
  induction ks as [|k ks IH]; intros Address buffer j Hj; [reflexivity|].
  cbn [length] in Hj. cbn [block_frames length seq map].
  rewrite Nat2Z.id, program_frame_addr, wrap32_mod24.
  change ([frame [6];
           program_frame ((Address + Z.of_nat j) mod 16777216)
                         (nth j buffer 0)]
          ++ repeat status_frame (S k)
          ++ block_frames Address buffer (wrap16 (Z.of_nat j + 1)) ks)
    with ([frame [6]]
          ++ [program_frame ((Address + Z.of_nat j) mod 16777216)
                            (nth j buffer 0)]
          ++ repeat status_frame (S k)
          ++ block_frames Address buffer (wrap16 (Z.of_nat j + 1)) ks).
  rewrite !filter_app, no_program_in_polls.
  change (filter is_program [frame [6]]) with (@nil (list bool)).
  cbn [filter]. rewrite is_program_program_frame. cbn [app]. f_equal.
  destruct ks as [|k' ks]; [reflexivity|].
  cbn [length] in Hj.
  replace (wrap16 (Z.of_nat j + 1)) with (Z.of_nat (S j))
    by (unfold wrap16; rewrite Z.mod_small; lia).
  apply IH. cbn [length]. lia.
Qed.

(** The bits of a program transaction, read most significant first:
    twenty-four bits of address after the opcode, then the data. *)
Lemma program_frame_fields a x :
  0 <= a < 16777216 -> 0 <= x < 256 ->
  byte_of_bits (firstn 8 (program_frame a x)) = 2
  /\ bits_value 0 (firstn 24 (skipn 8 (program_frame a x))) = a
  /\ byte_of_bits (skipn 32 (program_frame a x)) = x
  /\ length (program_frame a x) = 40%nat.
Proof.
  intros Ha Hx. split; [reflexivity|]. split; [|split; [|reflexivity]].
  - change (firstn 24 (skipn 8 (program_frame a x)))
      with (bits8 (a / 65536) ++ bits8 (a / 256 mod 256)
            ++ bits8 (a mod 256)).
    rewrite !bits_value_app.
    rewrite !bits_value_bits8 by (Z.div_mod_to_equations; lia).
    Z.div_mod_to_equations. lia.
  - change (skipn 32 (program_frame a x)) with (bits8 x).
    now apply byte_of_bits8.
Qed.

(** X13.  A written block wraps around at the end of the 24-bit address
    space.  Among the transactions of a call of [STFlash_WriteBlock] that
    returns, the program transactions (forty bits, opcode 0x02) are, in
    order, one per byte of the block: the one of byte number [i] carries
    the address [(Address + i) mod 2^24] and the data [buffer[i]],
    although the sum is computed in 32 bits.  The address is the value of
    the twenty-four bits after the opcode, the data the value of the last
    eight.  Two start addresses that agree modulo 2^24 give the same
    outcome of [STFlash_WriteBlock], history included. *)
Theorem WriteBlock_address_modulo_2_24 :
  (forall E fuel Address buffer size h h',
     select_level h = true -> 0 <= size < 65536 ->
     STFlash_WriteBlock E fuel Address buffer size h = Done tt h' ->
     exists txs,
       transactions h' = transactions h ++ txs
       /\ filter is_program txs
          = map (fun i => program_frame ((Address + Z.of_nat i) mod 16777216)
                                        (nth i buffer 0))
                (seq 0 (Z.to_nat size)))
  /\ (forall a x,
        0 <= a < 16777216 -> 0 <= x < 256 ->
        byte_of_bits (firstn 8 (program_frame a x)) = 2
        /\ bits_value 0 (firstn 24 (skipn 8 (program_frame a x))) = a
        /\ byte_of_bits (skipn 32 (program_frame a x)) = x
        /\ length (program_frame a x) = 40%nat)
  /\ (forall E fuel A B buffer size h,
        A mod 16777216 = B mod 16777216 ->
        STFlash_WriteBlock E fuel A buffer size h
        = STFlash_WriteBlock E fuel B buffer size h).
Proof.
  split; [|split].
  - intros E fuel Address buffer size h h' Hcs Hs Hrun.
    destruct (monitor_WriteBlock E fuel Address buffer size h h' Hcs Hrun)
      as (ks & Hlen & Hmon).
    exists (block_frames Address buffer 0 ks ++ [frame [4]]). split.
    + unfold transactions. rewrite Hmon. cbn [bus_xfer b_closed repeat].
      now rewrite bus_block_closed, !app_nil_r, <- !app_assoc.
    + rewrite filter_app.
      change (filter is_program [frame [4]]) with (@nil (list bool)).
      rewrite app_nil_r, <- Hlen.
      apply (programs_of_block ks Address buffer 0). rewrite Hlen. lia.
  - exact program_frame_fields.
  - intros E fuel A B buffer size h HAB. unfold STFlash_WriteBlock, bind.
    now rewrite (WriteBlock_loop_congr E fuel A B buffer _ 0 h HAB).
Qed.

Lemma WriteBlock_address_modulo_2_24_witness :
  exists h' txs,
    STFlash_WriteBlock (const_platform false 0) 1 16777215 [90; 91] 2 []
    = Done tt h'
    /\ transactions h' = transactions [] ++ txs
    /\ filter is_program txs
       = [program_frame 16777215 90; program_frame 0 91].
Proof.
  eexists.
  assert (Hrun : STFlash_WriteBlock (const_platform false 0) 1 16777215
                   [90; 91] 2 []
                 = Done tt
                     (poll_hist (const_platform false 0) 1
                        (poll_hist (const_platform false 0) 1
                           ([] ++ Write1Byte_tr 16777215 90 ++ [DelayUs 10])
                         ++ Write1Byte_tr 0 91 ++ [DelayUs 10])
                      ++ xfer_tr [4] []))
    by (vm_compute; reflexivity).
  destruct (proj1 WriteBlock_address_modulo_2_24 (const_platform false 0)
              1%nat 16777215 [90; 91] 2 [] _ eq_refl ltac:(lia) Hrun)
    as (txs & Htx & Hprog).
  exists txs. split; [exact Hrun|]. split; [exact Htx|exact Hprog].
Defined.
